(** * DealQ underwriting pipeline: a shallow embedding of its deterministic core

    The development follows the Python sources of the extraction,
    classification, structuring and Excel-generation services.  Python values
    that reach these functions are JSON values (they come out of [json.loads])
    and are modelled by [pyval]; exceptions are modelled by the [result]
    monad; dictionaries keep their insertion order and are association
    lists or [gmap]s, as each function needs. *)

From Stdlib Require Import ZArith List String Ascii Bool Lia.
From stdpp Require Import base option list gmap strings sorting pretty.

Set Warnings "-register-all".
Local Open Scope string_scope.
Local Open Scope list_scope.
Local Open Scope Z_scope.

(** ** Python values and exceptions *)

(** A binary floating-point number, kept exactly: [FFin m e] is [m * 2^e]. *)
Inductive pyfloat :=
| FNaN
| FInf (neg : bool)
| FFin (m e : Z).

(** The values [json.loads] produces. *)
Inductive pyval :=
| PNone
| PBool (b : bool)
| PInt (z : Z)
| PFloat (f : pyfloat)
| PStr (s : string)
| PList (l : list pyval)
| PDict (d : list (string * pyval)).

Inductive exn :=
| TypeError
| ValueError
| OverflowError
| IndexError
| AttributeError
| IllegalCharacterError.

Inductive result (A : Type) :=
| Ok (a : A)
| Raise (e : exn).
Arguments Ok {A} a.
Arguments Raise {A} e.

Definition rbind {A B} (r : result A) (k : A -> result B) : result B :=
  match r with
  | Ok a => k a
  | Raise e => Raise e
  end.

Notation "'do' x <- r ; k" := (rbind r (fun x => k))
  (at level 10, x name, r at level 100, k at level 200).

(** Iterating a fallible loop body over a list, left to right. *)
Fixpoint rfold {A S} (body : S -> A -> result S) (l : list A) (s : S) : result S :=
  match l with
  | [] => Ok s
  | x :: l' => do s' <- body s x; rfold body l' s'
  end.

(** ** Python dictionaries with JSON keys *)

Module PyDict.

(** Lists and dicts are unhashable: using one as a key raises TypeError. *)
Definition hashable (v : pyval) : bool :=
  match v with
  | PList _ | PDict _ => false
  | _ => true
  end.

(** Numbers compare by value across bool, int and float. *)
Definition num_view (v : pyval) : option pyfloat :=
  match v with
  | PBool b => Some (FFin (Z.b2z b) 0)
  | PInt z => Some (FFin z 0)
  | PFloat f => Some f
  | _ => None
  end.

Definition float_eqb (a b : pyfloat) : bool :=
  match a, b with
  | FFin m1 e1, FFin m2 e2 =>
      let e := Z.min e1 e2 in
      Z.eqb (m1 * 2 ^ (e1 - e)) (m2 * 2 ^ (e2 - e))
  | FInf s1, FInf s2 => Bool.eqb s1 s2
  | FNaN, FNaN => true   (* json.loads hands out one shared NaN object *)
  | _, _ => false
  end.

(** Key equality of a dict lookup on hashable JSON values. *)
Definition key_eqb (a b : pyval) : bool :=
  match a, b with
  | PNone, PNone => true
  | PStr s, PStr t => String.eqb s t
  | _, _ =>
      match num_view a, num_view b with
      | Some x, Some y => float_eqb x y
      | _, _ => false
      end
  end.

(** A dict is its list of items in insertion order. *)
Definition t := list (pyval * pyval).

Fixpoint find (d : t) (k : pyval) : option pyval :=
  match d with
  | [] => None
  | (k', v) :: d' => if key_eqb k' k then Some v else find d' k
  end.

(** Assignment keeps the position (and the key object) of an existing
    entry and appends a new one otherwise. *)
Fixpoint store (d : t) (k v : pyval) : t :=
  match d with
  | [] => [(k, v)]
  | (k', v') :: d' =>
      if key_eqb k' k then (k', v) :: d' else (k', v') :: store d' k v
  end.

(** [d[k] = v] *)
Definition setitem (d : t) (k v : pyval) : result t :=
  if hashable k then Ok (store d k v) else Raise TypeError.

(** [d.get(k, default)] *)
Definition get (d : t) (k dflt : pyval) : result pyval :=
  if hashable k then Ok (default dflt (find d k)) else Raise TypeError.

End PyDict.

(** ** T12 structuring: the deterministic match step
    (services/underwriting/structuring/t12_utils.py) *)

Module T12.

Definition row := list pyval.

(** First loop of [match_categories_with_amounts]: one pass over the
    categorization rows, filling [category_lookup]. *)
Definition lookup_step (category_lookup : PyDict.t) (item : row)
  : result PyDict.t :=
  if (2 <=? length item)%nat then
    match item !! 0%nat, item !! 1%nat with
    | Some line_item, Some category =>
        PyDict.setitem category_lookup line_item category
    | _, _ => Raise IndexError
    end
  else Ok category_lookup.

(** Second loop: one output triple per extraction row of length >= 2. *)
Definition match_step (category_lookup : PyDict.t) (acc : list row) (item : row)
  : result (list row) :=
  if (2 <=? length item)%nat then
    match item !! 0%nat, item !! 1%nat with
    | Some line_item, Some amount =>
        do category <- PyDict.get category_lookup line_item (PStr "Unknown");
        Ok (acc ++ [[line_item; amount; category]])
    | _, _ => Raise IndexError
    end
  else Ok acc.

Definition match_categories_with_amounts
    (line_items_and_amounts line_items_and_categories : list row)
  : result (list row) :=
  do category_lookup <- rfold lookup_step line_items_and_categories [];
  rfold (match_step category_lookup) line_items_and_amounts [].

(** [convert_to_objects]: the triples as named records. *)
Record line_item_object := {
  line_item : pyval;
  total : pyval;
  category : pyval
}.

Definition convert_to_objects (categorized_items : list row)
  : result (list line_item_object) :=
  rfold (fun acc item =>
           match item !! 0%nat, item !! 1%nat, item !! 2%nat with
           | Some l, Some t, Some c =>
               Ok (acc ++ [{| line_item := l; total := t; category := c |}])
           | _, _, _ => Raise IndexError
           end) categorized_items [].

(** *** Reading the inputs *)

(** An extraction pair as the specification has it: a line-item string, an
    amount, possibly more cells. *)
Definition is_pair (item : row) : Prop :=
  exists s a rest, item = PStr s :: a :: rest.

(** The line item of a row that is used (length >= 2) is a JSON scalar:
    None, a boolean, a number or a string.  A list or a dict in that place
    cannot be a dictionary key. *)
Definition scalar_key (item : row) : Prop :=
  forall k c rest, item = k :: c :: rest -> PyDict.hashable k = true.

(** The category the categorization list assigns to [s]: the one of
    the last row [s; c; ...] in list order. *)
Fixpoint last_category (cats : list row) (s : string) : option pyval :=
  match cats with
  | [] => None
  | item :: cats' =>
      match last_category cats' s with
      | Some c => Some c
      | None =>
          match item with
          | PStr t :: c :: _ => if String.eqb t s then Some c else None
          | _ => None
          end
      end
  end.

(** What the second loop appends for one extraction row. *)
Definition triple_of (d : PyDict.t) (item : row) : option row :=
  match item with
  | k :: a :: _ => Some [k; a; default (PStr "Unknown") (PyDict.find d k)]
  | _ => None
  end.

(** Join completeness for one pair of inputs, as the specification states
    it: the call returns one triple per extraction pair, at the same
    position and with the same line item and amount, and with a category
    the categorization list gives to that string, or "Unknown" when it
    gives none. *)
Definition join_complete (pairs cats : list row) : Prop :=
  exists out,
    match_categories_with_amounts pairs cats = Ok out /\
    length out = length pairs /\
    forall (i : nat) s a rest,
      pairs !! i = Some (PStr s :: a :: rest) ->
      exists c,
        out !! i = Some [PStr s; a; c] /\
        ((exists rest', (PStr s :: c :: rest') ∈ cats) \/
         (c = PStr "Unknown" /\
          forall c' rest', (PStr s :: c' :: rest') ∉ cats)).

End T12.

(** ** OM classification result and its merge
    (models/domain/underwriting.py) *)

Module OM.

Record ExtractedPropertyInfo := {
  value : string;
  first_page : Z
}.

(** The fields tagged [field_type="property_info"], in declaration order. *)
Inductive property_info_field :=
| property_name | address | zip_code | city | state | number_of_units
| year_built | parking_spaces | gross_square_feet | asking_price.

(** The fields tagged [field_type="page_list"]. *)
Inductive page_list_field :=
| t12 | rent_roll | executive_summary | market_overview.

(** [getattr(result, field_name)] is application of the matching
    projection. *)
Record EnhancedClassificationResult := {
  property_info : property_info_field -> option ExtractedPropertyInfo;
  page_list : page_list_field -> list Z
}.

(** The inner loop over [results] for one property-info field: the first
    value that is not None. *)
Fixpoint first_value (field_name : property_info_field)
    (results : list EnhancedClassificationResult)
  : option ExtractedPropertyInfo :=
  match results with
  | [] => None
  | result :: results' =>
      match property_info result field_name with
      | Some field_value => Some field_value
      | None => first_value field_name results'
      end
  end.

(** [all_pages] after the inner loop for one page-list field. *)
Definition all_pages (field_name : page_list_field)
    (results : list EnhancedClassificationResult) : list Z :=
  foldl (fun acc result => acc ++ page_list result field_name) [] results.

(** [sorted(list(set(xs)))]: the set is enumerated in some order and the
    enumeration is sorted. *)
Definition sorted_set (xs : list Z) : list Z :=
  merge_sort Z.le (elements (list_to_set xs : gset Z)).

Definition merge_results (results : list EnhancedClassificationResult)
  : EnhancedClassificationResult :=
  {| property_info := fun field_name => first_value field_name results;
     page_list := fun field_name => sorted_set (all_pages field_name results) |}.

Definition create_empty_result : EnhancedClassificationResult :=
  {| property_info := fun _ => None; page_list := fun _ => [] |}.

End OM.

(** ** Python strings

    A string is a sequence of code points; the model keeps the code points
    below 256. *)

Module PyStr.

Definition nl : string := String "010"%char EmptyString.

Definition len (s : string) : Z := Z.of_nat (String.length s).

(** [str.isspace] on one character. *)
Definition isspace (c : ascii) : bool :=
  let n := nat_of_ascii c in
  ((9 <=? n) && (n <=? 13) || (28 <=? n) && (n <=? 32)
   || (n =? 133) || (n =? 160))%nat.

Fixpoint lstrip (s : string) : string :=
  match s with
  | EmptyString => EmptyString
  | String c s' => if isspace c then lstrip s' else s
  end.

Definition rstrip (s : string) : string :=
  String.rev (lstrip (String.rev s)).

(** [s.strip()] *)
Definition strip (s : string) : string := rstrip (lstrip s).

(** [s.startswith(m)] *)
Fixpoint starts_with (m s : string) : bool :=
  match m, s with
  | EmptyString, _ => true
  | String a m', String b s' => Ascii.eqb a b && starts_with m' s'
  | String _ _, EmptyString => false
  end.

(** [s.find(m)]: index of the first occurrence, [None] for -1. *)
Fixpoint find (m s : string) : option nat :=
  if starts_with m s then Some 0%nat
  else match s with
       | EmptyString => None
       | String _ s' => S <$> find m s'
       end.

(** [m in s] *)
Definition contains (m s : string) : bool :=
  match find m s with Some _ => true | None => false end.

(** [s[n:]] and [s[:n]] for an index [n >= 0]. *)
Fixpoint slice_from (n : nat) (s : string) : string :=
  match n, s with
  | O, _ => s
  | S n', String _ s' => slice_from n' s'
  | S _, EmptyString => EmptyString
  end.

Fixpoint slice_to (n : nat) (s : string) : string :=
  match n, s with
  | O, _ => EmptyString
  | S n', String c s' => String c (slice_to n' s')
  | S _, EmptyString => EmptyString
  end.

(** [s.split(sep)] for a one-character separator. *)
Fixpoint split (sep : ascii) (s : string) : list string :=
  match s with
  | EmptyString => [EmptyString]
  | String c s' =>
      if Ascii.eqb c sep then EmptyString :: split sep s'
      else match split sep s' with
           | [] => [String c EmptyString]
           | w :: ws => String c w :: ws
           end
  end.

(** [sep.join(l)] *)
Fixpoint join (sep : string) (l : list string) : string :=
  match l with
  | [] => EmptyString
  | [x] => x
  | x :: l' => x +:+ sep +:+ join sep l'
  end.

Definition nonempty (s : string) : bool :=
  match s with EmptyString => false | String _ _ => true end.

(** [s.lower()] on the letters A-Z, which is what decides equality with
    an all-lowercase ASCII word. *)
Definition lower_char (c : ascii) : ascii :=
  let n := nat_of_ascii c in
  if ((65 <=? n) && (n <=? 90))%nat then ascii_of_nat (n + 32) else c.

Fixpoint lower (s : string) : string :=
  match s with
  | EmptyString => EmptyString
  | String c s' => String (lower_char c) (lower s')
  end.

(** The first occurrence, as a splitting of the string. *)
Definition first_occurrence (m s pre post : string) : Prop :=
  s = pre +:+ m +:+ post /\
  forall pre' post', s = pre' +:+ m +:+ post' ->
                     (String.length pre <= String.length pre')%nat.

End PyStr.

(** ** PageChunker (services/underwriting/om_extraction/utils.py) *)

Module Chunker.
Import PyStr.

(** A chunk dictionary; [oversized] is true when the key is present. *)
Record chunk := {
  content : string;
  pages : list Z;
  chunk_id : Z;
  char_count : Z;
  oversized : bool
}.

(** The local variables of [create_page_chunks]. *)
Record state := {
  chunks : list chunk;
  current_chunk_pages : list Z;
  current_chunk_text : string;
  current_chunk_size : Z;
  next_chunk_id : Z
}.

Definition initial : state :=
  {| chunks := []; current_chunk_pages := []; current_chunk_text := "";
     current_chunk_size := 0; next_chunk_id := 0 |}.

(** [f"\n\n--- PAGE {page_num} ---\n\n{page_text}"] *)
Definition page_content (page_num : Z) (page_text : string) : string :=
  nl +:+ nl +:+ "--- PAGE " +:+ pretty page_num +:+ " ---" +:+ nl +:+ nl
     +:+ page_text.

(** [sorted(pages_text.items())]: keys are distinct, so the tuples are
    ordered by page number. *)
Definition page_le (a b : Z * string) : Prop := a.1 <= b.1.

#[global] Instance page_le_dec : RelDecision page_le :=
  fun a b => decide (a.1 <= b.1).

Definition sorted_pages (pages_text : gmap Z string) : list (Z * string) :=
  merge_sort page_le (map_to_list pages_text).

Definition close_chunk (st : state) (flag : bool) : chunk :=
  {| content := strip (current_chunk_text st);
     pages := current_chunk_pages st;
     chunk_id := next_chunk_id st;
     char_count := current_chunk_size st;
     oversized := flag |}.

(** One iteration of the loop over the sorted pages. *)
Definition step (chunk_size : Z) (st : state) (page : Z * string) : state :=
  let '(page_num, page_text) := page in
  let content := page_content page_num page_text in
  let page_content_size := len content in
  let st1 :=
    if bool_decide (current_chunk_pages st <> [])
       && (chunk_size <? current_chunk_size st + page_content_size)
    then
      {| chunks := chunks st ++ [close_chunk st false];
         current_chunk_pages := [page_num];
         current_chunk_text := content;
         current_chunk_size := page_content_size;
         next_chunk_id := next_chunk_id st + 1 |}
    else
      {| chunks := chunks st;
         current_chunk_pages := current_chunk_pages st ++ [page_num];
         current_chunk_text := current_chunk_text st +:+ content;
         current_chunk_size := current_chunk_size st + page_content_size;
         next_chunk_id := next_chunk_id st |}
  in
  if (chunk_size <? page_content_size)
     && (length (current_chunk_pages st1) =? 1)%nat
  then
    {| chunks := chunks st1 ++ [close_chunk st1 true];
       current_chunk_pages := [];
       current_chunk_text := "";
       current_chunk_size := 0;
       next_chunk_id := next_chunk_id st1 + 1 |}
  else st1.

(** The final chunk, after the loop. *)
Definition finish (st : state) : list chunk :=
  if bool_decide (current_chunk_pages st <> [])
  then chunks st ++ [close_chunk st false]
  else chunks st.

Definition create_page_chunks (pages_text : gmap Z string) (chunk_size : Z)
  : list chunk :=
  finish (foldl (step chunk_size) initial (sorted_pages pages_text)).

(** The size contract as the specification words it: a chunk over the
    budget is a single page whose own text is over the budget, and it is
    flagged. *)
Definition budget_by_page_text (pages_text : gmap Z string) (S : Z) : Prop :=
  forall c, c ∈ create_page_chunks pages_text S ->
    S < char_count c ->
    exists p text, pages c = [p] /\ pages_text !! p = Some text /\
                   S < len text /\ oversized c = true.

(** The size contract on what the code measures: the page text together
    with its "--- PAGE n ---" header. *)
Definition budget_by_page_content (pages_text : gmap Z string) (S : Z) : Prop :=
  forall c, c ∈ create_page_chunks pages_text S ->
    S < char_count c ->
    exists p text, pages c = [p] /\ pages_text !! p = Some text /\
                   char_count c = len (page_content p text) /\
                   oversized c = true.

(** *** Loop invariant of [create_page_chunks] *)

(** A closed chunk is within the budget, or it is a flagged single page
    whose marked-up content is over the budget. *)
Definition chunk_ok (S : Z) (seen : list (Z * string)) (c : chunk) : Prop :=
  (char_count c <= S /\ oversized c = false) \/
  (oversized c = true /\
   exists p text, (p, text) ∈ seen /\ pages c = [p] /\
                  char_count c = len (page_content p text) /\
                  S < char_count c).

Record inv (S : Z) (seen : list (Z * string)) (st : state) : Prop := {
  inv_cover :
    concat (pages <$> chunks st) ++ current_chunk_pages st = seen.*1;
  inv_chunks : Forall (chunk_ok S seen) (chunks st);
  inv_empty : current_chunk_pages st = [] -> current_chunk_size st = 0;
  inv_fits : current_chunk_pages st <> [] -> current_chunk_size st <= S
}.

End Chunker.

(** ** Precision extraction
    (services/underwriting/rent_roll_extraction/service.py,
     models/domain/rr_classification.py) *)

(** [l[start:stop]] for integers of either sign. *)
Definition slice_index (n i : Z) : Z :=
  if i <? 0 then Z.max 0 (i + n) else Z.min i n.

Definition py_slice {A} (l : list A) (start stop : Z) : list A :=
  let n := Z.of_nat (length l) in
  let lo := slice_index n start in
  let hi := slice_index n stop in
  take (Z.to_nat (hi - lo)) (drop (Z.to_nat lo) l).

Module PdfPrecision.
Import PyStr.

Record PDFRentRollClassification := {
  data_start_page : Z;
  data_end_page : Z;
  data_start_marker : option string;
  data_end_marker : option string;
  exclude_patterns : list string;
  estimated_units : option Z;
  confidence : string;
  column_headers : list string
}.

(** One entry of [full_extraction["page_data"]]; a field is [None] when
    the key is missing from the dictionary. *)
Record page := {
  page_number : option Z;
  text : option string
}.

Record boundaries := {
  start_page : Z;
  end_page : Z;
  start_marker : option string;
  end_marker : option string;
  boundary_headers : list string
}.

Record PDFRentRollPrecisionExtract := {
  total_pages : Z;
  relevant_data : list (list string);
  extract_boundaries : boundaries
}.

(** [start <= page.get("page_number", 0) <= end] *)
Definition in_boundaries (classification : PDFRentRollClassification)
    (p : page) : bool :=
  let page_num := default 0 (page_number p) in
  (data_start_page classification <=? page_num)
  && (page_num <=? data_end_page classification).

(** First loop: the pages within the boundaries, in document order. *)
Definition relevant_pages (classification : PDFRentRollClassification)
    (page_data : list page) : list page :=
  foldl (fun acc p => if in_boundaries classification p then acc ++ [p] else acc)
        [] page_data.

(** [if marker and marker in text: text = text[text.find(marker):]] *)
Definition apply_start_marker (marker : option string) (t : string) : string :=
  match marker with
  | Some m =>
      if nonempty m && contains m t
      then match find m t with
           | Some start_idx => slice_from start_idx t
           | None => t
           end
      else t
  | None => t
  end.

(** [if marker and marker in text:
       text = text[:text.find(marker) + len(marker)]] *)
Definition apply_end_marker (marker : option string) (t : string) : string :=
  match marker with
  | Some m =>
      if nonempty m && contains m t
      then match find m t with
           | Some end_idx => slice_to (end_idx + String.length m) t
           | None => t
           end
      else t
  | None => t
  end.

(** [[line.strip() for line in text.split('\n') if line.strip()]] *)
Definition lines_of (t : string) : list string :=
  filter (fun l => nonempty l = true) (strip <$> split "010"%char t).

(** The body of the second loop for one page. *)
Definition page_content (classification : PDFRentRollClassification)
    (p : page) : list string :=
  let t := default "" (text p) in
  let t := apply_start_marker (data_start_marker classification) t in
  let t := apply_end_marker (data_end_marker classification) t in
  lines_of t.

Definition _extract_pdf_with_boundaries (page_data : list page)
    (classification : PDFRentRollClassification)
  : PDFRentRollPrecisionExtract :=
  let relevant_data :=
    foldl (fun acc p =>
             let content := page_content classification p in
             if bool_decide (content <> []) then acc ++ [content] else acc)
          [] (relevant_pages classification page_data) in
  {| total_pages := Z.of_nat (length relevant_data);
     relevant_data := relevant_data;
     extract_boundaries :=
       {| start_page := data_start_page classification;
          end_page := data_end_page classification;
          start_marker := data_start_marker classification;
          end_marker := data_end_marker classification;
          boundary_headers := column_headers classification |} |}.

(** The reading of the specification: the start marker trims the first
    kept page only and the end marker the last kept page only; every
    other kept page is taken in full.  The marker operations themselves
    are the ones of the code. *)
Fixpoint first_last_contents (classification : PDFRentRollClassification)
    (is_first : bool) (kept : list page) : list (list string) :=
  match kept with
  | [] => []
  | p :: kept' =>
      let is_last := match kept' with [] => true | _ => false end in
      let t := default "" (text p) in
      let t := if is_first
               then apply_start_marker (data_start_marker classification) t
               else t in
      let t := if is_last
               then apply_end_marker (data_end_marker classification) t
               else t in
      lines_of t :: first_last_contents classification false kept'
  end.

Definition trims_first_and_last_only (page_data : list page)
    (classification : PDFRentRollClassification) : Prop :=
  relevant_data (_extract_pdf_with_boundaries page_data classification) =
  filter (fun c => c <> [])
    (first_last_contents classification true
       (filter (fun p => in_boundaries classification p = true) page_data)).

(** A marker that does not take part in trimming: not given, empty, or
    not a substring of the text. *)
Definition marker_absent (marker : option string) (t : string) : Prop :=
  marker = None \/ marker = Some "" \/
  exists m, marker = Some m /\ forall pre post, t <> pre +:+ m +:+ post.

(** A three-page rent roll inside a four-page document. *)
Definition sample_classification : PDFRentRollClassification :=
  {| data_start_page := 1; data_end_page := 3;
     data_start_marker := Some "Unit"; data_end_marker := Some "Total";
     exclude_patterns := []; estimated_units := None;
     confidence := "high"; column_headers := [] |}.

Definition sample_pages : list page :=
  [ {| page_number := Some 1; text := Some ("Rent Roll" +:+ nl +:+ "Unit 1 A") |};
    {| page_number := Some 2; text := Some ("Header" +:+ nl +:+ "Unit 5 B") |};
    {| page_number := Some 3;
       text := Some ("Unit 9 C" +:+ nl +:+ "Total 3" +:+ nl +:+ "Notes") |};
    {| page_number := Some 4; text := Some "Appendix" |} ].

End PdfPrecision.

Module ExcelPrecision.
Import PyStr.

Record ExcelRentRollClassification := {
  data_sheet_name : string;
  data_start_row : Z;
  data_end_row : Z;
  data_start_column : option string;
  data_end_column : option string;
  exclude_patterns : list string;
  estimated_units : option Z;
  confidence : string;
  column_headers : list string
}.

(** A sheet dictionary of the raw extraction.  Cells are the strings
    [clean_excel_data] leaves; a field is [None] when its key is missing. *)
Record sheet := {
  sheet_name : option string;
  data : option (list (list string));
  rows : Z;
  columns : Z
}.

Record boundaries := {
  boundary_sheet_name : string;
  start_row : Z;
  end_row : Z;
  start_column : option string;
  end_column : option string;
  boundary_headers : list string
}.

Record ExcelRentRollPrecisionExtract := {
  sheets : list sheet;
  total_sheets : Z;
  enumerated_text : string;
  extract_boundaries : boundaries
}.

(** [convert_excel_data_to_enumerated_text]
    (rent_roll_extraction/utils.py) *)
Definition sheet_text (sh : sheet) : list string :=
  let name := default "" (sheet_name sh) in
  let rows_of := default [] (data sh) in
  match rows_of with
  | [] => []
  | _ =>
      ("Sheet: " +:+ name)
        :: imap (fun row_index row =>
                   "Row " +:+ pretty (Z.of_nat row_index + 1) +:+ ": "
                          +:+ join (String "009"%char EmptyString) row)
                rows_of
  end.

Definition convert_excel_data_to_enumerated_text (sheets_data : list sheet)
  : string :=
  join nl (concat (sheet_text <$> sheets_data)).

(** The search loop: the first sheet whose name equals
    [classification.data_sheet_name]. *)
Fixpoint find_sheet (name : string) (sheets_data : list sheet) : option sheet :=
  match sheets_data with
  | [] => None
  | sh :: rest =>
      if bool_decide (sheet_name sh = Some name) then Some sh
      else find_sheet name rest
  end.

Definition _extract_excel_with_boundaries (sheets_data : list sheet)
    (classification : ExcelRentRollClassification)
  : result ExcelRentRollPrecisionExtract :=
  match find_sheet (data_sheet_name classification) sheets_data with
  | None => Raise ValueError
  | Some target_sheet =>
      let rows_of := default [] (data target_sheet) in
      let start_row := data_start_row classification - 1 in
      let end_row := data_end_row classification in
      let start_row := if start_row <? 0 then 0 else start_row in
      let end_row :=
        if Z.of_nat (length rows_of) <? end_row
        then Z.of_nat (length rows_of) else end_row in
      let relevant_data := py_slice rows_of start_row end_row in
      let relevant_sheet :=
        {| sheet_name := sheet_name target_sheet;
           data := Some relevant_data;
           rows := Z.of_nat (length relevant_data);
           columns := match relevant_data with
                      | [] => 0
                      | r :: _ => Z.of_nat (length r)
                      end |} in
      Ok {| sheets := [relevant_sheet];
            total_sheets := 1;
            enumerated_text :=
              convert_excel_data_to_enumerated_text [relevant_sheet];
            extract_boundaries :=
              {| boundary_sheet_name := data_sheet_name classification;
                 start_row := data_start_row classification;
                 end_row := data_end_row classification;
                 start_column := data_start_column classification;
                 end_column := data_end_column classification;
                 boundary_headers := column_headers classification |} |}
  end.

(** The rows at the 1-based positions [lo .. hi], both inclusive. *)
Definition rows_between {A} (l : list A) (lo hi : Z) : list A :=
  take (Z.to_nat (hi - lo + 1)) (drop (Z.to_nat (lo - 1)) l).

(** The clamped range of the specification: the start is raised to 1 and
    the end lowered to the number of rows. *)
Definition clamped_rows {A} (l : list A) (first last : Z) : list A :=
  rows_between l (Z.max 1 first) (Z.min (Z.of_nat (length l)) last).

(** A sheet of three rows, and a classification of rows [first .. last]
    on it. *)
Definition sample_sheet : sheet :=
  {| sheet_name := Some "Rent Roll";
     data := Some [["101"; "1BR"]; ["102"; "2BR"]; ["103"; "1BR"]];
     rows := 3; columns := 2 |}.

Definition sample_classification (first last : Z)
  : ExcelRentRollClassification :=
  {| data_sheet_name := "Rent Roll";
     data_start_row := first; data_end_row := last;
     data_start_column := None; data_end_column := None;
     exclude_patterns := []; estimated_units := None;
     confidence := "medium"; column_headers := [] |}.

End ExcelPrecision.

(** ** Excel mapping engine
    (services/underwriting/excel_generation/utils.py)

    The worksheet is an openpyxl object that the functions mutate in place.
    The model keeps the value of each cell; a cell that was never given a
    value reads None.  A computation is a function from the worksheet to the
    worksheet it leaves behind and its outcome, so that what was written
    before an exception stays written. *)

Module ExcelWriter.
Import PyStr.

Abbreviation worksheet := (gmap (Z * Z) pyval).

Definition cell_value (ws : worksheet) (row column : Z) : pyval :=
  default PNone (ws !! (row, column)).

Definition M (A : Type) : Type := worksheet -> worksheet * result A.

Definition ret {A} (a : A) : M A := fun ws => (ws, Ok a).
Definition raise {A} (e : exn) : M A := fun ws => (ws, Raise e).
Definition bind {A B} (m : M A) (k : A -> M B) : M B :=
  fun ws =>
    match m ws with
    | (ws', Ok a) => k a ws'
    | (ws', Raise e) => (ws', Raise e)
    end.
Definition lift {A} (r : result A) : M A := fun ws => (ws, r).

(** A [for] loop whose body may raise. *)
Fixpoint for_each {A} (l : list A) (body : A -> M unit) : M unit :=
  match l with
  | [] => ret tt
  | x :: l' => bind (body x) (fun _ => for_each l' body)
  end.

(** *** The openpyxl operations the module uses *)

(** [c.upper()] for a code point below 256, as code points: the letters
    a-z and the accented letters 224-254 (the division sign 247 apart)
    move down by 32, the sharp s (223) becomes two letters S, the micro
    sign (181) and the y with diaeresis (255) leave the range. *)
Definition upper (c : ascii) : list Z :=
  let n := Z.of_nat (nat_of_ascii c) in
  if (97 <=? n) && (n <=? 122) then [n - 32]
  else if n =? 181 then [924]
  else if n =? 223 then [83; 83]
  else if (224 <=? n) && (n <=? 254) && negb (n =? 247) then [n - 32]
  else if n =? 255 then [376]
  else [n].

(** [s.upper()] *)
Fixpoint str_upper (s : string) : list Z :=
  match s with
  | EmptyString => []
  | String c s' => upper c ++ str_upper s'
  end.

(** A letter A-Z. *)
Definition is_upper (n : Z) : bool := (65 <=? n) && (n <=? 90).

(** The number of a column name of letters A-Z, in base 26. *)
Fixpoint column_value (acc : Z) (name : list Z) : option Z :=
  match name with
  | [] => Some acc
  | n :: name' =>
      if is_upper n then column_value (acc * 26 + (n - 64)) name'
      else None
  end.

(** [openpyxl.utils.column_index_from_string]: the upper-cased name is
    looked up among the names "A" (1) to "ZZZ" (18278); anything else is
    not a column name. *)
Definition column_index_from_string (str_col : string) : result Z :=
  let name := str_upper str_col in
  if ((1 <=? length name) && (length name <=? 3))%nat
  then match column_value 0 name with
       | Some n => Ok n
       | None => Raise ValueError
       end
  else Raise ValueError.

Definition illegal_character (c : ascii) : bool :=
  let n := nat_of_ascii c in
  ((n <=? 8) || (11 <=? n) && (n <=? 12) || (14 <=? n) && (n <=? 31))%nat.

Fixpoint has_illegal_character (s : string) : bool :=
  match s with
  | EmptyString => false
  | String c s' => illegal_character c || has_illegal_character s'
  end.

(** What assigning [cell.value = v] stores: numbers, booleans and None
    as they are, a string cut to 32767 characters; a list or dict, or a
    string with a control character, is refused. *)
Definition bind_value (v : pyval) : result pyval :=
  match v with
  | PList _ | PDict _ => Raise ValueError
  | PStr s =>
      let s' := slice_to (Z.to_nat 32767) s in
      if has_illegal_character s' then Raise IllegalCharacterError
      else Ok (PStr s')
  | _ => Ok v
  end.

Definition set_value (row column : Z) (v : pyval) : M unit :=
  fun ws =>
    match bind_value v with
    | Ok stored =>
        (match stored with
         | PNone => delete (row, column) ws
         | _ => <[(row, column) := stored]> ws
         end, Ok tt)
    | Raise e => (ws, Raise e)
    end.

(** [worksheet.cell(row=row, column=column)]: the value of the cell. *)
Definition cell (row column : Z) : M pyval :=
  fun ws =>
    if (row <? 1) || (column <? 1) then (ws, Raise ValueError)
    else (ws, Ok (cell_value ws row column)).

(** [worksheet.cell(row=row, column=column, value=value)]: None as value
    leaves the cell as it is. *)
Definition cell_write (row column : Z) (value : pyval) : M unit :=
  bind (cell row column) (fun _ =>
    match value with
    | PNone => ret tt
    | _ => set_value row column value
    end).

(** *** The functions of the module *)

(** [str(value).startswith('=')]: only a string can begin with '='; the
    text of a number, a boolean or None never does. *)
Definition is_formula (value : pyval) : bool :=
  match value with
  | PStr s => starts_with "=" s
  | _ => false
  end.

(** [range(a, b + 1)] *)
Definition inclusive_range (a b : Z) : list Z := seqZ a (b + 1 - a).

Definition clear_cell (row col : Z) : M unit :=
  bind (cell row col) (fun value =>
    match value with
    | PNone => ret tt
    | _ => if is_formula value then ret tt
           else fun ws => (delete (row, col) ws, Ok tt)
    end).

Definition clear_data_rows (start_row end_row start_column end_column : Z)
  : M unit :=
  for_each (inclusive_range start_row end_row) (fun row =>
    for_each (inclusive_range start_column end_column) (fun col =>
      clear_cell row col)).

(** The mapping configuration; a field is [None] when its key is
    missing.  [columns] keeps the order of the dictionary and a column
    letter may be None. *)
Record mapping_config := {
  columns : option (list (string * option string));
  data_start_row : option Z
}.

(** Truth value of a column letter: None and "" are false. *)
Definition truthy (col : option string) : option string :=
  match col with
  | Some s => if nonempty s then Some s else None
  | None => None
  end.

Fixpoint minimum (x : Z) (l : list Z) : Z :=
  match l with [] => x | y :: l' => Z.min x (minimum y l') end.

Fixpoint maximum (x : Z) (l : list Z) : Z :=
  match l with [] => x | y :: l' => Z.max x (maximum y l') end.

Fixpoint column_numbers (letters : list string) : result (list Z) :=
  match letters with
  | [] => Ok []
  | col :: letters' =>
      do n <- column_index_from_string col;
      do ns <- column_numbers letters';
      Ok (n :: ns)
  end.

(** The clearing phase of [write_data_with_mapping]. *)
Definition clear_phase (data : list (gmap string pyval))
    (cols : list (string * option string)) (start_row : Z) : M unit :=
  match data with
  | [] => ret tt
  | _ =>
      match omap (fun fc => truthy fc.2) cols with
      | [] => ret tt
      | column_letters =>
          bind (lift (column_numbers column_letters)) (fun numbers =>
            match numbers with
            | [] => ret tt
            | n :: ns =>
                clear_data_rows start_row
                  (start_row + Z.of_nat (length data) + 10)
                  (minimum n ns) (maximum n ns)
            end)
      end
  end.

(** The body of the inner writing loop for one mapped field. *)
Definition write_field (current_row : Z) (row_data : gmap string pyval)
    (fc : string * option string) : M unit :=
  match truthy fc.2, row_data !! fc.1 with
  | Some column_letter, Some value =>
      bind (lift (column_index_from_string column_letter))
           (fun column_number => cell_write current_row column_number value)
  | _, _ => ret tt
  end.

(** The writing phase: [enumerate(data)] outside, [columns.items()]
    inside. *)
Definition write_phase (data : list (gmap string pyval))
    (cols : list (string * option string)) (start_row : Z) : M unit :=
  for_each (imap (fun row_index row_data => (Z.of_nat row_index, row_data)) data)
    (fun '(row_index, row_data) =>
       for_each cols (write_field (start_row + row_index) row_data)).

Definition write_data_with_mapping (data : list (gmap string pyval))
    (cfg : mapping_config) : M unit :=
  let cols := default [] (columns cfg) in
  let start_row := default 1 (data_start_row cfg) in
  bind (clear_phase data cols start_row) (fun _ =>
    write_phase data cols start_row).

(** *** The properties, stated *)

(** Every formula cell holds after the call what it held before. *)
Definition formulas_preserved (ws : worksheet)
    (data : list (gmap string pyval)) (cfg : mapping_config) : Prop :=
  forall row col,
    is_formula (cell_value ws row col) = true ->
    cell_value (write_data_with_mapping data cfg ws).1 row col
    = cell_value ws row col.

(** A cell the writing phase is sent to: record [i] has a value other
    than None for a field whose mapped column is [col], and [row] is
    [data_start_row + i]. *)
Definition write_target (data : list (gmap string pyval))
    (cfg : mapping_config) (row col : Z) : Prop :=
  exists (i : nat) row_data field letter value,
    data !! i = Some row_data /\
    (field, Some letter) ∈ default [] (columns cfg) /\
    letter <> "" /\
    row_data !! field = Some value /\
    value <> PNone /\
    column_index_from_string letter = Ok col /\
    row = default 1 (data_start_row cfg) + Z.of_nat i.

(** *** Frame properties *)

(** A property of the worksheet that a computation keeps, whether it
    returns or raises. *)
Definition keeps (P : worksheet -> Prop) {A} (m : M A) : Prop :=
  forall ws, P ws -> P (m ws).1.

(** The property followed through a call: cell [(r, c)] holds [v]. *)
Definition holds (r c : Z) (v : pyval) (ws : worksheet) : Prop :=
  cell_value ws r c = v.

(** A template with a formula in A1 and in D1, one record, and a mapping
    that sends the field "unit" to column A from row 1 on. *)
Definition sample_template : worksheet :=
  <[(1, 4) := PStr "=A1*2"]> {[ (1, 1) := PStr "=SUM(B1:B9)" ]}.

Definition sample_data : list (gmap string pyval) :=
  [ {[ "unit" := PStr "101" ]} ].

Definition sample_mapping : mapping_config :=
  {| columns := Some [("unit", Some "A")]; data_start_row := Some 1 |}.

End ExcelWriter.

(** ** Two-pass boundary classification
    (services/underwriting/rent_roll_classification/service.py) *)

Module BoundaryClassifier.
Import PyStr.

(** Index of the last occurrence of a character. *)
Fixpoint rindex (c : ascii) (s : string) : option nat :=
  match s with
  | EmptyString => None
  | String a s' =>
      match rindex c s' with
      | Some j => Some (S j)
      | None => if Ascii.eqb a c then Some 0%nat else None
      end
  end.

(** [re.search(r'\{.*?\}', s, re.DOTALL)]: from the first '{' to the first
    '}' behind it. *)
Definition search_object_lazy (s : string) : option string :=
  match find "{" s with
  | None => None
  | Some i =>
      let rest := slice_from i s in
      match find "}" rest with
      | Some j => Some (slice_to (S j) rest)
      | None => None
      end
  end.

(** [re.search(r'\{.*\}', s, re.DOTALL)]: from the first '{' to the last
    '}' behind it. *)
Definition search_object_greedy (s : string) : option string :=
  match find "{" s with
  | None => None
  | Some i =>
      let rest := slice_from i s in
      match rindex "}" rest with
      | Some j => Some (slice_to (S j) rest)
      | None => None
      end
  end.

(** [d.get(key)] on a parsed JSON object. *)
Fixpoint dict_get (d : list (string * pyval)) (key : string) : option pyval :=
  match d with
  | [] => None
  | (k, v) :: d' => if String.eqb k key then Some v else dict_get d' key
  end.

(** The result of the analysis: one of the two classification models. *)
Inductive classification :=
| PdfClassification (c : PdfPrecision.PDFRentRollClassification)
| ExcelClassification (c : ExcelPrecision.ExcelRentRollClassification).

(** What the service calls and does not define: the language model, the
    JSON parser and the validating constructors of the two models.  Each
    returns its value or raises. *)
Class Collaborators := {
  (** pass 1: the chain run on [file_type] and [text] *)
  detection_response : string -> string -> result string;
  (** pass 2: building the boundary context and the prompt from [text],
      [file_type] and the first result, and running the chain *)
  validation_response : string -> string -> pyval -> result string;
  (** [json.loads] *)
  json_loads : string -> result pyval;
  (** the two pydantic models, built from the dict as keyword
      arguments *)
  build_pdf : pyval -> result PdfPrecision.PDFRentRollClassification;
  build_excel : pyval -> result ExcelPrecision.ExcelRentRollClassification
}.

Section Service.
Context `{Collaborators}.

(** [try: ... except Exception: return None] around a body that returns
    an optional value. *)
Definition catch_all {A} (body : result (option A)) : option A :=
  match body with
  | Ok r => r
  | Raise _ => None
  end.

(** The part of [validate_boundaries] behind the parsed response: the
    reads of [corrections_made] need a dict (or a missing key). *)
Definition read_corrections (validation_result : pyval) : result pyval :=
  match validation_result with
  | PDict d =>
      match dict_get d "corrections_made" with
      | None | Some (PDict _) => Ok validation_result
      | Some _ => Raise AttributeError
      end
  | _ => Raise AttributeError
  end.

Definition validate_boundaries (text file_type : string)
    (first_result : pyval) : option pyval :=
  catch_all (
    do validation_response <-
      validation_response text file_type first_result;
    match search_object_greedy validation_response with
    | None => Ok None
    | Some json_str =>
        do validation_result <- json_loads json_str;
        do validation_result <- read_corrections validation_result;
        Ok (Some validation_result)
    end).

(** Truth value of what [validate_boundaries] returns, None or a dict:
    None and the empty dict are false. *)
Definition is_truthy (validation_result : option pyval) : bool :=
  match validation_result with
  | None | Some (PDict []) => false
  | Some _ => true
  end.

(** "Convert to appropriate model". *)
Definition to_model (file_type : string) (final_result : pyval)
  : result (option classification) :=
  if String.eqb (lower file_type) "pdf"
  then do c <- build_pdf final_result; Ok (Some (PdfClassification c))
  else do c <- build_excel final_result; Ok (Some (ExcelClassification c)).

Definition analyze_rent_roll_boundaries (text file_type : string)
  : option classification :=
  catch_all (
    if negb (String.eqb (lower file_type) "pdf"
             || String.eqb (lower file_type) "excel")
    then Raise ValueError
    else if negb (nonempty (strip text)) then Ok None
    else
      do response <- detection_response file_type text;
      match search_object_lazy response with
      | None => Ok None
      | Some json_str =>
          do first_result <- json_loads json_str;
          let validation_result :=
            validate_boundaries text file_type first_result in
          let final_result :=
            if is_truthy validation_result
            then default first_result validation_result
            else first_result in
          to_model file_type final_result
      end).

(** *** The properties, stated *)

(** Pass 1 parses successfully to [R]. *)
Definition first_pass_parses (text file_type : string) (R : pyval) : Prop :=
  (lower file_type = "pdf" \/ lower file_type = "excel") /\
  nonempty (strip text) = true /\
  exists response json_str,
    detection_response file_type text = Ok response /\
    search_object_lazy response = Some json_str /\
    json_loads json_str = Ok R.

(** Pass 1 answers, but its answer holds no JSON object that parses. *)
Definition first_pass_unparseable (text file_type : string) : Prop :=
  exists response,
    detection_response file_type text = Ok response /\
    (search_object_lazy response = None \/
     exists json_str e,
       search_object_lazy response = Some json_str /\
       json_loads json_str = Raise e).

(** Pass 2 fails: the chain raises, or its answer holds no JSON object,
    or [json.loads] raises on the object found, or the reads behind the
    parse raise (the parsed answer or its "corrections_made" has no
    [.get]). *)
Definition second_pass_fails (text file_type : string) (R : pyval) : Prop :=
  (exists e, validation_response text file_type R = Raise e) \/
  (exists response,
     validation_response text file_type R = Ok response /\
     (search_object_greedy response = None \/
      exists json_str,
        search_object_greedy response = Some json_str /\
        ((exists e, json_loads json_str = Raise e) \/
         (exists validation_result e,
            json_loads json_str = Ok validation_result /\
            read_corrections validation_result = Raise e)))).

End Service.

(** A run in which the model answers pass 1 with a JSON object inside
    prose and pass 2 raises. *)
Definition sample_first_result : pyval :=
  PDict [("data_start_page", PInt 2); ("data_end_page", PInt 3)].

Definition sample_pdf_classification : PdfPrecision.PDFRentRollClassification :=
  {| PdfPrecision.data_start_page := 2;
     PdfPrecision.data_end_page := 3;
     PdfPrecision.data_start_marker := None;
     PdfPrecision.data_end_marker := None;
     PdfPrecision.exclude_patterns := [];
     PdfPrecision.estimated_units := None;
     PdfPrecision.confidence := "medium";
     PdfPrecision.column_headers := [] |}.

(** The double quote. *)
Definition dq : string := String "034"%char EmptyString.

(** The JSON text of [sample_first_result], with its keys in double
    quotes, and an answer that holds it. *)
Definition sample_first_json : string :=
  "{" +:+ dq +:+ "data_start_page" +:+ dq +:+ ": 2, "
      +:+ dq +:+ "data_end_page" +:+ dq +:+ ": 3}".

Definition sample_first_answer : string :=
  "Here is the result: " +:+ sample_first_json +:+ " done".

(** The collaborators on the values of this run: [json.loads] reads the
    JSON text above and refuses text that is no JSON; the PDF model takes a
    dict of the two required integers and gives the other fields their
    defaults; the spreadsheet model misses its required fields. *)
Definition sample_run : Collaborators :=
  {| detection_response := fun _ _ => Ok sample_first_answer;
     validation_response := fun _ _ _ => Raise ValueError;
     json_loads := fun s =>
       if String.eqb s sample_first_json then Ok sample_first_result
       else Raise ValueError;
     build_pdf := fun d =>
       match d with
       | PDict [("data_start_page", PInt a); ("data_end_page", PInt b)] =>
           Ok {| PdfPrecision.data_start_page := a;
                 PdfPrecision.data_end_page := b;
                 PdfPrecision.data_start_marker := None;
                 PdfPrecision.data_end_marker := None;
                 PdfPrecision.exclude_patterns := [];
                 PdfPrecision.estimated_units := None;
                 PdfPrecision.confidence := "medium";
                 PdfPrecision.column_headers := [] |}
       | _ => Raise ValueError
       end;
     build_excel := fun _ => Raise ValueError |}.

(** The same run with a second pass that answers in prose, without any
    JSON object. *)
Definition prose_run : Collaborators :=
  {| detection_response := @detection_response sample_run;
     validation_response := fun _ _ _ => Ok "The boundaries look right.";
     json_loads := @json_loads sample_run;
     build_pdf := @build_pdf sample_run;
     build_excel := @build_excel sample_run |}.

End BoundaryClassifier.

(** ** Python numbers: [float(x)] and [int(f)] *)

Module PyNum.
Import PyStr.

(** *** Rounding to a double *)

(** The double nearest to [n / d] (ties to even) for [n >= 0], [d > 0];
    infinity when the rounded value is out of range. *)
Definition round_ratio (neg : bool) (n d : Z) : pyfloat :=
  if n =? 0 then FFin 0 0
  else
    let e0 := Z.log2 n - Z.log2 d - 53 in
    let scaled :=
      if 0 <=? e0 then n / (d * 2 ^ e0) else (n * 2 ^ (- e0)) / d in
    let e1 := if scaled <? 2 ^ 53 then e0 else e0 + 1 in
    let e := Z.max e1 (-1074) in
    let num := if 0 <=? e then n else n * 2 ^ (- e) in
    let den := if 0 <=? e then d * 2 ^ e else d in
    let q := num / den in
    let r := num mod den in
    let q' :=
      if (den <? 2 * r) || ((2 * r =? den) && Z.odd q) then q + 1 else q in
    if (0 <=? e) && (2 ^ 1024 <=? q' * 2 ^ e) then FInf neg
    else FFin (if neg then - q' else q') e.

(** *** [float(s)] for a string *)

(** The white space [float] strips from both ends. *)
Definition float_space (c : ascii) : bool :=
  let n := nat_of_ascii c in
  ((9 <=? n) && (n <=? 13) || (n =? 32) || (n =? 133) || (n =? 160))%nat.

Fixpoint lstrip_float (s : string) : string :=
  match s with
  | EmptyString => EmptyString
  | String c s' => if float_space c then lstrip_float s' else s
  end.

Definition strip_float (s : string) : string :=
  String.rev (lstrip_float (String.rev (lstrip_float s))).

Definition digit_value (c : ascii) : option Z :=
  let n := nat_of_ascii c in
  if ((48 <=? n) && (n <=? 57))%nat then Some (Z.of_nat n - 48) else None.

(** The rest of a digit part [digit (["_"] digit)*]: the value so far,
    the number of digits so far, and what follows the digit part. *)
Fixpoint digits_loop (acc : Z) (count : Z) (s : string) : Z * Z * string :=
  match s with
  | EmptyString => (acc, count, s)
  | String c s' =>
      match digit_value c with
      | Some d => digits_loop (acc * 10 + d) (count + 1) s'
      | None =>
          if Ascii.eqb c "_"
          then match s' with
               | String c2 s'' =>
                   match digit_value c2 with
                   | Some d2 => digits_loop (acc * 10 + d2) (count + 1) s''
                   | None => (acc, count, s)
                   end
               | EmptyString => (acc, count, s)
               end
          else (acc, count, s)
      end
  end.

(** A digit part continuing the value [acc]; [None] when no digit is
    there. *)
Definition digit_part (acc : Z) (s : string) : option (Z * Z * string) :=
  match s with
  | String c s' =>
      match digit_value c with
      | Some d => Some (digits_loop (acc * 10 + d) 1 s')
      | None => None
      end
  | EmptyString => None
  end.

Definition read_sign (s : string) : bool * string :=
  match s with
  | String c s' =>
      if Ascii.eqb c "-" then (true, s')
      else if Ascii.eqb c "+" then (false, s')
      else (false, s)
  | EmptyString => (false, s)
  end.

(** The exponent [("e" | "E") ["+" | "-"] digitpart] up to the end of the
    string, or no exponent at all. *)
Definition read_exponent (s : string) : option Z :=
  match s with
  | EmptyString => Some 0
  | String c s' =>
      if Ascii.eqb c "e" || Ascii.eqb c "E"
      then let '(neg, s'') := read_sign s' in
           match digit_part 0 s'' with
           | Some (v, _, EmptyString) => Some (if neg then - v else v)
           | _ => None
           end
      else None
  end.

(** The mantissa digits as an integer and the count of digits behind the
    point, with what follows. *)
Definition read_mantissa (s : string) : option (Z * Z * string) :=
  match s with
  | String c s' =>
      if Ascii.eqb c "."
      then digit_part 0 s'
      else
        match digit_part 0 s with
        | Some (v, _, String c2 rest) =>
            if Ascii.eqb c2 "."
            then match digit_part v rest with
                 | Some r => Some r
                 | None => Some (v, 0, rest)
                 end
            else Some (v, 0, String c2 rest)
        | Some (v, _, EmptyString) => Some (v, 0, EmptyString)
        | None => None
        end
  | EmptyString => None
  end.

(** [float(s)]; [None] is ValueError. *)
Definition float_of_string (s : string) : option pyfloat :=
  let '(neg, body) := read_sign (strip_float s) in
  let word := lower body in
  if String.eqb word "inf" || String.eqb word "infinity" then Some (FInf neg)
  else if String.eqb word "nan" then Some FNaN
  else
    match read_mantissa body with
    | Some (m, frac_digits, rest) =>
        match read_exponent rest with
        | Some ex =>
            let e10 := ex - frac_digits in
            Some (if 0 <=? e10
                  then round_ratio neg (m * 10 ^ e10) 1
                  else round_ratio neg m (10 ^ (- e10)))
        | None => None
        end
    | None => None
    end.

(** [float(x)] *)
Definition py_float (x : pyval) : result pyfloat :=
  match x with
  | PBool b => Ok (FFin (Z.b2z b) 0)
  | PInt z =>
      match round_ratio (z <? 0) (Z.abs z) 1 with
      | FInf _ => Raise OverflowError
      | f => Ok f
      end
  | PFloat f => Ok f
  | PStr s =>
      match float_of_string s with
      | Some f => Ok f
      | None => Raise ValueError
      end
  | PNone | PList _ | PDict _ => Raise TypeError
  end.

(** [int(f)]: truncation towards zero. *)
Definition py_int (f : pyfloat) : result Z :=
  match f with
  | FNaN => Raise ValueError
  | FInf _ => Raise OverflowError
  | FFin m e => Ok (if 0 <=? e then m * 2 ^ e else Z.quot m (2 ^ (- e)))
  end.

(** [int(float(x))] *)
Definition int_of_float (x : pyval) : result Z :=
  do f <- py_float x; py_int f.

End PyNum.

(** ** Rent-roll rows (services/underwriting/structuring/utils.py) *)

Module RentRoll.
Import PyStr PyNum.

Record unit_object := {
  unit : string;
  unit_type : string;
  status : string;
  unit_size : Z;
  rent : Z;
  lease_expiration : pyval
}.

Section Convert.
(** [repr] of a float, a list or a dict: the shortest digits that read
    back as the same double, and the bracketed, quoted rendering of the
    containers.  [str] needs it for cells that are not strings. *)
Variable py_repr : pyval -> string.

(** [str(x)] *)
Definition py_str (x : pyval) : string :=
  match x with
  | PNone => "None"
  | PBool true => "True"
  | PBool false => "False"
  | PInt z => pretty z
  | PStr s => s
  | PFloat _ | PList _ | PDict _ => py_repr x
  end.

(** [x is not None and x != ""] *)
Definition present (x : pyval) : bool :=
  match x with
  | PNone => false
  | PStr s => nonempty s
  | _ => true
  end.

(** [str(x).strip() if x is not None and x != "" else fallback] *)
Definition text_or (fallback : string) (x : pyval) : string :=
  if present x then strip (py_str x) else fallback.

(** The inner [try: v = int(float(x)) except (ValueError, TypeError):
    v = 0]; any other exception goes on. *)
Definition int_or_zero (x : pyval) : result Z :=
  match int_of_float x with
  | Ok z => Ok z
  | Raise ValueError | Raise TypeError => Ok 0
  | Raise e => Raise e
  end.

(** The numeric cell at [index], 0 when the row is too short or the
    cell is None or "". *)
Definition number_at (row : list pyval) (index : nat) : result Z :=
  match row !! index with
  | Some x => if present x then int_or_zero x else Ok 0
  | None => Ok 0
  end.

(** The body of the [try] block for a row of at least four cells. *)
Definition row_object (row : list pyval) : result unit_object :=
  match row !! 0%nat, row !! 1%nat, row !! 2%nat with
  | Some r0, Some r1, Some r2 =>
      do unit_size <- number_at row 3;
      do rent <- number_at row 4;
      let lease_expiration :=
        match row !! 5%nat with
        | Some x => if present x then x else PNone
        | None => PNone
        end in
      Ok {| unit := text_or "" r0;
            unit_type := text_or "" r1;
            status := text_or "Occupied" r2;
            unit_size := unit_size;
            rent := rent;
            lease_expiration := lease_expiration |}
  | _, _, _ => Raise IndexError
  end.

(** One iteration of the loop over [array_data]. *)
Definition convert_step (converted_units : list unit_object) (row : pyval)
  : result (list unit_object) :=
  match row with
  | PList cells =>
      if (length cells <? 4)%nat then Ok converted_units
      else
        match row_object cells with
        | Ok unit_object => Ok (converted_units ++ [unit_object])
        | Raise ValueError | Raise TypeError | Raise IndexError =>
            Ok converted_units
        | Raise e => Raise e
        end
  | _ => Ok converted_units
  end.

Definition convert_rent_roll_arrays_to_objects (array_data : pyval)
  : result (list unit_object) :=
  match array_data with
  | PList rows_of => rfold convert_step rows_of []
  | _ => Ok []
  end.

End Convert.

(** A numeric cell on which [int(float(x))] raises OverflowError: an
    infinite float, a string that reads as one, an integer beyond the
    range of a double. *)
Definition overflows (row : list pyval) (index : nat) : Prop :=
  exists x, row !! index = Some x /\ present x = true /\
            int_of_float x = Raise OverflowError.

(** A response of two rows; the size of the second is the JSON number
    1e999, which [json.loads] reads as infinity. *)
Definition sample_response : pyval :=
  PList [ PList [PStr "101"; PStr "1BR"; PStr "Occupied"; PStr "750"];
          PList [PStr "102"; PStr "1BR"; PStr "Vacant"; PFloat (FInf false)] ].

End RentRoll.

(** ** Python numbers: [int(x)] *)

Module PyInt.
Import PyStr PyNum.

(** The digits an integer literal may have
    ([sys.int_info.default_max_str_digits]). *)
Definition max_str_digits : Z := 4300.

(** [int(s)] for a string, base 10; [None] is ValueError. *)
Definition int_of_string (s : string) : option Z :=
  let '(neg, body) := read_sign (strip_float s) in
  match digit_part 0 body with
  | Some (v, count, EmptyString) =>
      if max_str_digits <? count then None
      else Some (if neg then - v else v)
  | _ => None
  end.

(** [int(x)] *)
Definition int_of (x : pyval) : result Z :=
  match x with
  | PBool b => Ok (Z.b2z b)
  | PInt z => Ok z
  | PFloat f => py_int f
  | PStr s =>
      match int_of_string s with
      | Some z => Ok z
      | None => Raise ValueError
      end
  | PNone | PList _ | PDict _ => Raise TypeError
  end.

End PyInt.

(** ** The precision-extraction entry point
    (services/underwriting/rent_roll_extraction/service.py) *)

Module ExtractionService.
Import PyStr BoundaryClassifier.

(** The keys of [full_extraction] the entry point reads; a field is [None]
    when the key is missing. *)
Record full_extraction := {
  file_type : option string;
  page_data : option (list PdfPrecision.page);
  sheets : option (list ExcelPrecision.sheet)
}.

Inductive precision_extract :=
| PdfExtract (e : PdfPrecision.PDFRentRollPrecisionExtract)
| ExcelExtract (e : ExcelPrecision.ExcelRentRollPrecisionExtract).

(** [extract_rent_roll_with_boundaries].  The branch is chosen by the
    file type of the extraction; a classification of the other kind has
    none of the attributes the branch reads, which is an AttributeError. *)
Definition extract_rent_roll_with_boundaries (fe : full_extraction)
    (classification_result : classification) : result precision_extract :=
  match file_type fe with
  | Some ft =>
      if String.eqb ft "pdf" then
        match classification_result with
        | PdfClassification c =>
            Ok (PdfExtract
                  (PdfPrecision._extract_pdf_with_boundaries
                     (default [] (page_data fe)) c))
        | ExcelClassification _ => Raise AttributeError
        end
      else if String.eqb ft "excel" then
        match classification_result with
        | ExcelClassification c =>
            do e <- ExcelPrecision._extract_excel_with_boundaries
                      (default [] (sheets fe)) c;
            Ok (ExcelExtract e)
        | PdfClassification _ => Raise AttributeError
        end
      else Raise ValueError
  | None => Raise ValueError
  end.

End ExtractionService.

(** ** Rent-roll rows: the object a row contributes *)

Module RentRollRows.
Import PyStr PyNum RentRoll.

(** The object the loop of [convert_rent_roll_arrays_to_objects] appends
    for a row, when it appends one. *)
Definition kept_object (py_repr : pyval -> string) (row : pyval)
  : option unit_object :=
  match row with
  | PList cells =>
      if (length cells <? 4)%nat then None
      else match row_object py_repr cells with
           | Ok u => Some u
           | Raise _ => None
           end
  | _ => None
  end.

(** A row whose size or rent cell makes [int(float(x))] overflow. *)
Definition overflowing_row (row : pyval) : Prop :=
  exists cells, row = PList cells /\ (4 <= length cells)%nat /\
                (overflows cells 3 \/ overflows cells 4).

End RentRollRows.

(** ** Two-pass boundary classification: a validation answer that parses *)

Module ValidationAnswer.
Import BoundaryClassifier.

(** The reads of [corrections_made] go through: the key is missing or its
    value is an object. *)
Definition corrections_readable (d : list (string * pyval)) : bool :=
  match dict_get d "corrections_made" with
  | None | Some (PDict _) => true
  | Some _ => false
  end.

(** A run whose second pass answers with an object that lacks the fields of
    the model, while the first result has them. *)
Definition rejecting_run : Collaborators :=
  {| detection_response := fun _ _ => Ok "{first}";
     validation_response := fun _ _ _ => Ok "{second}";
     json_loads := fun s =>
       if String.eqb s "{first}" then Ok sample_first_result
       else Ok (PDict [("note", PStr "looks fine")]);
     build_pdf := fun d =>
       match d with
       | PDict (("data_start_page", _) :: _) => Ok sample_pdf_classification
       | _ => Raise ValueError
       end;
     build_excel := fun _ => Raise ValueError |}.

End ValidationAnswer.

(** ** Boundary context for the validation pass
    (services/underwriting/rent_roll_classification/utils.py) *)

Module BoundaryContext.
Import PyStr.

(** [s[:k]] for an integer [k] of either sign. *)
Definition str_slice_to (s : string) (k : Z) : string :=
  slice_to (Z.to_nat (slice_index (len s) k)) s.

(** [s[k:]] for an integer [k] of either sign. *)
Definition str_slice_from (s : string) (k : Z) : string :=
  slice_from (Z.to_nat (slice_index (len s) k)) s.

Record context := {
  start_context : string;
  end_context : string
}.

Definition extract_excel_boundary_context (text : string)
    (start_row end_row context_rows : Z) : context :=
  if negb (nonempty (strip text))
  then {| start_context := ""; end_context := "" |}
  else
    let lines := split "010"%char text in
    let start_end_idx :=
      Z.min (start_row + context_rows - 1) (Z.of_nat (length lines) - 1) in
    let start_context_lines := py_slice lines 0 (start_end_idx + 1) in
    let end_start_idx := Z.max 0 (end_row - context_rows) in
    let end_context_lines :=
      py_slice lines end_start_idx (Z.of_nat (length lines)) in
    {| start_context := join nl start_context_lines;
       end_context := join nl end_context_lines |}.

Definition extract_pdf_boundary_context (text : string)
    (start_offset end_offset context_chars : Z) : context :=
  if negb (nonempty (strip text))
  then {| start_context := ""; end_context := "" |}
  else
    let text_length := len text in
    let start_end_idx := Z.min (start_offset + context_chars) text_length in
    let end_start_idx := Z.max 0 (end_offset - context_chars) in
    {| start_context := str_slice_to text start_end_idx;
       end_context := str_slice_from text end_start_idx |}.

(** The boundaries of the first pass that the context needs, as integers; a
    field is [None] when the key is missing, and [.get] then gives 1. *)
Record first_boundaries := {
  data_start_row : option Z;
  data_end_row : option Z;
  data_start_page : option Z;
  data_end_page : option Z
}.

Definition extract_full_boundary_context (text : string)
    (boundaries : first_boundaries) (file_type : string)
    (context_rows context_chars : Z) : result context :=
  if String.eqb (lower file_type) "excel" then
    Ok (extract_excel_boundary_context text
          (default 1 (data_start_row boundaries))
          (default 1 (data_end_row boundaries)) context_rows)
  else if String.eqb (lower file_type) "pdf" then
    Ok (extract_pdf_boundary_context text
          (default 1 (data_start_page boundaries))
          (default 1 (data_end_page boundaries)) context_chars)
  else Raise ValueError.

End BoundaryContext.

(** ** Excel writer: what a clearing pass leaves
    (services/underwriting/excel_generation/utils.py) *)

Module ClearedCells.
Import PyStr ExcelWriter.

(** [ws'] is [ws] with the cells of [S] that hold no formula emptied. *)
Definition cleared (S : Z -> Z -> bool) (ws ws' : worksheet) : Prop :=
  forall r c,
    cell_value ws' r c
    = if S r c && negb (is_formula (cell_value ws r c)) then PNone
      else cell_value ws r c.

Definition in_rectangle (start_row end_row start_column end_column r c : Z)
  : bool :=
  (start_row <=? r) && (r <=? end_row) &&
  (start_column <=? c) && (c <=? end_column).

(** The rectangle [write_data_with_mapping] clears for [data]: the rows
    from the first data row to ten rows past the last, the columns from
    the smallest to the largest mapped column. *)
Definition cleared_rectangle (data : list (gmap string pyval))
    (start_row : Z) (n : Z) (ns : list Z) (r c : Z) : bool :=
  in_rectangle start_row (start_row + Z.of_nat (length data) + 10)
               (minimum n ns) (maximum n ns) r c.

End ClearedCells.

(** ** Page chunks: what a chunk is made of
    (services/underwriting/om_extraction/utils.py) *)

Module ChunkShape.
Import PyStr Chunker.

(** The text and the size the loop accumulates over a run of pages. *)
Definition text_of (ps : list (Z * string)) : string :=
  foldl (fun acc p => acc +:+ page_content p.1 p.2) "" ps.

Definition size_of (ps : list (Z * string)) : Z :=
  foldl (fun acc p => acc + len (page_content p.1 p.2)) 0 ps.

(** Chunk [c] is built from the run of pages [ps]. *)
Definition made_of (ps : list (Z * string)) (c : chunk) : Prop :=
  ps <> [] /\ pages c = ps.*1 /\
  content c = strip (text_of ps) /\ char_count c = size_of ps.

(** Page [(p, t)] could not join chunk [c]. *)
Definition forced (chunk_size : Z) (c : chunk) (p : Z) (t : string) : Prop :=
  oversized c = true \/ chunk_size < char_count c + len (page_content p t).

Record shape (chunk_size : Z) (seen : list (Z * string)) (st : state)
    (groups : list (list (Z * string))) (cur : list (Z * string)) : Prop := {
  shape_cover : concat groups ++ cur = seen;
  shape_chunks : Forall2 made_of groups (chunks st);
  shape_pages : current_chunk_pages st = cur.*1;
  shape_text : current_chunk_text st = text_of cur;
  shape_size : current_chunk_size st = size_of cur;
  shape_ids : forall (i : nat) c, chunks st !! i = Some c -> chunk_id c = Z.of_nat i;
  shape_next : next_chunk_id st = Z.of_nat (length (chunks st));
  shape_adjacent :
    forall (i : nat) c g p t,
      chunks st !! i = Some c -> groups !! (S i) = Some g ->
      head g = Some (p, t) -> forced chunk_size c p t;
  shape_last :
    forall c, last (chunks st) = Some c ->
      oversized c = true \/
      exists p t, head cur = Some (p, t) /\
                  chunk_size < char_count c + len (page_content p t)
}.

End ChunkShape.

(** ** Parsing and converting a page classification
    (services/underwriting/om_classification/utils.py,
     models/domain/underwriting.py) *)

Module OMParse.
Import PyStr PyNum PyInt OM BoundaryClassifier.

(** [get_property_info_fields] and [get_page_list_fields]: the field
    names, in declaration order. *)
Definition property_info_fields : list property_info_field :=
  [property_name; address; zip_code; city; state; number_of_units;
   year_built; parking_spaces; gross_square_feet; asking_price].

Definition page_list_fields : list page_list_field :=
  [t12; rent_roll; executive_summary; market_overview].

Definition field_name (f : property_info_field) : string :=
  match f with
  | property_name => "property_name"
  | address => "address"
  | zip_code => "zip_code"
  | city => "city"
  | state => "state"
  | number_of_units => "number_of_units"
  | year_built => "year_built"
  | parking_spaces => "parking_spaces"
  | gross_square_feet => "gross_square_feet"
  | asking_price => "asking_price"
  end.

Definition list_name (f : page_list_field) : string :=
  match f with
  | t12 => "t12"
  | rent_roll => "rent_roll"
  | executive_summary => "executive_summary"
  | market_overview => "market_overview"
  end.

#[global] Instance property_info_field_eq : EqDecision property_info_field.
Proof. solve_decision. Defined.

#[global] Instance page_list_field_eq : EqDecision page_list_field.
Proof. solve_decision. Defined.

(** A Python dict with string keys, in insertion order. *)
Abbreviation dict := (list (string * pyval)).

(** [d[key] = v] *)
Fixpoint dict_set (d : dict) (key : string) (v : pyval) : dict :=
  match d with
  | [] => [(key, v)]
  | (k, x) :: d' =>
      if String.eqb k key then (k, v) :: d' else (k, x) :: dict_set d' key v
  end.

(** [EnhancedClassificationResult.create_empty_result()], the dict. *)
Definition create_empty_result_dict : dict :=
  ((fun f => (field_name f, PNone)) <$> property_info_fields)
  ++ ((fun f => (list_name f, PList [])) <$> page_list_fields).

(** The body of the loop over [pages]: [int(page)], kept when positive;
    ValueError and TypeError skip the entry, anything else is raised. *)
Definition clean_step (clean_pages : list Z) (page : pyval) : result (list Z) :=
  match int_of page with
  | Ok page_int =>
      Ok (if 0 <? page_int then clean_pages ++ [page_int] else clean_pages)
  | Raise ValueError | Raise TypeError => Ok clean_pages
  | Raise e => Raise e
  end.

(** The loop and [sorted(list(set(clean_pages)))]. *)
Definition clean_page_list (pages : list pyval) : result (list Z) :=
  do clean_pages <- rfold clean_step pages [];
  Ok (sorted_set clean_pages).

(** The results of a loop over field names, as an association list. *)
Fixpoint collect {K V} (fields : list K) (f : K -> result V)
  : result (list (K * V)) :=
  match fields with
  | [] => Ok []
  | k :: ks =>
      do v <- f k;
      do rest <- collect ks f;
      Ok ((k, v) :: rest)
  end.

Fixpoint field_of {K V} `{EqDecision K} (dflt : V) (l : list (K * V)) (k : K)
  : V :=
  match l with
  | [] => dflt
  | (k', v) :: l' => if decide (k' = k) then v else field_of dflt l' k
  end.

Section Convert.
(** [repr] for what is not a string, and [json.loads]. *)
Variable py_repr : pyval -> string.
Variable json_loads : string -> result pyval.

(** One property-info field of [from_dict]: a dict with the keys "value"
    and "first_page" becomes an [ExtractedPropertyInfo], anything else is
    None. *)
Definition info_of (field_data : pyval)
  : result (option ExtractedPropertyInfo) :=
  match field_data with
  | PDict fd =>
      match dict_get fd "value", dict_get fd "first_page" with
      | Some v, Some fp =>
          do n <- int_of fp;
          Ok (Some {| value := strip (RentRoll.py_str py_repr v);
                      first_page := n |})
      | _, _ => Ok None
      end
  | _ => Ok None
  end.

(** One page-list field of [from_dict]; [data.get(field_name, [])]. *)
Definition pages_of (data : dict) (f : page_list_field) : result (list Z) :=
  match dict_get data (list_name f) with
  | None => clean_page_list []
  | Some (PList pages) => clean_page_list pages
  | Some _ => Ok []
  end.

(** [EnhancedClassificationResult.from_dict]; the model is built from
    values of the declared types. *)
Definition from_dict (data : dict) : result EnhancedClassificationResult :=
  do infos <- collect property_info_fields (fun f =>
                match dict_get data (field_name f) with
                | Some field_data => info_of field_data
                | None => Ok None
                end);
  do lists <- collect page_list_fields (pages_of data);
  Ok {| property_info := fun f => field_of None infos f;
        page_list := fun f => field_of [] lists f |}.

(** The two loops of [parse_llm_response] over the parsed object. *)
Definition info_step (parsed clean_result : dict)
    (category : property_info_field) : result dict :=
  match dict_get parsed (field_name category) with
  | Some (PDict fd) =>
      match dict_get fd "value", dict_get fd "first_page" with
      | Some v, Some fp =>
          do n <- int_of fp;
          Ok (dict_set clean_result (field_name category)
                (PDict [("value", PStr (strip (RentRoll.py_str py_repr v)));
                        ("first_page", PInt n)]))
      | _, _ => Ok clean_result
      end
  | _ => Ok clean_result
  end.

Definition pages_step (parsed clean_result : dict)
    (category : page_list_field) : result dict :=
  match dict_get parsed (list_name category) with
  | Some (PList pages) =>
      do clean_pages <- clean_page_list pages;
      Ok (dict_set clean_result (list_name category)
            (PList (PInt <$> clean_pages)))
  | _ => Ok clean_result
  end.

Definition clean_result_of (parsed : dict) : result dict :=
  do clean_result <- rfold (info_step parsed) property_info_fields
                       create_empty_result_dict;
  rfold (pages_step parsed) page_list_fields clean_result.

(** [parse_llm_response]: the greedy match from the first brace to the
    last, [json.loads], the two loops; [except (json.JSONDecodeError,
    ValueError, TypeError)] gives the empty result, and so does a parsed
    value that is not an object, on which [category in result] or
    [result[category]] is a TypeError or every test is false. *)
Definition parse_llm_response (response : string) : result dict :=
  match search_object_greedy response with
  | Some json_str =>
      match (do parsed <- json_loads json_str;
             match parsed with
             | PDict d => clean_result_of d
             | _ => Ok create_empty_result_dict
             end) with
      | Raise ValueError | Raise TypeError => Ok create_empty_result_dict
      | r => r
      end
  | None => Ok create_empty_result_dict
  end.

End Convert.

(** What a parsed dict holds for a property-info field. *)
Definition parsed_info (x : pyval) (i : option ExtractedPropertyInfo) : Prop :=
  match i with
  | None => x = PNone
  | Some i =>
      x = PDict [("value", PStr (value i)); ("first_page", PInt (first_page i))]
      /\ strip (value i) = value i
  end.

(** Dict [d] holds the fields of [r], with page lists that are strictly
    increasing and positive. *)
Definition represents (d : dict) (r : EnhancedClassificationResult) : Prop :=
  (forall f, exists x,
     dict_get d (field_name f) = Some x /\ parsed_info x (property_info r f)) /\
  (forall f,
     dict_get d (list_name f) = Some (PList (PInt <$> page_list r f)) /\
     StronglySorted Z.lt (page_list r f) /\
     Forall (Z.lt 0) (page_list r f)).

End OMParse.

(** ** Chunks for classification and pages for a description
    (services/underwriting/om_extraction/service.py) *)

Module OMExtractionService.
Import PyStr Chunker.

(** A call returns or raises [HTTPException(status_code, detail)]. *)
Inductive outcome (A : Type) :=
| Returned (a : A)
| HTTPException (status_code : Z) (detail : string).
Arguments Returned {A} a.
Arguments HTTPException {A} status_code detail.

Record classification_chunks := {
  chunks : list chunk;
  num_chunks : Z
}.

(** [create_chunks_for_classification]; [chunk_size] and [max_chunks] are
    the integers the service read from its environment. *)
Definition create_chunks_for_classification (chunk_size max_chunks : Z)
    (pages_text : gmap Z string) : outcome classification_chunks :=
  if decide (pages_text = ∅)
  then HTTPException 400 "No text content provided"
  else
    let chunks := create_page_chunks pages_text chunk_size in
    match chunks with
    | [] => HTTPException 400 "Failed to create text chunks from pages text"
    | _ =>
        let chunks_to_process :=
          if 0 <? max_chunks
          then Z.min (Z.of_nat (length chunks)) max_chunks
          else Z.of_nat (length chunks) in
        Returned {| chunks := chunks; num_chunks := chunks_to_process |}
    end.

(** The text of one listed page, if the page exists and is not blank. *)
Definition relevant_text (pages_text : gmap Z string) (page_num : Z)
  : option string :=
  match pages_text !! page_num with
  | Some text =>
      let page_text := strip text in
      if nonempty page_text
      then Some ("--- PAGE " +:+ pretty page_num +:+ " ---" +:+ nl +:+ page_text)
      else None
  | None => None
  end.

Definition get_relevant_description_pages (pages_text : gmap Z string)
    (page_numbers : list Z) : outcome string :=
  if decide (pages_text = ∅)
  then HTTPException 400 "No pages text provided"
  else
    match page_numbers with
    | [] => HTTPException 400 "No page numbers provided"
    | _ =>
        match omap (relevant_text pages_text) page_numbers with
        | [] => HTTPException 400 "No text content found in specified pages"
        | relevant_texts => Returned (join (nl +:+ nl) relevant_texts)
        end
    end.

End OMExtractionService.

(** ** Rent-roll chunks for the structuring pass
    (services/underwriting/structuring/rr_repo.py) *)

Module RentRollChunks.
Import PyStr.

(** A chunk dictionary; [pages] is there for a PDF, [sheets] for a
    spreadsheet. *)
Record chunk := {
  chunk_id : Z;
  content : string;
  char_count : Z;
  pages : option (list Z);
  sheets : option (list string);
  file_type : string;
  column_headers : list string
}.

(** [f"COLUMN HEADERS: {' | '.join(column_headers)}\n\n" if column_headers
    else ""] *)
Definition header_context (column_headers : list string) : string :=
  match column_headers with
  | [] => ""
  | _ => "COLUMN HEADERS: " +:+ join " | " column_headers +:+ nl +:+ nl
  end.

(** The local variables of the two chunking loops. *)
Record state := {
  chunks : list chunk;
  current_chunk : list string;
  current_chunk_size : Z;
  next_chunk_id : Z
}.

Definition initial : state :=
  {| chunks := []; current_chunk := []; current_chunk_size := 0;
     next_chunk_id := 0 |}.

(** The loop the two chunkers share: [_chunk_pdf_rent_roll_data] runs it
    over the page texts with [len(page_text)] as size,
    [_chunk_excel_rent_roll_data] over the lines with [len(line) + 1];
    [make_chunk] is the dictionary each of them appends. *)
Section Loop.
Variable item_size : string -> Z.
Variable make_chunk : Z -> list string -> chunk.
Variable chunk_size : Z.

Definition step (st : state) (item : string) : state :=
  if bool_decide (current_chunk st <> [])
     && (chunk_size <? current_chunk_size st + item_size item)
  then
    {| chunks := chunks st
                 ++ [make_chunk (next_chunk_id st) (current_chunk st)];
       current_chunk := [item];
       current_chunk_size := item_size item;
       next_chunk_id := next_chunk_id st + 1 |}
  else
    {| chunks := chunks st;
       current_chunk := current_chunk st ++ [item];
       current_chunk_size := current_chunk_size st + item_size item;
       next_chunk_id := next_chunk_id st |}.

Definition finish (st : state) : list chunk :=
  if bool_decide (current_chunk st <> [])
  then chunks st ++ [make_chunk (next_chunk_id st) (current_chunk st)]
  else chunks st.

Definition chunk_loop (items : list string) : list chunk :=
  finish (foldl step initial items).

End Loop.

(** [[i + start_page for i in range(len(current_chunk))]] *)
Definition page_labels (start_page : Z) (current_chunk : list string)
  : list Z :=
  (fun i => i + start_page) <$> seqZ 0 (Z.of_nat (length current_chunk)).

Definition pdf_chunk (column_headers : list string) (start_page : Z)
    (chunk_id : Z) (current_chunk : list string) : chunk :=
  let chunk_content := header_context column_headers +:+ join nl current_chunk in
  {| chunk_id := chunk_id;
     content := chunk_content;
     char_count := len chunk_content;
     pages := Some (page_labels start_page current_chunk);
     sheets := None;
     file_type := "pdf";
     column_headers := column_headers |}.

Definition _chunk_pdf_rent_roll_data
    (precision_extraction : PdfPrecision.PDFRentRollPrecisionExtract)
    (chunk_size chunk_overlap : Z) : list chunk :=
  let relevant_data := PdfPrecision.relevant_data precision_extraction in
  let boundaries := PdfPrecision.extract_boundaries precision_extraction in
  match relevant_data with
  | [] => []
  | _ =>
      chunk_loop len
        (pdf_chunk (PdfPrecision.boundary_headers boundaries)
                   (PdfPrecision.start_page boundaries))
        chunk_size (join nl <$> relevant_data)
  end.

Definition excel_chunk (column_headers : list string)
    (sheets_of : list ExcelPrecision.sheet)
    (chunk_id : Z) (current_chunk_lines : list string) : chunk :=
  let chunk_content :=
    header_context column_headers +:+ join nl current_chunk_lines in
  {| chunk_id := chunk_id;
     content := chunk_content;
     char_count := len chunk_content;
     pages := None;
     sheets := Some ((fun sh => default "Unknown" (ExcelPrecision.sheet_name sh))
                       <$> sheets_of);
     file_type := "excel";
     column_headers := column_headers |}.

Definition _chunk_excel_rent_roll_data
    (precision_extraction : ExcelPrecision.ExcelRentRollPrecisionExtract)
    (chunk_size chunk_overlap : Z) : list chunk :=
  let sheets_of := ExcelPrecision.sheets precision_extraction in
  let boundaries := ExcelPrecision.extract_boundaries precision_extraction in
  let enumerated_text := ExcelPrecision.enumerated_text precision_extraction in
  match sheets_of with
  | [] => []
  | _ =>
      if nonempty enumerated_text then
        let lines := split "010"%char enumerated_text in
        match lines with
        | [] => []
        | _ =>
            chunk_loop (fun line => len line + 1)
              (excel_chunk (ExcelPrecision.boundary_headers boundaries) sheets_of)
              chunk_size lines
        end
      else []
  end.

(** [chunk_rent_roll_data]; the two models are the two cases of the
    extract. *)
Definition chunk_rent_roll_data
    (precision_extraction : ExtractionService.precision_extract)
    (chunk_size chunk_overlap : Z) : list chunk :=
  match precision_extraction with
  | ExtractionService.PdfExtract e =>
      _chunk_pdf_rent_roll_data e chunk_size chunk_overlap
  | ExtractionService.ExcelExtract e =>
      _chunk_excel_rent_roll_data e chunk_size chunk_overlap
  end.

(** [validate_chunks]; a chunk record has all the required keys and its
    [column_headers] is a list, so the tests left are those on
    [char_count] and [file_type]. *)
Definition valid_chunk (c : chunk) : bool :=
  negb (char_count c <=? 0)
  && (String.eqb (file_type c) "pdf" || String.eqb (file_type c) "excel").

Definition validate_chunks (chunks : list chunk) : bool :=
  match chunks with
  | [] => false
  | _ => forallb valid_chunk chunks
  end.

(** *** What the loop keeps *)

(** The size the loop has accumulated for a run of items. *)
Definition total (item_size : string -> Z) (g : list string) : Z :=
  foldl (fun acc x => acc + item_size x) 0 g.

(** [groups] divides [items] into consecutive runs, none empty; a run
    is within the budget unless it is a single item; and a run ends only
    where the next item did not fit. *)
Record packing (item_size : string -> Z) (chunk_size : Z)
    (items : list string) (groups : list (list string)) : Prop := {
  packing_cover : concat groups = items;
  packing_nonempty : Forall (fun g => g <> []) groups;
  packing_budget :
    Forall (fun g => total item_size g <= chunk_size \/ length g = 1%nat)
           groups;
  packing_greedy :
    forall (i : nat) g g' x,
      groups !! i = Some g -> groups !! (S i) = Some g' ->
      head g' = Some x -> chunk_size < total item_size g + item_size x
}.

(** The chunks made of the runs, numbered from 0. *)
Definition chunks_of (make_chunk : Z -> list string -> chunk)
    (groups : list (list string)) : list chunk :=
  imap (fun i g => make_chunk (Z.of_nat i) g) groups.

Record loop_inv (item_size : string -> Z)
    (make_chunk : Z -> list string -> chunk) (chunk_size : Z)
    (seen : list string) (st : state) (groups : list (list string))
  : Prop := {
  loop_chunks : chunks st = chunks_of make_chunk groups;
  loop_next : next_chunk_id st = Z.of_nat (length groups);
  loop_size : current_chunk_size st = total item_size (current_chunk st);
  loop_cover : concat groups ++ current_chunk st = seen;
  loop_nonempty : Forall (fun g => g <> []) groups;
  loop_budget :
    Forall (fun g => total item_size g <= chunk_size \/ length g = 1%nat)
           groups;
  loop_current :
    total item_size (current_chunk st) <= chunk_size
    \/ (length (current_chunk st) <= 1)%nat;
  loop_greedy :
    forall (i : nat) g g' x,
      groups !! i = Some g -> groups !! (S i) = Some g' ->
      head g' = Some x -> chunk_size < total item_size g + item_size x;
  loop_last :
    forall g x, last groups = Some g -> head (current_chunk st) = Some x ->
                chunk_size < total item_size g + item_size x;
  loop_started : current_chunk st = [] -> groups = []
}.

End RentRollChunks.

(** ** Reading the rows of a sheet
    (services/underwriting/rent_roll_extraction/utils.py) *)

Module SheetRows.
Import PyStr.

(** A row of [sheet.iter_rows(values_only=True)]; the cell values are
    None, booleans, numbers and strings. *)
Definition raw_row := list pyval.

(** [all(cell is None or (isinstance(cell, str) and not cell.strip())
        for cell in row)] *)
Definition is_empty (row : raw_row) : bool :=
  forallb (fun cell =>
             match cell with
             | PNone => true
             | PStr s => negb (nonempty (strip s))
             | _ => false
             end) row.

(** The loop of [iter_rows_efficiently] from one row on, with the rows
    kept so far and the count of empty rows just seen. *)
Fixpoint iter_rows_loop (max_consecutive_empty_rows : Z) (rows : list raw_row)
    (rows_data : list raw_row) (consecutive_empty_count : Z) : list raw_row :=
  match rows with
  | [] => rows_data
  | row :: rest =>
      if is_empty row then
        let consecutive_empty_count := consecutive_empty_count + 1 in
        if max_consecutive_empty_rows <=? consecutive_empty_count
        then rows_data
        else iter_rows_loop max_consecutive_empty_rows rest rows_data
                            consecutive_empty_count
      else
        iter_rows_loop max_consecutive_empty_rows rest (rows_data ++ [row]) 0
  end.

Definition iter_rows_efficiently (rows : list raw_row)
    (max_consecutive_empty_rows : Z) : list raw_row :=
  iter_rows_loop max_consecutive_empty_rows rows [] 0.

Section Clean.
Variable py_repr : pyval -> string.

(** [cell is not None and str(cell).strip()] *)
Definition has_text (cell : pyval) : bool :=
  match cell with
  | PNone => false
  | _ => nonempty (strip (RentRoll.py_str py_repr cell))
  end.

Definition clean_cell (cell : pyval) : string :=
  match cell with
  | PNone => ""
  | _ => strip (RentRoll.py_str py_repr cell)
  end.

Definition clean_excel_data (sheet_data : list raw_row) : list (list string) :=
  foldl (fun cleaned_data row =>
           if existsb has_text row
           then cleaned_data ++ [clean_cell <$> row]
           else cleaned_data)
        [] sheet_data.

End Clean.

(** The emptiness flags of [rows] hold [n] times true in a row. *)
Definition gap_in (n : nat) (flags : list bool) : Prop :=
  exists i, forall j, (j < n)%nat -> flags !! (i + j)%nat = Some true.

End SheetRows.

(** ** Validating T-12 line items
    (services/underwriting/structuring/utils.py,
     services/underwriting/structuring/categories.py) *)

Module LineItems.
Import PyStr PyNum BoundaryClassifier.

(** [T12_VALID_CATEGORIES] *)
Definition t12_valid_categories : list string :=
  [ "Residential Rent"; "Commercial Rent"; "Parking Revenue";
    "Renovated Apartments"; "Improved Apartment Income"; "Other Income";
    "Residential Vacancy"; "Commercial Vacancy"; "Parking Vacancy";
    "Bad Debt";
    "Property Tax"; "Insurance"; "Electricity"; "Water"; "Gas";
    "Service Contracts"; "Professional Fees"; "R&M"; "Leasing & Marketing";
    "Turnover"; "G&A"; "Payroll"; "Management"; "Asset Management";
    "Subtotal"; "Non-Operating Items";
    "Unknown" ].

(** [category in valid_categories] *)
Definition is_valid_t12_category (category : string) : bool :=
  existsb (String.eqb category) t12_valid_categories.

Record validated_item := {
  line_item : string;
  category : string;
  total : Z
}.

Section Validate.
Variable py_repr : pyval -> string.

(** The body of the loop of [validate_financial_line_items]. *)
Definition validate_step (validated_items : list validated_item)
    (item : pyval) : result (list validated_item) :=
  match item with
  | PDict d =>
      match dict_get d "line_item", dict_get d "category",
            dict_get d "total" with
      | Some li, Some cat, Some tot =>
          let category := strip (RentRoll.py_str py_repr cat) in
          let category :=
            if is_valid_t12_category category then category else "Unknown" in
          match int_of_float tot with
          | Ok n =>
              let item' :=
                {| line_item := strip (RentRoll.py_str py_repr li);
                   category := category;
                   total := n |} in
              if is_valid_t12_category category && nonempty (line_item item')
              then Ok (validated_items ++ [item'])
              else Ok validated_items
          | Raise ValueError | Raise TypeError => Ok validated_items
          | Raise e => Raise e
          end
      | _, _, _ => Ok validated_items
      end
  | _ => Ok validated_items
  end.

Definition validate_financial_line_items (data : pyval)
  : result (list validated_item) :=
  match data with
  | PList items => rfold validate_step items []
  | _ => Ok []
  end.

(** [validate_t12_data] *)
Definition validate_t12_data (data : pyval) : result (list validated_item) :=
  validate_financial_line_items data.

End Validate.

(** An item with the three required keys whose total overflows in
    [int(float(...))]. *)
Definition overflowing_item (item : pyval) : Prop :=
  exists d li cat tot,
    item = PDict d /\ dict_get d "line_item" = Some li /\
    dict_get d "category" = Some cat /\ dict_get d "total" = Some tot /\
    int_of_float tot = Raise OverflowError.

(** What every returned item satisfies. *)
Definition good_item (it : validated_item) : Prop :=
  is_valid_t12_category (category it) = true /\
  line_item it <> "" /\ strip (line_item it) = line_item it.

End LineItems.

(** * Part II: properties *)

(** ** Generic facts about sorted lists and dictionaries *)

(** A list sorted by [<=] without duplicates is strictly increasing. *)
Lemma le_sorted_nodup_lt (l : list Z) :
  StronglySorted Z.le l -> NoDup l -> StronglySorted Z.lt l.
Proof.
  induction 1 as [|x l Hs IH Hall]; intros Hnd; constructor.
  - apply IH. by apply NoDup_cons in Hnd as [_ ?].
  - apply NoDup_cons in Hnd as [Hx _].
    apply Forall_forall. intros y Hy.
    rewrite Forall_forall in Hall. specialize (Hall y Hy).
    assert (x <> y) by (intros ->; done). lia.
Qed.

Module PyDictFacts.
Import PyDict.

Lemma key_eqb_str_r k s : key_eqb k (PStr s) = true <-> k = PStr s.
Proof.
  split.
  - destruct k as [| | | | t | |]; simpl; try discriminate.
    intros H. apply String.eqb_eq in H. by subst.
  - intros ->. simpl. apply String.eqb_refl.
Qed.

Lemma key_eqb_str_l k s : key_eqb (PStr s) k = true <-> k = PStr s.
Proof.
  split.
  - destruct k as [| | | | t | |]; simpl; try discriminate.
    intros H. apply String.eqb_eq in H. by subst.
  - intros ->. simpl. apply String.eqb_refl.
Qed.

(** Two keys that a dict identifies agree on every string key. *)
Lemma key_eqb_str_compat k' k s :
  key_eqb k' k = true -> key_eqb k' (PStr s) = key_eqb k (PStr s).
Proof.
  intros H.
  destruct (key_eqb k (PStr s)) eqn:E.
  - apply key_eqb_str_r in E. subst k.
    apply key_eqb_str_r in H. subst k'. by apply key_eqb_str_r.
  - destruct (key_eqb k' (PStr s)) eqn:E'; [|done].
    apply key_eqb_str_r in E'. subst k'.
    apply key_eqb_str_l in H. subst k.
    rewrite <- E. symmetry. by apply key_eqb_str_r.
Qed.

Lemma find_store_str d k v s :
  find (store d k v) (PStr s) =
  if key_eqb k (PStr s) then Some v else find d (PStr s).
Proof.
  induction d as [|[k' v'] d IH]; simpl.
  - done.
  - destruct (key_eqb k' k) eqn:E; simpl.
    + rewrite (key_eqb_str_compat _ _ s E).
      by destruct (key_eqb k (PStr s)).
    + rewrite IH. destruct (key_eqb k' (PStr s)) eqn:E'; [|done].
      destruct (key_eqb k (PStr s)) eqn:E''; [|done].
      apply key_eqb_str_r in E', E''. subst.
      simpl in E. by rewrite String.eqb_refl in E.
Qed.

End PyDictFacts.

(** ** T12 match step: join completeness and duplicate handling *)

Module T12Facts.
Import PyDict PyDictFacts T12.

Lemma is_pair_scalar item : is_pair item -> scalar_key item.
Proof. intros (s & a & rest & ->) k c r [= <- _ _]. done. Qed.

Lemma lookup_step_short d item :
  (length item < 2)%nat -> lookup_step d item = Ok d.
Proof.
  intros H. unfold lookup_step.
  destruct (Nat.leb_spec 2 (length item)); [lia|done].
Qed.

Lemma lookup_step_long d k c rest :
  lookup_step d (k :: c :: rest) = setitem d k c.
Proof. reflexivity. Qed.

Lemma match_step_long d acc k a rest :
  match_step d acc (k :: a :: rest) =
  do category <- get d k (PStr "Unknown"); Ok (acc ++ [[k; a; category]]).
Proof. reflexivity. Qed.

Lemma match_step_short d acc item :
  (length item < 2)%nat -> match_step d acc item = Ok acc.
Proof.
  intros H. unfold match_step.
  destruct (Nat.leb_spec 2 (length item)); [lia|done].
Qed.

Lemma lookup_fold cats : forall d,
  Forall scalar_key cats ->
  exists d', rfold lookup_step cats d = Ok d' /\
    forall s, find d' (PStr s) =
              match last_category cats s with
              | Some c => Some c
              | None => find d (PStr s)
              end.
Proof.
  induction cats as [|item cats IH]; intros d Hk.
  - exists d. by split.
  - apply Forall_cons in Hk as [Hitem Hk].
    destruct item as [|k [|c rest]].
    + cbn [rfold]. rewrite lookup_step_short by (simpl; lia). cbn [rbind].
      destruct (IH d Hk) as (d' & -> & Hd'). exists d'. split; [done|].
      intros s. rewrite Hd'. simpl. by destruct (last_category cats s).
    + cbn [rfold]. rewrite lookup_step_short by (simpl; lia). cbn [rbind].
      destruct (IH d Hk) as (d' & -> & Hd'). exists d'. split; [done|].
      intros s. rewrite Hd'. simpl. destruct (last_category cats s); [done|].
      by destruct k.
    + cbn [rfold]. rewrite lookup_step_long. unfold setitem.
      rewrite (Hitem k c rest eq_refl). cbn [rbind].
      destruct (IH (store d k c) Hk) as (d' & -> & Hd'). exists d'.
      split; [done|]. intros s. rewrite Hd'. simpl.
      destruct (last_category cats s); [done|].
      rewrite find_store_str.
      destruct (key_eqb k (PStr s)) eqn:E.
      * apply key_eqb_str_r in E. subst k. by rewrite String.eqb_refl.
      * destruct k as [| | | | t | |]; try done.
        simpl in E. by rewrite E.
Qed.

Lemma match_fold d pairs : forall acc,
  Forall scalar_key pairs ->
  rfold (match_step d) pairs acc = Ok (acc ++ omap (triple_of d) pairs).
Proof.
  induction pairs as [|item pairs IH]; intros acc Hk; simpl.
  - by rewrite app_nil_r.
  - apply Forall_cons in Hk as [Hitem Hk].
    destruct item as [|k [|a rest]]; cbn [rfold omap].
    + rewrite match_step_short by (simpl; lia). by apply IH.
    + rewrite match_step_short by (simpl; lia). by apply IH.
    + rewrite match_step_long. unfold get.
      rewrite (Hitem k a rest eq_refl). cbn [rbind].
      rewrite IH by done. simpl. by rewrite <- app_assoc.
Qed.

Lemma omap_triple_pairs d pairs :
  Forall is_pair pairs ->
  omap (triple_of d) pairs =
  (fun item => default [] (triple_of d item)) <$> pairs.
Proof.
  induction 1 as [|item pairs (s & a & rest & ->) _ IH]; [done|].
  rewrite fmap_cons. rewrite <- IH. reflexivity.
Qed.

Lemma last_category_Some cats s c :
  last_category cats s = Some c -> exists rest, (PStr s :: c :: rest) ∈ cats.
Proof.
  induction cats as [|item cats IH]; simpl; [done|].
  destruct (last_category cats s) as [c0|].
  - intros [= ->]. destruct (IH eq_refl) as [rest H].
    exists rest. by right.
  - destruct item as [|[| | | | t | |] [|c1 rest]]; try done.
    destruct (String.eqb_spec t s); [|done].
    intros [= <-]. subst t. exists rest. by left.
Qed.

Lemma last_category_None cats s :
  last_category cats s = None ->
  forall c rest, (PStr s :: c :: rest) ∉ cats.
Proof.
  induction cats as [|item cats IH]; simpl; intros H c rest Hin.
  - by apply elem_of_nil in Hin.
  - destruct (last_category cats s) eqn:E; [done|].
    apply elem_of_cons in Hin as [<-|Hin].
    + by rewrite String.eqb_refl in H.
    + by eapply IH.
Qed.

(** A later row for [s] overrides every earlier one. *)
Lemma last_category_app cats1 cats2 s :
  last_category (cats1 ++ cats2) s =
  match last_category cats2 s with
  | Some c => Some c
  | None => last_category cats1 s
  end.
Proof.
  induction cats1 as [|item cats1 IH]; simpl.
  - by destruct (last_category cats2 s).
  - rewrite IH. by destruct (last_category cats2 s).
Qed.

Lemma lookup_fold_filter cats : forall d,
  rfold lookup_step (filter (fun item : row => 2 <= length item)%nat cats) d =
  rfold lookup_step cats d.
Proof.
  induction cats as [|item cats IH]; intros d; [done|].
  rewrite filter_cons. case_decide as Hlen; simpl.
  - destruct (lookup_step d item); simpl; auto.
  - rewrite lookup_step_short by lia. simpl. apply IH.
Qed.

End T12Facts.

Module T12Claims.
Import PyDict PyDictFacts T12 T12Facts.

(** The worked example of the specification. *)
Example match_example :
  match_categories_with_amounts
    [[PStr "Base Rent"; PInt 50000]; [PStr "Misc"; PInt 200]]
    [[PStr "Base Rent"; PStr "Residential Rent"]]
  = Ok [[PStr "Base Rent"; PInt 50000; PStr "Residential Rent"];
        [PStr "Misc"; PInt 200; PStr "Unknown"]].
Proof. reflexivity. Qed.

(** A categorization row of two or more cells whose line item is a list or
    a dict stops the first loop: the call raises TypeError, whatever the
    extraction pairs are. *)
Lemma unhashable_line_item_raises (pairs cats : list row) :
  ~ Forall scalar_key cats ->
  match_categories_with_amounts pairs cats = Raise TypeError.
Proof.
  intros Hno. unfold match_categories_with_amounts.
  enough (H : forall d, rfold lookup_step cats d = Raise TypeError)
    by (by rewrite H).
  induction cats as [|item cats IH]; intros d.
  - destruct Hno. constructor.
  - cbn [rfold]. destruct item as [|k [|c rest]].
    + rewrite lookup_step_short by (simpl; lia). cbn [rbind].
      apply IH. intros H. apply Hno. constructor; [|done]. by intros ? ? ?.
    + rewrite lookup_step_short by (simpl; lia). cbn [rbind].
      apply IH. intros H. apply Hno. constructor; [|done]. by intros ? ? ?.
    + rewrite lookup_step_long. unfold setitem.
      destruct (hashable k) eqn:Hk; [|done]. cbn [rbind].
      apply IH. intros H. apply Hno. constructor; [|done].
      by intros ? ? ? [= <- _ _].
Qed.

(** C1, as the specification states it for every categorization list,
    fails: a categorization row whose line item is a list cannot be a
    dictionary key, the first loop raises TypeError and no triple is
    returned, although the extraction pair is a string and an amount. *)
Lemma unhashable_line_item_breaks_join :
  Forall is_pair [[PStr "Base Rent"; PInt 50000]] /\
  match_categories_with_amounts
    [[PStr "Base Rent"; PInt 50000]]
    [[PList [PStr "Base Rent"]; PStr "Residential Rent"]]
  = Raise TypeError /\
  ~ join_complete
      [[PStr "Base Rent"; PInt 50000]]
      [[PList [PStr "Base Rent"]; PStr "Residential Rent"]].
Proof.
  split; [|split].
  - apply Forall_singleton. by exists "Base Rent", (PInt 50000), [].
  - reflexivity.
  - intros (out & Hout & _). vm_compute in Hout. discriminate.
Qed.

(** C1 (T12 join completeness).  For extraction pairs that each start with
    a line-item string and an amount, and a categorization list whose used
    keys are JSON scalars, [match_categories_with_amounts] returns, and its
    result has one triple per extraction pair, at the same position, with
    the same line item and amount.  The category of the triple is one the
    categorization list gives to exactly that string, and it is "Unknown"
    when no categorization row of length >= 2 starts with that string; no
    pair is dropped. *)
Theorem match_join_complete (pairs cats : list row) :
  Forall is_pair pairs ->
  Forall scalar_key cats ->
  exists out,
    match_categories_with_amounts pairs cats = Ok out /\
    length out = length pairs /\
    forall (i : nat) s a rest,
      pairs !! i = Some (PStr s :: a :: rest) ->
      exists c,
        out !! i = Some [PStr s; a; c] /\
        ((exists rest', (PStr s :: c :: rest') ∈ cats) \/
         (c = PStr "Unknown" /\
          forall c' rest', (PStr s :: c' :: rest') ∉ cats)).
Proof.
  intros Hp Hc.
  destruct (lookup_fold cats [] Hc) as (d & Hd & Hfind).
  unfold match_categories_with_amounts. rewrite Hd. cbn [rbind].
  rewrite match_fold by (eapply Forall_impl; [exact Hp|apply is_pair_scalar]).
  rewrite omap_triple_pairs by done. rewrite app_nil_l.
  eexists. split; [reflexivity|]. split; [by rewrite length_fmap|].
  intros i s a rest Hi.
  exists (default (PStr "Unknown") (find d (PStr s))). split.
  - rewrite list_lookup_fmap. unfold row in *. by rewrite Hi.
  - rewrite Hfind. simpl.
    destruct (last_category cats s) as [c|] eqn:E; simpl.
    + left. by apply last_category_Some.
    + right. split; [done|]. by apply last_category_None.
Qed.

Lemma match_join_complete_witness :
  exists out,
    match_categories_with_amounts
      [[PStr "Base Rent"; PInt 50000]; [PStr "Misc"; PInt 200]]
      [[PStr "Base Rent"; PStr "Residential Rent"]; [PStr "stray"]] = Ok out /\
    length out = 2%nat.
Proof.
  destruct (match_join_complete
              [[PStr "Base Rent"; PInt 50000]; [PStr "Misc"; PInt 200]]
              [[PStr "Base Rent"; PStr "Residential Rent"]; [PStr "stray"]])
    as (out & H1 & H2 & _).
  - repeat constructor; unfold is_pair; eauto.
  - repeat constructor; intros k c rest [= <- _ _]; reflexivity.
  - exists out. split; [exact H1|exact H2].
Defined.

(** C10 (duplicate keys and short rows).  When the categorization list
    gives line item [s] a category more than once, the last row for [s]
    in list order decides: every extraction row for [s] comes out with that
    category, and no triple for [s] carries another one.  Categorization
    rows with fewer than two cells have no effect on the result. *)
Theorem last_assignment_wins (pairs cats1 cats2 : list row) s c rest :
  Forall scalar_key pairs ->
  Forall scalar_key (cats1 ++ (PStr s :: c :: rest) :: cats2) ->
  (forall c' rest', (PStr s :: c' :: rest') ∉ cats2) ->
  (exists out,
     match_categories_with_amounts pairs
       (cats1 ++ (PStr s :: c :: rest) :: cats2) = Ok out /\
     (forall a rest', (PStr s :: a :: rest') ∈ pairs -> [PStr s; a; c] ∈ out) /\
     (forall a c', [PStr s; a; c'] ∈ out -> c' = c)) /\
  (forall pairs' cats',
     match_categories_with_amounts pairs'
       (filter (fun item : row => 2 <= length item)%nat cats') =
     match_categories_with_amounts pairs' cats').
Proof.
  intros Hp Hc Hlast. split.
  - destruct (lookup_fold _ [] Hc) as (d & Hd & Hfind).
    unfold match_categories_with_amounts. rewrite Hd. cbn [rbind].
    rewrite match_fold by done. rewrite app_nil_l.
    assert (Hs : find d (PStr s) = Some c).
    { rewrite Hfind, last_category_app. simpl.
      destruct (last_category cats2 s) as [c0|] eqn:E.
      - apply last_category_Some in E as [r Hr]. by apply Hlast in Hr.
      - by rewrite String.eqb_refl. }
    eexists. split; [reflexivity|]. split.
    + intros a rest' Hin. apply list_elem_of_omap.
      exists (PStr s :: a :: rest'). split; [done|].
      simpl. by rewrite Hs.
    + intros a c' Hin. apply list_elem_of_omap in Hin as (item & _ & Hitem).
      destruct item as [|k [|a' r]]; try done.
      simpl in Hitem. injection Hitem as -> -> Hc'.
      rewrite Hs in Hc'. by simpl in Hc'.
  - intros pairs' cats'. unfold match_categories_with_amounts.
    by rewrite lookup_fold_filter.
Qed.

Lemma last_assignment_wins_witness :
  exists out,
    match_categories_with_amounts
      [[PStr "Tax"; PInt 7]; [PStr "Tax"; PInt 9]]
      ([[PStr "Tax"; PStr "Old"]] ++ [PStr "Tax"; PStr "New"] :: [[PStr "x"]])
    = Ok out /\
    [PStr "Tax"; PInt 9; PStr "New"] ∈ out.
Proof.
  destruct (last_assignment_wins
              [[PStr "Tax"; PInt 7]; [PStr "Tax"; PInt 9]]
              [[PStr "Tax"; PStr "Old"]] [[PStr "x"]]
              "Tax" (PStr "New") [])
    as [(out & H1 & H2 & _) _].
  - repeat constructor; intros k c rest [= <- _ _]; reflexivity.
  - repeat constructor; intros k c rest [= <- _ _]; reflexivity.
  - intros c' rest' Hin. apply list_elem_of_singleton in Hin. discriminate.
  - exists out. split; [exact H1|]. apply H2 with (rest' := []).
    apply list_elem_of_further, list_elem_of_here.
Defined.

End T12Claims.

(** ** OM classification: merging page lists *)

Module OMFacts.
Import OM.

Lemma sorted_set_elem xs p : p ∈ sorted_set xs <-> p ∈ xs.
Proof.
  unfold sorted_set. rewrite merge_sort_Permutation.
  rewrite elem_of_elements. apply elem_of_list_to_set.
Qed.

Lemma sorted_set_strict xs : StronglySorted Z.lt (sorted_set xs).
Proof.
  unfold sorted_set. apply le_sorted_nodup_lt.
  - apply StronglySorted_merge_sort; apply _.
  - rewrite merge_sort_Permutation. apply NoDup_elements.
Qed.

(** The result does not depend on how the set is enumerated. *)
Lemma sorted_set_any_enumeration xs (l : list Z) :
  NoDup l -> (forall p, p ∈ l <-> p ∈ xs) ->
  merge_sort Z.le l = sorted_set xs.
Proof.
  intros Hnd Hel. unfold sorted_set.
  apply (Sorted_unique Z.le).
  - apply Sorted_merge_sort; apply _.
  - apply Sorted_merge_sort; apply _.
  - rewrite !merge_sort_Permutation.
    apply NoDup_Permutation; [done|apply NoDup_elements|].
    intros p. rewrite elem_of_elements, elem_of_list_to_set. apply Hel.
Qed.

Lemma sorted_set_ext xs ys :
  (forall p, p ∈ xs <-> p ∈ ys) -> sorted_set xs = sorted_set ys.
Proof.
  intros H. unfold sorted_set. f_equal. f_equal.
  apply set_eq. intros p. rewrite !elem_of_list_to_set. apply H.
Qed.

End OMFacts.

Module OMClaims.
Import OM OMFacts.

(** C8 (merge of page-list fields).  For classification results [A] and
    [B] and every page-list field, merging [[A; B]] and merging [[B; A]]
    give the same list; that list is strictly increasing (sorted, without
    duplicates) and holds exactly the pages of [A]'s and [B]'s lists; and
    merging [[A; A]] gives the same page lists as merging [[A]]. *)
Theorem merge_page_lists_commutative (A B : EnhancedClassificationResult)
    (f : page_list_field) :
  page_list (merge_results [A; B]) f = page_list (merge_results [B; A]) f /\
  StronglySorted Z.lt (page_list (merge_results [A; B]) f) /\
  (forall p, p ∈ page_list (merge_results [A; B]) f <->
             p ∈ page_list A f \/ p ∈ page_list B f) /\
  page_list (merge_results [A; A]) f = page_list (merge_results [A]) f.
Proof.
  simpl. unfold all_pages. simpl. repeat split.
  - apply sorted_set_ext. intros p. rewrite !elem_of_app. tauto.
  - apply sorted_set_strict.
  - rewrite sorted_set_elem, elem_of_app. tauto.
  - rewrite sorted_set_elem, elem_of_app. tauto.
  - apply sorted_set_ext. intros p. rewrite !elem_of_app. tauto.
Qed.

End OMClaims.

(** ** PageChunker: coverage and the size contract *)

Module ChunkerFacts.
Import PyStr Chunker.

#[local] Instance page_le_total : Total page_le.
Proof. intros a b. unfold page_le. lia. Qed.

#[local] Instance page_le_trans : Transitive page_le.
Proof. intros a b c. unfold page_le. lia. Qed.

Lemma len_nonneg s : 0 <= len s.
Proof. unfold len. lia. Qed.

Lemma sorted_pages_elem m p text :
  (p, text) ∈ sorted_pages m <-> m !! p = Some text.
Proof.
  unfold sorted_pages. rewrite merge_sort_Permutation.
  apply elem_of_map_to_list.
Qed.

Lemma sorted_pages_keys_strict m : StronglySorted Z.lt (sorted_pages m).*1.
Proof.
  apply le_sorted_nodup_lt.
  - apply (StronglySorted_fmap fst page_le Z.le); [done|].
    apply StronglySorted_merge_sort; apply _.
  - unfold sorted_pages. rewrite merge_sort_Permutation.
    apply NoDup_fst_map_to_list.
Qed.

Lemma sorted_pages_keys_elem m p :
  p ∈ (sorted_pages m).*1 <-> is_Some (m !! p).
Proof.
  rewrite list_elem_of_fmap. split.
  - intros ([p' text] & -> & H). apply sorted_pages_elem in H. by exists text.
  - intros [text H]. exists (p, text). split; [done|].
    by apply sorted_pages_elem.
Qed.

Lemma chunk_ok_mono S seen x c :
  chunk_ok S seen c -> chunk_ok S (seen ++ [x]) c.
Proof.
  intros [H|(Ho & p & text & Hin & H)]; [by left|right].
  split; [done|]. exists p, text. split; [|done].
  apply elem_of_app. by left.
Qed.

Lemma inv_initial S : inv S [] initial.
Proof. split; simpl; done. Qed.

Lemma pages_snoc (cs : list chunk) c :
  concat (pages <$> (cs ++ [c])) = concat (pages <$> cs) ++ pages c.
Proof. rewrite fmap_app, concat_app. simpl. by rewrite app_nil_r. Qed.

Lemma keys_snoc (seen : list (Z * string)) p text :
  (seen ++ [(p, text)]).*1 = seen.*1 ++ [p].
Proof. by rewrite fmap_app. Qed.

Ltac fields :=
  cbn [chunks current_chunk_pages current_chunk_text current_chunk_size
       next_chunk_id close_chunk pages char_count oversized content chunk_id].

Lemma inv_step S seen st page :
  inv S seen st -> inv S (seen ++ [page]) (step S st page).
Proof.
  intros [Hcov Hch Hemp Hfit]. destruct page as [p text].
  assert (Hmono : Forall (chunk_ok S (seen ++ [(p, text)])) (chunks st)).
  { eapply Forall_impl; [exact Hch|]. intros c. apply chunk_ok_mono. }
  pose proof (len_nonneg (page_content p text)) as Hlen.
  assert (Hseen : (p, text) ∈ seen ++ [(p, text)]).
  { rewrite elem_of_app, list_elem_of_singleton. auto. }
  unfold step.
  destruct (bool_decide (current_chunk_pages st <> [])) eqn:Hne.
  - (* the current chunk holds pages *)
    apply bool_decide_eq_true in Hne. specialize (Hfit Hne).
    destruct (Z.ltb_spec S (current_chunk_size st + len (page_content p text)))
      as [Hover|Hroom]; cbn [andb].
    + (* the page does not fit: close the chunk, start a new one *)
      fields. cbn [length Nat.eqb].
      destruct (Z.ltb_spec S (len (page_content p text))) as [Hbig|Hsmall];
        cbn [andb].
      * split; fields.
        -- rewrite !pages_snoc, keys_snoc, <- Hcov. fields.
           by rewrite app_nil_r.
        -- apply Forall_app. split; [apply Forall_app; split; [done|]|].
           ++ apply Forall_singleton. left. fields. done.
           ++ apply Forall_singleton. right. fields. split; [done|].
              by exists p, text.
        -- done.
        -- done.
      * split; fields.
        -- rewrite pages_snoc, keys_snoc, <- Hcov. fields.
           by rewrite <- app_assoc.
        -- apply Forall_app. split; [done|]. apply Forall_singleton.
           left. fields. done.
        -- done.
        -- intros _. lia.
    + (* the page fits behind the pages already there *)
      fields.
      assert (Hlen2 : (length (current_chunk_pages st ++ [p]) =? 1)%nat = false).
      { apply Nat.eqb_neq. rewrite length_app. simpl.
        destruct (current_chunk_pages st); [done|simpl; lia]. }
      rewrite Hlen2, andb_false_r.
      split; fields.
      * rewrite keys_snoc, <- Hcov. by rewrite <- app_assoc.
      * done.
      * intros H. by apply app_eq_nil in H as [_ ?].
      * intros _. lia.
  - (* the current chunk is empty *)
    apply bool_decide_eq_false in Hne.
    assert (Hnil : current_chunk_pages st = []).
    { destruct (current_chunk_pages st); [done|]. exfalso. by apply Hne. }
    specialize (Hemp Hnil). cbn [andb]. fields.
    rewrite Hnil. cbn [app length Nat.eqb].
    rewrite Hnil, app_nil_r in Hcov.
    destruct (Z.ltb_spec S (len (page_content p text))) as [Hbig|Hsmall];
      cbn [andb].
    + split; fields.
      * rewrite pages_snoc, keys_snoc, <- Hcov. fields.
        by rewrite app_nil_r.
      * apply Forall_app. split; [done|]. apply Forall_singleton.
        right. fields. rewrite Hemp. split; [done|]. exists p, text.
        cbn [app]. repeat split; auto.
      * done.
      * done.
    + split; fields.
      * rewrite keys_snoc, <- Hcov. done.
      * done.
      * done.
      * intros _. rewrite Hemp. lia.
Qed.

Lemma inv_fold S l : forall seen st,
  inv S seen st -> inv S (seen ++ l) (foldl (step S) st l).
Proof.
  induction l as [|page l IH]; intros seen st Hinv; simpl.
  - by rewrite app_nil_r.
  - replace (seen ++ page :: l) with ((seen ++ [page]) ++ l)
      by (by rewrite <- app_assoc).
    apply IH. by apply inv_step.
Qed.

Lemma finish_spec S seen st :
  inv S seen st ->
  concat (pages <$> finish st) = seen.*1 /\
  Forall (chunk_ok S seen) (finish st).
Proof.
  intros [Hcov Hch Hemp Hfit]. unfold finish.
  destruct (bool_decide (current_chunk_pages st <> [])) eqn:Hne.
  - apply bool_decide_eq_true in Hne. split.
    + by rewrite pages_snoc.
    + apply Forall_app. split; [done|]. apply Forall_singleton.
      left. fields. auto.
  - apply bool_decide_eq_false in Hne.
    assert (Hnil : current_chunk_pages st = []).
    { destruct (current_chunk_pages st); [done|]. exfalso. by apply Hne. }
    rewrite Hnil, app_nil_r in Hcov. done.
Qed.

Lemma create_page_chunks_spec m S :
  concat (pages <$> create_page_chunks m S) = (sorted_pages m).*1 /\
  Forall (chunk_ok S (sorted_pages m)) (create_page_chunks m S).
Proof.
  unfold create_page_chunks. apply finish_spec.
  apply (inv_fold S (sorted_pages m) [] initial), inv_initial.
Qed.

End ChunkerFacts.

Module ChunkerClaims.
Import PyStr Chunker ChunkerFacts.

(** An empty page map yields no chunk. *)
Example chunks_of_empty_map S : create_page_chunks ∅ S = [].
Proof. reflexivity. Qed.

(** C2, as the specification states it, fails: with budget 20 the single
    page "abcde" becomes an oversized chunk of 23 characters although its
    own text has 5. *)
Lemma budget_by_page_text_fails :
  ~ budget_by_page_text {[1 := "abcde"]} 20.
Proof.
  intros H.
  destruct (H {| content := "--- PAGE 1 ---" +:+ nl +:+ nl +:+ "abcde";
                 pages := [1]; chunk_id := 0; char_count := 23;
                 oversized := true |})
    as (p & text & Hp & Hm & Hlen & _).
  - vm_compute. apply list_elem_of_here.
  - done.
  - injection Hp as <-.
    assert (text = "abcde") as -> by (vm_compute in Hm; congruence).
    vm_compute in Hlen. discriminate.
Qed.

(** C2 (PageChunker contract, amended).  For every page map and budget
    [S], the [pages] lists of the chunks, concatenated in chunk order, are
    the page numbers of the map in strictly increasing order, each exactly
    once, so no page is in two chunks.  A chunk whose [char_count] exceeds
    [S] consists of exactly one page, is flagged oversized, and its
    [char_count] is the length of that page's content with its
    "--- PAGE n ---" header, which is what exceeds [S]. *)
Theorem page_chunks_contract (pages_text : gmap Z string) (S : Z) :
  concat (pages <$> create_page_chunks pages_text S)
    = (sorted_pages pages_text).*1 /\
  StronglySorted Z.lt (sorted_pages pages_text).*1 /\
  (forall p, p ∈ (sorted_pages pages_text).*1 <-> is_Some (pages_text !! p)) /\
  NoDup (concat (pages <$> create_page_chunks pages_text S)) /\
  budget_by_page_content pages_text S.
Proof.
  destruct (create_page_chunks_spec pages_text S) as [Hcov Hok].
  pose proof (sorted_pages_keys_strict pages_text) as Hsorted.
  split; [done|]. split; [done|]. split; [apply sorted_pages_keys_elem|].
  split.
  - rewrite Hcov. clear -Hsorted.
    induction Hsorted as [|x l _ IH Hall]; constructor; [|done].
    intros Hin. rewrite Forall_forall in Hall. specialize (Hall x Hin). lia.
  - intros c Hc Hbig. rewrite Forall_forall in Hok.
    destruct (Hok c Hc) as [[Hle _]|(Ho & p & text & Hin & Hp & Hcc & _)];
      [lia|].
    exists p, text. repeat split; try done.
    by apply sorted_pages_elem.
Qed.

End ChunkerClaims.

(** ** Python strings: searching and slicing *)

Module PyStrFacts.
Import PyStr.

Lemma append_cons c (a b : string) : String c a +:+ b = String c (a +:+ b).
Proof. reflexivity. Qed.

Lemma append_nil (b : string) : "" +:+ b = b.
Proof. reflexivity. Qed.

Lemma starts_with_app m post : starts_with m (m +:+ post) = true.
Proof.
  induction m as [|a m IH]; [done|].
  rewrite append_cons. simpl. by rewrite Ascii.eqb_refl, IH.
Qed.

Lemma starts_with_inv m s :
  starts_with m s = true -> exists post, s = m +:+ post.
Proof.
  revert s. induction m as [|a m IH]; intros s H; simpl in *.
  - by exists s.
  - destruct s as [|b s]; [done|].
    apply andb_true_iff in H as [Hab Hm].
    apply Ascii.eqb_eq in Hab as ->.
    destruct (IH s Hm) as [post ->]. by exists post.
Qed.

Lemma slice_from_app pre s : slice_from (String.length pre) (pre +:+ s) = s.
Proof.
  induction pre as [|a pre IH]; [by destruct s|].
  rewrite append_cons. simpl. done.
Qed.

Lemma slice_to_app pre s : slice_to (String.length pre) (pre +:+ s) = pre.
Proof.
  induction pre as [|a pre IH]; [by destruct s|].
  rewrite append_cons. simpl. by f_equal.
Qed.

Lemma append_assoc (a b c : string) : (a +:+ b) +:+ c = a +:+ (b +:+ c).
Proof.
  induction a as [|x a IH]; [done|]. rewrite !append_cons. by f_equal.
Qed.

Lemma append_length (a b : string) :
  String.length (a +:+ b) = (String.length a + String.length b)%nat.
Proof.
  induction a as [|x a IH]; [done|]. rewrite append_cons. simpl. by f_equal.
Qed.

(** Two splittings of one string at the same position coincide. *)
Lemma append_same_length (a a' b b' : string) :
  a +:+ b = a' +:+ b' -> String.length a = String.length a' ->
  a = a' /\ b = b'.
Proof.
  revert a'. induction a as [|x a IH]; intros [|x' a'] H Hlen;
    simpl in *; try done.
  rewrite !append_cons in H.
  injection H as -> H. destruct (IH a' H) as [-> ->]; [lia|done].
Qed.

(** [find] returns the position of an occurrence ... *)
Lemma find_Some m s i :
  find m s = Some i ->
  exists pre post, s = pre +:+ m +:+ post /\ String.length pre = i.
Proof.
  revert i. induction s as [|c s IH]; intros i; simpl.
  - destruct (starts_with m "") eqn:E; [|done].
    intros [= <-]. apply starts_with_inv in E as [post E].
    by exists "", post.
  - destruct (starts_with m (String c s)) eqn:E.
    + intros [= <-]. apply starts_with_inv in E as [post E].
      by exists "", post.
    + destruct (find m s) as [j|]; [|done]. simpl.
      intros [= <-]. destruct (IH j eq_refl) as (pre & post & -> & <-).
      by exists (String c pre), post.
Qed.

(** ... and no occurrence starts before it. *)
Lemma find_first m s pre post :
  s = pre +:+ m +:+ post ->
  exists i, find m s = Some i /\ (i <= String.length pre)%nat.
Proof.
  revert s. induction pre as [|c pre IH]; intros s ->.
  - exists 0%nat. split; [|simpl; lia].
    rewrite append_nil.
    assert (H : starts_with m (m +:+ post) = true) by apply starts_with_app.
    destruct (m +:+ post); simpl; by rewrite H.
  - rewrite append_cons. simpl.
    destruct (starts_with m (String c (pre +:+ m +:+ post))).
    + exists 0%nat. split; [done|lia].
    + destruct (IH _ eq_refl) as (i & -> & Hi).
      exists (S i). split; [done|lia].
Qed.

Lemma find_None m s :
  find m s = None -> forall pre post, s <> pre +:+ m +:+ post.
Proof.
  intros H pre post Hs.
  destruct (find_first m s pre post Hs) as (i & Hi & _). congruence.
Qed.

Lemma contains_true m s :
  contains m s = true <-> exists pre post, s = pre +:+ m +:+ post.
Proof.
  unfold contains. split.
  - destruct (find m s) as [i|] eqn:E; [|done]. intros _.
    destruct (find_Some _ _ _ E) as (pre & post & H & _). eauto.
  - intros (pre & post & H).
    destruct (find_first _ _ _ _ H) as (i & -> & _). done.
Qed.

Lemma find_first_occurrence m s pre post :
  first_occurrence m s pre post -> find m s = Some (String.length pre).
Proof.
  intros [Hs Hmin].
  destruct (find_first _ _ _ _ Hs) as (i & Hi & Hle).
  destruct (find_Some _ _ _ Hi) as (pre0 & post0 & Hs0 & <-).
  specialize (Hmin _ _ Hs0). rewrite Hi. f_equal. lia.
Qed.

End PyStrFacts.

(** ** Precision extraction for PDFs *)

Module PdfFacts.
Import PyStr PyStrFacts PdfPrecision.

Lemma relevant_pages_filter cls page_data :
  relevant_pages cls page_data =
  filter (fun p => in_boundaries cls p = true) page_data.
Proof.
  unfold relevant_pages.
  enough (H : forall acc,
    foldl (fun acc p => if in_boundaries cls p then acc ++ [p] else acc)
          acc page_data =
    acc ++ filter (fun p => in_boundaries cls p = true) page_data)
    by apply (H []).
  induction page_data as [|p l IH]; intros acc; simpl.
  - by rewrite app_nil_r.
  - rewrite IH, filter_cons.
    destruct (in_boundaries cls p) eqn:E.
    + rewrite decide_True by done. by rewrite <- app_assoc.
    + rewrite decide_False by done. done.
Qed.

Lemma relevant_data_spec page_data cls :
  relevant_data (_extract_pdf_with_boundaries page_data cls) =
  filter (fun c => c <> [])
    (page_content cls <$>
       filter (fun p => in_boundaries cls p = true) page_data).
Proof.
  unfold _extract_pdf_with_boundaries. cbn [relevant_data].
  rewrite relevant_pages_filter.
  generalize (filter (fun p => in_boundaries cls p = true) page_data) as kept.
  intros kept.
  enough (H : forall acc,
    foldl (fun acc p =>
             let content := page_content cls p in
             if bool_decide (content <> []) then acc ++ [content] else acc)
          acc kept =
    acc ++ filter (fun c => c <> []) (page_content cls <$> kept))
    by apply (H []).
  induction kept as [|p l IH]; intros acc; simpl.
  - by rewrite app_nil_r.
  - rewrite IH, filter_cons.
    destruct (decide (page_content cls p <> [])) as [Hne|He].
    + rewrite bool_decide_eq_true_2 by done. by rewrite <- app_assoc.
    + rewrite bool_decide_eq_false_2 by done. done.
Qed.

Lemma nonempty_true m : m <> "" -> nonempty m = true.
Proof. by destruct m. Qed.

Lemma start_marker_present m t pre post :
  m <> "" -> first_occurrence m t pre post ->
  apply_start_marker (Some m) t = m +:+ post.
Proof.
  intros Hm Hocc. unfold apply_start_marker.
  rewrite (nonempty_true m Hm). unfold contains.
  rewrite (find_first_occurrence _ _ _ _ Hocc). simpl.
  destruct Hocc as [-> _]. apply slice_from_app.
Qed.

Lemma end_marker_present m t pre post :
  m <> "" -> first_occurrence m t pre post ->
  apply_end_marker (Some m) t = pre +:+ m.
Proof.
  intros Hm Hocc. unfold apply_end_marker.
  rewrite (nonempty_true m Hm). unfold contains.
  rewrite (find_first_occurrence _ _ _ _ Hocc). simpl.
  destruct Hocc as [-> _].
  rewrite <- append_length, <- append_assoc. apply slice_to_app.
Qed.

Lemma markers_absent marker t :
  marker_absent marker t ->
  apply_start_marker marker t = t /\ apply_end_marker marker t = t.
Proof.
  intros [->|[->|(m & -> & Hno)]]; [done|done|].
  unfold apply_start_marker, apply_end_marker.
  assert (contains m t = false) as ->.
  { destruct (contains m t) eqn:E; [|done].
    apply contains_true in E as (pre & post & E). by apply Hno in E. }
  by rewrite andb_false_r.
Qed.

End PdfFacts.

Module PdfClaims.
Import PyStr PyStrFacts PdfPrecision PdfFacts.

Example sample_extraction :
  relevant_data (_extract_pdf_with_boundaries sample_pages sample_classification)
  = [["Unit 1 A"]; ["Unit 5 B"]; ["Unit 9 C"; "Total"]].
Proof. vm_compute. reflexivity. Qed.

(** C4, as the specification states it, fails: page 2 is neither the first
    nor the last kept page, yet its text before the start marker ("Header")
    is cut away. *)
Lemma middle_page_is_trimmed :
  ~ trims_first_and_last_only sample_pages sample_classification.
Proof. unfold trims_first_and_last_only. vm_compute. discriminate. Qed.

(** C4 (PDF precision extraction, amended).  The extractor keeps the pages
    whose number lies in [start_page, end_page], in document order, and
    treats every kept page alike: the text is cut to begin at the first
    occurrence of the start marker (the marker stays), then cut to end
    with the first occurrence of the end marker (inclusive), each when the
    marker is given, non-empty and a substring; a marker that is missing,
    empty or not a substring leaves the text as it is.  The text is then
    split into stripped non-blank lines, and a page without any such line
    is left out of the result. *)
Theorem pdf_extraction_trims_every_page
    (page_data : list page) (cls : PDFRentRollClassification) :
  relevant_data (_extract_pdf_with_boundaries page_data cls) =
    filter (fun c => c <> [])
      (page_content cls <$>
         filter (fun p => in_boundaries cls p = true) page_data) /\
  (forall p,
     in_boundaries cls p = true <->
     data_start_page cls <= default 0 (page_number p) <= data_end_page cls) /\
  (forall p,
     page_content cls p =
     lines_of (apply_end_marker (data_end_marker cls)
                 (apply_start_marker (data_start_marker cls)
                    (default "" (text p))))) /\
  (forall m t pre post,
     m <> "" -> first_occurrence m t pre post ->
     apply_start_marker (Some m) t = m +:+ post /\
     apply_end_marker (Some m) t = pre +:+ m) /\
  (forall marker t,
     marker_absent marker t ->
     apply_start_marker marker t = t /\ apply_end_marker marker t = t).
Proof.
  split; [apply relevant_data_spec|]. split; [|split; [done|split]].
  - intros p. unfold in_boundaries. rewrite andb_true_iff. lia.
  - intros m t pre post Hm Hocc. split.
    + by eapply start_marker_present.
    + by eapply end_marker_present.
  - apply markers_absent.
Qed.

End PdfClaims.

(** ** Precision extraction for spreadsheets *)

Module ExcelFacts.
Import PyStr ExcelPrecision.

Lemma find_sheet_None name sheets_data :
  find_sheet name sheets_data = None <->
  forall sh, sh ∈ sheets_data -> sheet_name sh <> Some name.
Proof.
  induction sheets_data as [|sh l IH]; simpl.
  - split; [|done]. intros _ sh H. by apply elem_of_nil in H.
  - case_bool_decide as Hname.
    + split; [done|]. intros H. exfalso. apply (H sh); [by left|done].
    + rewrite IH. split.
      * intros H sh' [->|Hin]%elem_of_cons; auto.
      * intros H sh' Hin. apply H. by right.
Qed.

Lemma find_sheet_Some name sheets_data sh :
  find_sheet name sheets_data = Some sh ->
  sh ∈ sheets_data /\ sheet_name sh = Some name.
Proof.
  induction sheets_data as [|sh' l IH]; simpl; [done|].
  case_bool_decide as Hname.
  - intros [= ->]. split; [by left|done].
  - intros H. destruct (IH H). split; [by right|done].
Qed.

(** The slice of the code against the clamped inclusive range, for an end
    row that is not negative. *)
Lemma slice_is_clamped_range {A} (l : list A) (first last : Z) :
  0 <= last ->
  py_slice l
    (if first - 1 <? 0 then 0 else first - 1)
    (if Z.of_nat (length l) <? last then Z.of_nat (length l) else last)
  = clamped_rows l first last.
Proof.
  intros Hlast. unfold py_slice, clamped_rows, rows_between, slice_index.
  set (n := Z.of_nat (length l)).
  destruct (Z.ltb_spec (first - 1) 0) as [Hf|Hf];
    destruct (Z.ltb_spec n last) as [Hl|Hl];
    repeat match goal with
           | |- context [?a <? 0] => destruct (Z.ltb_spec a 0); try lia
           end.
  - f_equal; [lia|]. f_equal. lia.
  - f_equal; [lia|]. f_equal. lia.
  - destruct (Z.le_gt_cases (first - 1) n) as [Hin|Hout].
    + f_equal; [lia|]. f_equal. lia.
    + rewrite !drop_ge by (subst n; lia). by rewrite !take_nil.
  - destruct (Z.le_gt_cases (first - 1) n) as [Hin|Hout].
    + f_equal; [lia|]. f_equal. lia.
    + rewrite !drop_ge by (subst n; lia). by rewrite !take_nil.
Qed.

(** With the target sheet present and a non-negative end row the
    extraction returns the clamped inclusive range. *)
Lemma extraction_clamps sheets_data cls target :
  find_sheet (data_sheet_name cls) sheets_data = Some target ->
  0 <= data_end_row cls ->
  exists out sh,
    _extract_excel_with_boundaries sheets_data cls = Ok out /\
    sheets out = [sh] /\
    data sh = Some (clamped_rows (default [] (data target))
                      (data_start_row cls) (data_end_row cls)).
Proof.
  intros Hfind Hend. unfold _extract_excel_with_boundaries. rewrite Hfind.
  eexists _, _. split; [reflexivity|]. split; [reflexivity|].
  cbn [data]. f_equal. by apply slice_is_clamped_range.
Qed.

End ExcelFacts.

Module ExcelClaims.
Import PyStr ExcelPrecision ExcelFacts.

(** C9 (sheet not found).  The spreadsheet extractor raises exactly when no
    sheet of the extraction carries the classification's sheet name, and
    the exception is then a ValueError; it has no other way to raise. *)
Theorem missing_sheet_raises (sheets_data : list sheet)
    (cls : ExcelRentRollClassification) :
  (_extract_excel_with_boundaries sheets_data cls = Raise ValueError <->
   forall sh, sh ∈ sheets_data -> sheet_name sh <> Some (data_sheet_name cls)) /\
  (forall e, _extract_excel_with_boundaries sheets_data cls = Raise e ->
             e = ValueError).
Proof.
  unfold _extract_excel_with_boundaries.
  destruct (find_sheet (data_sheet_name cls) sheets_data) as [target|] eqn:E.
  - split; [|done]. split; [done|]. intros H.
    apply find_sheet_Some in E as [Hin Hname]. by apply H in Hin.
  - split; [|by intros e [= <-]]. split; [|done]. intros _.
    by apply find_sheet_None.
Qed.

(** C5 (boundary clamp) at an end row below zero.  On a sheet of three
    rows with data_start_row = 1 and data_end_row = -1 the extraction
    returns the first two rows: the negative end index is not clamped and
    the slice counts it from the end of the list.  The clamped inclusive
    range, from row 1 to row min(3, -1), has no row. *)
Theorem negative_end_row_wraps :
  (exists out sh,
     _extract_excel_with_boundaries [sample_sheet] (sample_classification 1 (-1))
       = Ok out /\
     sheets out = [sh] /\
     data sh = Some [["101"; "1BR"]; ["102"; "2BR"]]) /\
  clamped_rows [["101"; "1BR"]; ["102"; "2BR"]; ["103"; "1BR"]] 1 (-1) = [].
Proof.
  split; [|reflexivity].
  eexists _, _. split; [vm_compute; reflexivity|]. split; reflexivity.
Qed.

End ExcelClaims.

(** ** Excel mapping engine: what a call leaves untouched *)

Module ExcelWriterFacts.
Import PyStr ExcelWriter.

Section Frame.
Variable P : worksheet -> Prop.

Lemma keeps_ret {A} (a : A) : keeps P (ret a).
Proof. by intros ws. Qed.

Lemma keeps_lift {A} (r : result A) : keeps P (lift r).
Proof. by intros ws. Qed.

Lemma keeps_bind {A B} (m : M A) (k : A -> M B) :
  keeps P m -> (forall a, keeps P (k a)) -> keeps P (bind m k).
Proof.
  intros Hm Hk ws HP. unfold bind. specialize (Hm ws HP).
  destruct (m ws) as [ws' [a|e]]; simpl in *; [by apply Hk|done].
Qed.

Lemma keeps_for_each {A} (l : list A) (body : A -> M unit) :
  (forall x, x ∈ l -> keeps P (body x)) -> keeps P (for_each l body).
Proof.
  induction l as [|x l IH]; intros Hbody; simpl.
  - apply keeps_ret.
  - apply keeps_bind.
    + apply Hbody. by left.
    + intros _. apply IH. intros y Hy. apply Hbody. by right.
Qed.

Lemma keeps_cell row column : keeps P (cell row column).
Proof. intros ws HP. unfold cell. by destruct (_ || _). Qed.
End Frame.

Lemma holds_delete_other r c v row col ws :
  (row, col) <> (r, c) -> holds r c v ws -> holds r c v (delete (row, col) ws).
Proof.
  intros Hne H. unfold holds, cell_value in *. by rewrite lookup_delete_ne.
Qed.

Lemma holds_insert_other r c v row col x ws :
  (row, col) <> (r, c) -> holds r c v ws ->
  holds r c v (<[(row, col) := x]> ws).
Proof.
  intros Hne H. unfold holds, cell_value in *. by rewrite lookup_insert_ne.
Qed.

Lemma keeps_set_value_other r c v row col x :
  (row, col) <> (r, c) -> keeps (holds r c v) (set_value row col x).
Proof.
  intros Hne ws H. unfold set_value.
  destruct (bind_value x) as [stored|e]; [|done]. simpl.
  destruct stored; try (by apply holds_insert_other).
  by apply holds_delete_other.
Qed.

(** Clearing one cell never changes a formula cell. *)
Lemma keeps_clear_cell r c v row col :
  is_formula v = true -> keeps (holds r c v) (clear_cell row col).
Proof.
  intros Hf ws H. unfold clear_cell, bind, cell.
  destruct ((row <? 1) || (col <? 1)); [done|]. simpl.
  destruct (decide ((row, col) = (r, c))) as [[= -> ->]|Hne].
  - rewrite H. destruct v; try done. simpl in *. by rewrite Hf.
  - destruct (cell_value ws row col) eqn:E; try done;
      try (by apply holds_delete_other).
    destruct (is_formula (PStr s)); [done|]. by apply holds_delete_other.
Qed.

Lemma keeps_clear_data_rows r c v start_row end_row start_column end_column :
  is_formula v = true ->
  keeps (holds r c v)
        (clear_data_rows start_row end_row start_column end_column).
Proof.
  intros Hf. unfold clear_data_rows.
  apply keeps_for_each. intros row _.
  apply keeps_for_each. intros col _.
  by apply keeps_clear_cell.
Qed.

Lemma keeps_clear_phase r c v data cols start_row :
  is_formula v = true -> keeps (holds r c v) (clear_phase data cols start_row).
Proof.
  intros Hf. unfold clear_phase.
  destruct data; [apply keeps_ret|].
  destruct (omap _ cols); [apply keeps_ret|].
  apply keeps_bind; [apply keeps_lift|].
  intros [|n ns]; [apply keeps_ret|].
  by apply keeps_clear_data_rows.
Qed.

Lemma truthy_Some col s : truthy col = Some s -> col = Some s /\ s <> "".
Proof.
  destruct col as [t|]; simpl; [|done].
  destruct t; simpl; [done|]. by intros [= <-].
Qed.

(** Writing one field changes at most the cell it is sent to. *)
Lemma keeps_write_field r c v current_row row_data fc :
  (forall letter value,
     fc.2 = Some letter -> letter <> "" ->
     row_data !! fc.1 = Some value -> value <> PNone ->
     column_index_from_string letter = Ok c -> current_row <> r) ->
  keeps (holds r c v) (write_field current_row row_data fc).
Proof.
  intros Hother. unfold write_field.
  destruct (truthy fc.2) as [letter|] eqn:Hl; [|apply keeps_ret].
  destruct (row_data !! fc.1) as [value|] eqn:Hv; [|apply keeps_ret].
  apply truthy_Some in Hl as [Hl Hne].
  intros ws H. unfold bind, lift.
  destruct (column_index_from_string letter) as [n|e] eqn:Hn; [|done].
  unfold cell_write, bind, cell.
  destruct ((current_row <? 1) || (n <? 1)); [done|].
  destruct (decide (current_row = r /\ n = c)) as [[-> ->]|Hcell].
  - destruct value; try done; exfalso; by eapply Hother.
  - assert ((current_row, n) <> (r, c)) by (intros [= -> ->]; auto).
    destruct value; try done; by apply keeps_set_value_other.
Qed.

Lemma keeps_write_phase r c v data cfg :
  ~ write_target data cfg r c ->
  keeps (holds r c v)
    (write_phase data (default [] (columns cfg))
                 (default 1 (data_start_row cfg))).
Proof.
  intros Hnt. unfold write_phase.
  apply keeps_for_each. intros [row_index row_data] Hin.
  apply list_elem_of_lookup in Hin as [i Hi].
  rewrite list_lookup_imap in Hi.
  destruct (data !! i) as [rd|] eqn:Hd; [|done].
  injection Hi as <- <-.
  apply keeps_for_each. intros [field col] Hfc.
  apply keeps_write_field. simpl.
  intros letter value -> Hne Hv Hval Hcol Hrow.
  apply Hnt. exists i, rd, field, letter, value. by repeat split.
Qed.

(** Column names are compared in upper case: "ab" is column 28, and the
    sharp s, whose upper case is "SS", is column 513. *)
Example upper_cased_column_names :
  column_index_from_string "ab" = Ok 28 /\
  column_index_from_string (String "223"%char "") = Ok 513 /\
  column_index_from_string "ZZZ" = Ok 18278 /\
  column_index_from_string "A1" = Raise ValueError /\
  column_index_from_string "ABCD" = Raise ValueError.
Proof. repeat split; reflexivity. Qed.

End ExcelWriterFacts.

Module ExcelWriterClaims.
Import PyStr ExcelWriter ExcelWriterFacts.

Example sample_write :
  let ws := (write_data_with_mapping sample_data sample_mapping sample_template).1 in
  cell_value ws 1 1 = PStr "101" /\ cell_value ws 1 4 = PStr "=A1*2".
Proof. vm_compute. done. Qed.

(** C3, as the specification states it, fails: the writing phase assigns
    to the mapped cell whatever it holds, so the formula in A1 is replaced
    by the record's value. *)
Lemma mapped_formula_is_overwritten :
  ~ formulas_preserved sample_template sample_data sample_mapping.
Proof.
  intros H. specialize (H 1 1 eq_refl). vm_compute in H. discriminate.
Qed.

(** C3 (formula preservation, amended).  The clearing phase of
    [write_data_with_mapping] never changes a cell that holds a formula.
    After the whole call, whether it returns or raises, a formula cell
    holds the value it held before unless it is a cell the writing phase
    is sent to: the cell in row [data_start_row + i] and the mapped column
    of a field for which record [i] has a value other than None. *)
Theorem formulas_kept_outside_write_targets
    (ws : worksheet) (data : list (gmap string pyval)) (cfg : mapping_config)
    (row col : Z) :
  is_formula (cell_value ws row col) = true ->
  cell_value (clear_phase data (default [] (columns cfg))
                (default 1 (data_start_row cfg)) ws).1 row col
    = cell_value ws row col /\
  (~ write_target data cfg row col ->
   cell_value (write_data_with_mapping data cfg ws).1 row col
     = cell_value ws row col).
Proof.
  intros Hf. split.
  - by apply (keeps_clear_phase row col (cell_value ws row col)).
  - intros Hnt. unfold write_data_with_mapping.
    apply (keeps_bind (holds row col (cell_value ws row col))); [| |done].
    + by apply keeps_clear_phase.
    + intros _. by apply keeps_write_phase.
Qed.

Lemma formulas_kept_outside_write_targets_witness :
  cell_value (write_data_with_mapping sample_data sample_mapping
                sample_template).1 1 4
  = cell_value sample_template 1 4.
Proof.
  apply (formulas_kept_outside_write_targets
           sample_template sample_data sample_mapping 1 4).
  - reflexivity.
  - intros (i & rd & field & letter & value & Hd & Hc & _ & _ & _ & Hn & _).
    simpl in Hc. apply list_elem_of_singleton in Hc.
    injection Hc as _ ->. vm_compute in Hn. discriminate.
Defined.

End ExcelWriterClaims.

(** ** Two-pass boundary classification: the fallback *)

Module BoundaryClassifierClaims.
Import PyStr BoundaryClassifier.

Section Fallback.
Context `{Collaborators}.

Lemma second_pass_fails_None text file_type R :
  second_pass_fails text file_type R <->
  validate_boundaries text file_type R = None.
Proof.
  unfold validate_boundaries, second_pass_fails. split.
  - intros [[e Hv]|(response & Hv & Hparse)]; rewrite Hv; cbn [rbind].
    + done.
    + destruct Hparse as [Hs|(json_str & Hs & Hj)]; rewrite Hs; [done|].
      destruct Hj as [[e Hj]|(v & e & Hj & Hread)]; rewrite Hj; cbn [rbind].
      * done.
      * by rewrite Hread.
  - destruct (validation_response text file_type R) as [response|e];
      cbn [rbind]; [|intros _; left; by exists e].
    intros Hnone. right. exists response. split; [done|].
    destruct (search_object_greedy response) as [json_str|]; [|by left].
    right. exists json_str. split; [done|].
    destruct (json_loads json_str) as [v|e]; cbn [rbind] in *;
      [|left; by exists e].
    right. exists v.
    destruct (read_corrections v) as [v'|e]; cbn [rbind] in *; [done|].
    by exists e.
Qed.

Lemma first_pass_unparseable_None text file_type :
  first_pass_unparseable text file_type ->
  analyze_rent_roll_boundaries text file_type = None.
Proof.
  intros (response & Hr & Hparse). unfold analyze_rent_roll_boundaries.
  destruct (negb (_ || _)); [done|].
  destruct (negb (nonempty (strip text))); [done|].
  rewrite Hr. cbn [rbind].
  destruct Hparse as [Hs|(json_str & e & Hs & Hj)]; rewrite Hs; [done|].
  by rewrite Hj.
Qed.
End Fallback.

(** C6 (two-pass boundary fallback).  When pass 1 parses to a result [R],
    [validate_boundaries] returns None exactly when pass 2 fails: its chain
    raises, its answer holds no JSON object, [json.loads] raises on the
    object, or the reads behind the parse raise.  In each of these cases
    the analysis is the classification model of the file type built from
    [R] itself, and None only if that model refuses [R]; nothing of pass 2
    enters it.  When the answer of pass 1 holds no JSON object that parses,
    the analysis returns None. *)
Theorem second_pass_failure_falls_back `{Collaborators}
    (text file_type : string) :
  (forall R,
     first_pass_parses text file_type R ->
     (second_pass_fails text file_type R <->
      validate_boundaries text file_type R = None) /\
     (second_pass_fails text file_type R ->
      analyze_rent_roll_boundaries text file_type
      = if String.eqb (lower file_type) "pdf"
        then match build_pdf R with
             | Ok c => Some (PdfClassification c)
             | Raise _ => None
             end
        else match build_excel R with
             | Ok c => Some (ExcelClassification c)
             | Raise _ => None
             end)) /\
  (first_pass_unparseable text file_type ->
   analyze_rent_roll_boundaries text file_type = None).
Proof.
  split; [|apply first_pass_unparseable_None].
  intros R (Hft & Htext & response & json_str & Hr & Hs & Hj).
  split; [apply second_pass_fails_None|].
  intros Hfail. apply second_pass_fails_None in Hfail as Hnone.
  unfold analyze_rent_roll_boundaries.
  assert (String.eqb (lower file_type) "pdf"
          || String.eqb (lower file_type) "excel" = true) as ->.
  { destruct Hft as [-> | ->]; reflexivity. }
  rewrite Htext. cbn [negb]. rewrite Hr. cbn [rbind]. rewrite Hs, Hj.
  cbn [rbind]. rewrite Hnone. cbn [is_truthy]. unfold to_model, catch_all.
  destruct (String.eqb (lower file_type) "pdf").
  - by destruct (build_pdf R).
  - by destruct (build_excel R).
Qed.

Lemma second_pass_failure_falls_back_witness :
  @analyze_rent_roll_boundaries sample_run "Unit 101 ..." "PDF"
  = Some (PdfClassification sample_pdf_classification) /\
  @analyze_rent_roll_boundaries prose_run "Unit 101 ..." "PDF"
  = Some (PdfClassification sample_pdf_classification).
Proof.
  split.
  - destruct (@second_pass_failure_falls_back sample_run "Unit 101 ..." "PDF")
      as [Hfall _].
    assert (Hparse : @first_pass_parses sample_run "Unit 101 ..." "PDF"
                       sample_first_result).
    { split; [left; reflexivity|]. split; [reflexivity|].
      exists sample_first_answer, sample_first_json.
      split; [reflexivity|]. split; [vm_compute|]; reflexivity. }
    destruct (Hfall sample_first_result Hparse) as [_ Hbuild].
    rewrite Hbuild; [reflexivity|]. left. by exists ValueError.
  - destruct (@second_pass_failure_falls_back prose_run "Unit 101 ..." "PDF")
      as [Hfall _].
    assert (Hparse : @first_pass_parses prose_run "Unit 101 ..." "PDF"
                       sample_first_result).
    { split; [left; reflexivity|]. split; [reflexivity|].
      exists sample_first_answer, sample_first_json.
      split; [reflexivity|]. split; [vm_compute|]; reflexivity. }
    destruct (Hfall sample_first_result Hparse) as [_ Hbuild].
    rewrite Hbuild; [reflexivity|].
    right. eexists. split; [reflexivity|]. by left.
Defined.

End BoundaryClassifierClaims.

(** ** Rent-roll rows: which rows are kept *)

Module RentRollFacts.
Import PyStr PyNum RentRoll.

Section Rows.
Variable py_repr : pyval -> string.

Lemma short_row_dropped acc cells :
  (length cells < 4)%nat ->
  convert_step py_repr acc (PList cells) = Ok acc.
Proof.
  intros H. unfold convert_step.
  destruct (Nat.ltb_spec (length cells) 4); [done|lia].
Qed.

Lemma int_or_zero_cases x :
  (exists z, int_or_zero x = Ok z) \/
  (int_or_zero x = Raise OverflowError /\
   int_of_float x = Raise OverflowError).
Proof.
  unfold int_or_zero, int_of_float, py_int.
  destruct (py_float x) as [[| |]|[]] eqn:E; simpl; eauto;
    exfalso; revert E; unfold py_float;
    repeat case_match; discriminate.
Qed.

Lemma number_at_missing row index :
  (length row <= index)%nat -> number_at row index = Ok 0.
Proof.
  intros H. unfold number_at. by rewrite lookup_ge_None_2.
Qed.

Lemma number_at_cases row index :
  (exists z, number_at row index = Ok z) \/
  (number_at row index = Raise OverflowError /\ overflows row index).
Proof.
  unfold number_at, overflows.
  destruct (row !! index) as [x|] eqn:E; [|eauto].
  destruct (present x) eqn:Hp; [|eauto].
  destruct (int_or_zero_cases x) as [?|[-> Ho]]; eauto 10.
Qed.

(** A row of four or five cells whose size and rent cells do not
    overflow becomes one object; a missing rent is 0, the lease
    expiration is None, and an empty or null status is "Occupied". *)
Lemma partial_row_kept acc cells :
  (4 <= length cells <= 5)%nat ->
  ~ overflows cells 3 -> ~ overflows cells 4 ->
  exists u,
    convert_step py_repr acc (PList cells) = Ok (acc ++ [u]) /\
    lease_expiration u = PNone /\
    (length cells = 4%nat -> rent u = 0) /\
    (forall r2, cells !! 2%nat = Some r2 -> present r2 = false ->
                status u = "Occupied").
Proof.
  intros Hlen H3 H4. unfold convert_step.
  destruct (Nat.ltb_spec (length cells) 4); [lia|].
  destruct cells as [|r0 [|r1 [|r2 [|r3 rest]]]]; simpl in Hlen; try lia.
  unfold row_object. cbn [lookup list_lookup].
  destruct (number_at_cases (r0 :: r1 :: r2 :: r3 :: rest) 3)
    as [[z3 ->]|[_ Ho]]; [|done].
  destruct (number_at_cases (r0 :: r1 :: r2 :: r3 :: rest) 4)
    as [[z4 Hz4]|[_ Ho]]; [|done].
  rewrite Hz4. cbn [rbind].
  eexists. split; [reflexivity|]. cbn.
  split; [|split].
  - destruct rest as [|r4 [|r5 rest]]; simpl in Hlen; try lia; done.
  - intros Hl. destruct rest; [|simpl in Hl; lia].
    rewrite number_at_missing in Hz4 by (simpl; lia). congruence.
  - intros r [= <-] Hp. unfold text_or. by rewrite Hp.
Qed.

(** The two rows of the specification. *)
Lemma three_cells_dropped :
  convert_rent_roll_arrays_to_objects py_repr
    (PList [PList [PStr "101"; PStr "1BR"; PStr "Occupied"]]) = Ok [].
Proof. reflexivity. Qed.

Lemma four_cells_kept :
  convert_rent_roll_arrays_to_objects py_repr
    (PList [PList [PStr "101"; PStr "1BR"; PStr "Occupied"; PStr "750"]])
  = Ok [ {| unit := "101"; unit_type := "1BR"; status := "Occupied";
            unit_size := 750; rent := 0; lease_expiration := PNone |} ].
Proof. vm_compute. reflexivity. Qed.

End Rows.

End RentRollFacts.

Module RentRollClaims.
Import PyStr PyNum RentRoll RentRollFacts.

(** C7 (rent-roll row tolerance) at a size cell that is infinite.  The
    second row of [sample_response] has four cells, and its size is the
    JSON number 1e999.  [int(float(x))] raises OverflowError on it; the
    handlers around it catch ValueError, TypeError and IndexError only, so
    the exception leaves [convert_rent_roll_arrays_to_objects] and no
    row of the response is returned, although the first row alone converts
    to one object. *)
Theorem infinite_size_aborts_conversion (py_repr : pyval -> string) :
  convert_rent_roll_arrays_to_objects py_repr sample_response
  = Raise OverflowError /\
  convert_rent_roll_arrays_to_objects py_repr
    (PList [PList [PStr "101"; PStr "1BR"; PStr "Occupied"; PStr "750"]])
  = Ok [ {| unit := "101"; unit_type := "1BR"; status := "Occupied";
            unit_size := 750; rent := 0; lease_expiration := PNone |} ].
Proof. split; vm_compute; reflexivity. Qed.

End RentRollClaims.

(** ** OM classification: merging any number of chunk results *)

Module OMMergeFacts.
Import OM OMFacts.

Lemma all_pages_from f rs : forall acc,
  foldl (fun acc r => acc ++ page_list r f) acc rs
  = acc ++ concat ((fun r => page_list r f) <$> rs).
Proof.
  induction rs as [|r rs IH]; intros acc; simpl.
  - by rewrite app_nil_r.
  - rewrite IH. by rewrite <- app_assoc.
Qed.

Lemma elem_of_concat {A} (x : A) (ls : list (list A)) :
  x ∈ concat ls <-> exists l, x ∈ l /\ l ∈ ls.
Proof.
  induction ls as [|l ls IH]; simpl.
  - split; [by intros ?%elem_of_nil|]. by intros (l & _ & ?%elem_of_nil).
  - rewrite elem_of_app, IH. split.
    + intros [H|(l' & H & Hl')]; [exists l|exists l']; split; try done;
        [by left|by right].
    + intros (l' & H & [->|Hl']%elem_of_cons); [by left|right; eauto].
Qed.

Lemma all_pages_elem f rs p :
  p ∈ all_pages f rs <-> exists r, r ∈ rs /\ p ∈ page_list r f.
Proof.
  unfold all_pages. rewrite all_pages_from. simpl.
  rewrite elem_of_concat. split.
  - intros (l & Hp & Hl). apply list_elem_of_fmap in Hl as (r & -> & Hr). eauto.
  - intros (r & Hr & Hp). exists (page_list r f). split; [done|].
    apply list_elem_of_fmap. eauto.
Qed.

Lemma first_value_split f pre r post v :
  Forall (fun x => property_info x f = None) pre ->
  property_info r f = Some v ->
  first_value f (pre ++ r :: post) = Some v.
Proof.
  induction 1 as [|x pre Hx _ IH]; intros Hr; simpl.
  - by rewrite Hr.
  - rewrite Hx. by apply IH.
Qed.

Lemma first_value_none f rs :
  Forall (fun x => property_info x f = None) rs -> first_value f rs = None.
Proof. induction 1 as [|x rs Hx _ IH]; simpl; [done|]. by rewrite Hx. Qed.

(** X1.  For a property-info field, the merged value is the one of the first
    result, in list order, that has a value: results before it that hold
    None are passed over and results after it are not looked at.  When no
    result has a value the merged field is None. *)
Theorem merge_first_value_wins (f : property_info_field)
    (pre post : list EnhancedClassificationResult)
    (r : EnhancedClassificationResult) (v : ExtractedPropertyInfo) :
  Forall (fun x => property_info x f = None) pre ->
  (property_info r f = Some v ->
   property_info (merge_results (pre ++ r :: post)) f = Some v) /\
  property_info (merge_results pre) f = None.
Proof.
  intros Hpre. split.
  - intros Hr. simpl. by apply first_value_split.
  - simpl. by apply first_value_none.
Qed.

Lemma merge_first_value_wins_witness :
  property_info
    (merge_results
       ([create_empty_result] ++
        {| property_info := fun _ => Some {| value := "X"; first_page := 2 |};
           page_list := fun _ => [] |} ::
        [ {| property_info := fun _ => Some {| value := "Y"; first_page := 3 |};
             page_list := fun _ => [] |} ]))
    property_name
  = Some {| value := "X"; first_page := 2 |}.
Proof.
  apply (merge_first_value_wins property_name [create_empty_result]).
  - repeat constructor.
  - reflexivity.
Defined.

(** X2.  For any number of results, a merged page list is strictly
    increasing, holds exactly the pages that occur in that field of some
    result, and is the same for every reordering of the results. *)
Theorem merge_page_lists_any_order (f : page_list_field)
    (rs rs' : list EnhancedClassificationResult) :
  rs ≡ₚ rs' ->
  page_list (merge_results rs) f = page_list (merge_results rs') f /\
  StronglySorted Z.lt (page_list (merge_results rs) f) /\
  (forall p, p ∈ page_list (merge_results rs) f <->
             exists r, r ∈ rs /\ p ∈ page_list r f).
Proof.
  intros Hperm. simpl. split; [|split].
  - apply sorted_set_ext. intros p. rewrite !all_pages_elem.
    split; intros (r & Hr & Hp); exists r; split; try done.
    + by rewrite <- Hperm.
    + by rewrite Hperm.
  - apply sorted_set_strict.
  - intros p. by rewrite sorted_set_elem, all_pages_elem.
Qed.

Lemma merge_page_lists_any_order_witness :
  page_list
    (merge_results
       [ {| property_info := fun _ => None; page_list := fun _ => [14; 15] |};
         {| property_info := fun _ => None; page_list := fun _ => [10; 15] |} ])
    rent_roll
  = page_list
      (merge_results
         [ {| property_info := fun _ => None; page_list := fun _ => [10; 15] |};
           {| property_info := fun _ => None; page_list := fun _ => [14; 15] |} ])
      rent_roll.
Proof.
  apply (merge_page_lists_any_order rent_roll). apply Permutation_swap.
Defined.

End OMMergeFacts.

(** ** Python strings: [strip] *)

Module StripFacts.
Import PyStr PyStrFacts.

Lemma rev_app_spec s1 : forall s2,
  String.rev_app s1 s2 = String.rev_app s1 "" +:+ s2.
Proof.
  induction s1 as [|c s1 IH]; intros s2; simpl; [done|].
  rewrite IH, (IH (String c "")), append_assoc. done.
Qed.

Lemma rev_cons c s : String.rev (String c s) = String.rev s +:+ String c "".
Proof. unfold String.rev. simpl. apply rev_app_spec. Qed.

Lemma append_nil_r (s : string) : s +:+ "" = s.
Proof. induction s as [|c s IH]; [done|]. rewrite append_cons. by f_equal. Qed.

Lemma rev_append a b : String.rev (a +:+ b) = String.rev b +:+ String.rev a.
Proof.
  induction a as [|c a IH].
  - rewrite append_nil. change (String.rev "") with "". by rewrite append_nil_r.
  - rewrite append_cons, !rev_cons, IH, append_assoc. done.
Qed.

Lemma rev_involutive s : String.rev (String.rev s) = s.
Proof.
  induction s as [|c s IH]; [done|].
  rewrite rev_cons, rev_append, IH. done.
Qed.

Lemma lstrip_fixed c s : isspace c = false -> lstrip (String c s) = String c s.
Proof. intros H. simpl. by rewrite H. Qed.

(** What [lstrip] leaves is empty or begins with a character that is not
    white space. *)
Lemma lstrip_head s :
  lstrip s = "" \/ exists c t, lstrip s = String c t /\ isspace c = false.
Proof.
  induction s as [|c s IH]; simpl; [by left|].
  destruct (isspace c) eqn:E; [done|]. right. eauto.
Qed.

Lemma lstrip_idempotent s : lstrip (lstrip s) = lstrip s.
Proof.
  destruct (lstrip_head s) as [->|(c & t & -> & Hc)]; [done|].
  by apply lstrip_fixed.
Qed.

Lemma lstrip_snoc u c :
  isspace c = false ->
  lstrip (u +:+ String c "") = lstrip u +:+ String c "".
Proof.
  intros Hc. induction u as [|a u IH].
  - rewrite append_nil. simpl. by rewrite Hc.
  - rewrite append_cons. simpl. destruct (isspace a); [done|].
    by rewrite append_cons.
Qed.

(** [strip] returns a string that [strip] leaves alone. *)
Lemma strip_fixed_point s :
  lstrip (strip s) = strip s /\ rstrip (strip s) = strip s.
Proof.
  unfold strip, rstrip.
  assert (Hl : lstrip (String.rev (lstrip (String.rev (lstrip s))))
               = String.rev (lstrip (String.rev (lstrip s)))).
  { destruct (lstrip_head s) as [->|(c & t & -> & Hc)]; [done|].
    rewrite rev_cons, lstrip_snoc by done.
    rewrite rev_append. change (String.rev (String c "")) with (String c "").
    rewrite append_cons, append_nil. by apply lstrip_fixed. }
  split; [done|].
  by rewrite rev_involutive, lstrip_idempotent.
Qed.

Lemma strip_idempotent s : strip (strip s) = strip s.
Proof.
  destruct (strip_fixed_point s) as [Hl Hr].
  unfold strip at 1. by rewrite Hl, Hr.
Qed.

End StripFacts.

(** ** Precision extraction: shape of the results *)

Module PrecisionShape.
Import PyStr StripFacts PdfPrecision PdfFacts.

Lemma lines_of_clean t line :
  line ∈ lines_of t -> line <> "" /\ strip line = line.
Proof.
  unfold lines_of. intros [Hne Hin]%list_elem_of_filter.
  apply list_elem_of_fmap in Hin as (raw & -> & _).
  split; [|apply strip_idempotent].
  intros Heq. by rewrite Heq in Hne.
Qed.

(** X3.  Every page of a PDF precision extract has at least one line; every
    line is non-empty and has no white space at either end ([strip] leaves
    it as it is); and the extract has no more pages than the raw
    extraction. *)
Theorem pdf_extract_lines_clean (page_data : list page)
    (cls : PDFRentRollClassification) :
  (forall content,
     content ∈ relevant_data (_extract_pdf_with_boundaries page_data cls) ->
     content <> [] /\
     forall line, line ∈ content -> line <> "" /\ strip line = line) /\
  (length (relevant_data (_extract_pdf_with_boundaries page_data cls))
   <= length page_data)%nat.
Proof.
  rewrite relevant_data_spec. split.
  - intros content [Hne Hin]%list_elem_of_filter. split; [done|].
    apply list_elem_of_fmap in Hin as (p & -> & _).
    intros line. apply lines_of_clean.
  - etransitivity; [apply length_filter|].
    rewrite length_fmap. apply length_filter.
Qed.

End PrecisionShape.

Module ExcelShape.
Import PyStr ExcelPrecision ExcelFacts.

Lemma py_slice_infix {A} (l : list A) (start stop : Z) :
  exists pre post, l = pre ++ py_slice l start stop ++ post.
Proof.
  unfold py_slice.
  set (n := Z.to_nat _). set (lo := Z.to_nat _).
  exists (take lo l), (drop n (drop lo l)).
  by rewrite take_drop, take_drop.
Qed.

(** X4.  Whatever the row boundaries are (beyond the sheet, negative, start
    behind end), the spreadsheet extractor returns one sheet, named like the
    target sheet, whose rows are a contiguous block of the target sheet's
    rows in their order; [rows] is the length of that block and [columns]
    the length of its first row, or 0 without rows. *)
Theorem excel_extract_contiguous (sheets_data : list sheet)
    (cls : ExcelRentRollClassification) (target : sheet) :
  find_sheet (data_sheet_name cls) sheets_data = Some target ->
  exists out sh block,
    _extract_excel_with_boundaries sheets_data cls = Ok out /\
    sheets out = [sh] /\ total_sheets out = 1 /\
    sheet_name sh = sheet_name target /\
    data sh = Some block /\
    rows sh = Z.of_nat (length block) /\
    columns sh = Z.of_nat (length (default [] (head block))) /\
    exists pre post, default [] (data target) = pre ++ block ++ post.
Proof.
  intros Hfind. unfold _extract_excel_with_boundaries. rewrite Hfind.
  eexists _, _, _. split; [reflexivity|]. cbn.
  repeat (split; [reflexivity|]). split.
  - by destruct (py_slice _ _ _).
  - apply py_slice_infix.
Qed.

Lemma excel_extract_contiguous_witness :
  exists out,
    _extract_excel_with_boundaries [sample_sheet] (sample_classification 3 1)
    = Ok out.
Proof.
  destruct (excel_extract_contiguous [sample_sheet] (sample_classification 3 1)
              sample_sheet eq_refl) as (out & _ & _ & H & _).
  by exists out.
Defined.

End ExcelShape.

(** ** From the boundary analysis to the precision extraction *)

Module ExtractionServiceFacts.
Import PyStr BoundaryClassifier ExtractionService.

Section Dispatch.
Context `{Collaborators}.

Lemma analysis_kind text ft c :
  analyze_rent_roll_boundaries text ft = Some c ->
  match c with
  | PdfClassification _ => lower ft = "pdf"
  | ExcelClassification _ => lower ft = "excel"
  end.
Proof.
  unfold analyze_rent_roll_boundaries.
  destruct (String.eqb_spec (lower ft) "pdf") as [Hp|Hp];
    destruct (String.eqb_spec (lower ft) "excel") as [He|He]; simpl;
    try done; try congruence.
  - destruct (negb (nonempty (strip text))); [done|].
    destruct (detection_response ft text) as [response|]; [|done]. simpl.
    destruct (search_object_lazy response); [|done].
    destruct (json_loads s) as [R|]; [|done]. simpl.
    unfold to_model. rewrite Hp. simpl.
    destruct (build_pdf _); simpl; [|done]. by intros [= <-].
  - destruct (negb (nonempty (strip text))); [done|].
    destruct (detection_response ft text) as [response|]; [|done]. simpl.
    destruct (search_object_lazy response); [|done].
    destruct (json_loads s) as [R|]; [|done]. simpl.
    unfold to_model. destruct (String.eqb_spec (lower ft) "pdf"); [done|].
    destruct (build_excel _); simpl; [|done]. by intros [= <-].
Qed.

End Dispatch.

(** X5.  A classification returned by the boundary analysis for a file type
    fits the branch the extraction entry point takes for the same file
    type: for "pdf" the extraction returns a PDF extract, for "excel" it is
    the spreadsheet extractor's outcome, so the only exception is the
    ValueError of a missing sheet.  The analysis compares the file type in
    lower case and the entry point compares it as it is: any other
    spelling that the analysis accepts ends in ValueError. *)
Theorem extraction_follows_analysis `{Collaborators}
    (text ft : string) (c : classification) (fe : full_extraction) :
  analyze_rent_roll_boundaries text ft = Some c ->
  file_type fe = Some ft ->
  (ft = "pdf" ->
   exists c', c = PdfClassification c' /\
     extract_rent_roll_with_boundaries fe c
     = Ok (PdfExtract (PdfPrecision._extract_pdf_with_boundaries
                         (default [] (page_data fe)) c'))) /\
  (ft = "excel" ->
   exists c', c = ExcelClassification c' /\
     extract_rent_roll_with_boundaries fe c
     = do e <- ExcelPrecision._extract_excel_with_boundaries
                 (default [] (sheets fe)) c';
       Ok (ExcelExtract e)) /\
  (ft <> "pdf" -> ft <> "excel" ->
   extract_rent_roll_with_boundaries fe c = Raise ValueError).
Proof.
  intros Ha Hft. apply analysis_kind in Ha.
  unfold extract_rent_roll_with_boundaries. rewrite Hft.
  split; [|split].
  - intros ->. destruct c as [c'|c']; [|done]. by exists c'.
  - intros ->. destruct c as [c'|c']; [done|]. by exists c'.
  - intros Hp He.
    destruct (String.eqb_spec ft "pdf"); [done|].
    by destruct (String.eqb_spec ft "excel").
Qed.

Lemma extraction_follows_analysis_witness :
  @extract_rent_roll_with_boundaries
    {| file_type := Some "PDF"; page_data := Some []; sheets := None |}
    (PdfClassification sample_pdf_classification)
  = Raise ValueError.
Proof.
  apply (@extraction_follows_analysis sample_run "Unit 101 ..." "PDF").
  - vm_compute. reflexivity.
  - reflexivity.
  - discriminate.
  - discriminate.
Defined.

End ExtractionServiceFacts.

(** ** Rent-roll rows: what the conversion returns and what it raises *)

Module RentRollOutcome.
Import PyStr PyNum RentRoll RentRollFacts RentRollRows.

Section Outcome.
Variable py_repr : pyval -> string.

Lemma number_at_overflows row index :
  overflows row index -> number_at row index = Raise OverflowError.
Proof.
  intros (x & Hx & Hp & Hov). unfold number_at, int_or_zero.
  by rewrite Hx, Hp, Hov.
Qed.

Lemma row_object_outcome cells :
  (4 <= length cells)%nat ->
  (exists u, row_object py_repr cells = Ok u /\
             ~ (overflows cells 3 \/ overflows cells 4)) \/
  (row_object py_repr cells = Raise OverflowError /\
   (overflows cells 3 \/ overflows cells 4)).
Proof.
  intros Hlen.
  destruct cells as [|r0 [|r1 [|r2 [|r3 rest]]]]; simpl in Hlen; try lia.
  unfold row_object. cbn [lookup list_lookup].
  destruct (number_at_cases (r0 :: r1 :: r2 :: r3 :: rest) 3)
    as [[z3 Hz3]|[Hz3 Ho]]; rewrite Hz3; cbn [rbind];
    [|right; split; [done|by left]].
  destruct (number_at_cases (r0 :: r1 :: r2 :: r3 :: rest) 4)
    as [[z4 Hz4]|[Hz4 Ho]]; rewrite Hz4; cbn [rbind];
    [|right; split; [done|by right]].
  left. eexists. split; [reflexivity|].
  intros [Ho|Ho]; apply number_at_overflows in Ho; congruence.
Qed.

Lemma convert_step_outcome acc row :
  (convert_step py_repr acc row
   = Ok (acc ++ option_list (kept_object py_repr row)) /\
   ~ overflowing_row row) \/
  (convert_step py_repr acc row = Raise OverflowError /\ overflowing_row row).
Proof.
  destruct row as [| | | | |cells|];
    try (left; split; [simpl; by rewrite app_nil_r|];
         intros (cells & Heq & _); discriminate).
  unfold convert_step, kept_object.
  destruct (Nat.ltb_spec (length cells) 4) as [Hshort|Hlong].
  - left. split; [simpl; by rewrite app_nil_r|].
    intros (cells' & [= <-] & Hlen & _). lia.
  - destruct (row_object_outcome cells Hlong) as [(u & -> & Hno)|[-> Ho]].
    + left. split; [done|]. by intros (cells' & [= <-] & _ & Ho).
    + right. split; [done|]. exists cells. auto.
Qed.

Lemma convert_fold rows : forall acc,
  (rfold (convert_step py_repr) rows acc
   = Ok (acc ++ omap (kept_object py_repr) rows) /\
   Forall (fun row => ~ overflowing_row row) rows) \/
  (rfold (convert_step py_repr) rows acc = Raise OverflowError /\
   Exists overflowing_row rows).
Proof.
  induction rows as [|row rows IH]; intros acc.
  - left. simpl. by rewrite app_nil_r.
  - cbn [rfold].
    destruct (convert_step_outcome acc row) as [[-> Hno]|[-> Ho]]; cbn [rbind].
    + destruct (IH (acc ++ option_list (kept_object py_repr row)))
        as [[-> Hall]|[-> Hex]].
      * left. split; [|by constructor].
        rewrite <- app_assoc. f_equal. simpl.
        by destruct (kept_object py_repr row).
      * right. split; [done|]. by apply Exists_cons_tl.
    + right. split; [done|]. by apply Exists_cons_hd.
Qed.

End Outcome.

(** X6.  [convert_rent_roll_arrays_to_objects] either returns or raises
    OverflowError, and it raises exactly when some row of at least four
    cells has a size or rent cell on which [int(float(x))] overflows.
    Otherwise it returns, in row order, one object for every row that is a
    list of at least four cells and nothing for the other rows; an input
    that is not a list gives the empty list. *)
Theorem conversion_outcome (py_repr : pyval -> string) (array_data : pyval) :
  match array_data with
  | PList rows_of =>
      (Forall (fun row => ~ overflowing_row row) rows_of /\
       convert_rent_roll_arrays_to_objects py_repr array_data
       = Ok (omap (kept_object py_repr) rows_of) /\
       forall cells, PList cells ∈ rows_of -> (4 <= length cells)%nat ->
                     is_Some (kept_object py_repr (PList cells))) \/
      (Exists overflowing_row rows_of /\
       convert_rent_roll_arrays_to_objects py_repr array_data
       = Raise OverflowError)
  | _ => convert_rent_roll_arrays_to_objects py_repr array_data = Ok []
  end.
Proof.
  destruct array_data as [| | | | |rows_of|]; try reflexivity.
  unfold convert_rent_roll_arrays_to_objects.
  destruct (convert_fold py_repr rows_of []) as [[-> Hall]|[-> Hex]].
  - left. split; [done|]. split; [done|].
    intros cells Hin Hlen. rewrite Forall_forall in Hall.
    specialize (Hall _ Hin). unfold kept_object.
    destruct (Nat.ltb_spec (length cells) 4); [lia|].
    destruct (row_object_outcome py_repr cells Hlen) as [(u & -> & _)|[_ Ho]];
      [by eexists|].
    exfalso. apply Hall. exists cells. auto.
  - right. done.
Qed.

End RentRollOutcome.

(** ** T12: from the matched triples to objects *)

Module T12Objects.
Import PyDict PyDictFacts T12 T12Facts.

Lemma convert_objects_fold triples : forall acc,
  Forall (fun t : row => exists l a c, t = [l; a; c]) triples ->
  rfold (fun acc item =>
           match item !! 0%nat, item !! 1%nat, item !! 2%nat with
           | Some l, Some t, Some c =>
               Ok (acc ++ [{| line_item := l; total := t; category := c |}])
           | _, _, _ => Raise IndexError
           end) triples acc
  = Ok (acc ++ ((fun t : row =>
                   {| line_item := default PNone (t !! 0%nat);
                      total := default PNone (t !! 1%nat);
                      category := default PNone (t !! 2%nat) |}) <$> triples)).
Proof.
  induction triples as [|t ts IH]; intros acc Hall; simpl.
  - by rewrite app_nil_r.
  - apply Forall_cons in Hall as [(l & a & c & ->) Hall]. simpl.
    rewrite IH by done. by rewrite <- app_assoc.
Qed.

Lemma triples_of_omap d pairs :
  Forall (fun t : row => exists l a c, t = [l; a; c]) (omap (triple_of d) pairs).
Proof.
  apply Forall_forall. intros t (item & _ & Hitem)%list_elem_of_omap.
  destruct item as [|k [|a rest]]; try done.
  injection Hitem as <-. eauto.
Qed.

(** X7.  The triples [match_categories_with_amounts] returns always convert:
    [convert_to_objects] raises no IndexError on them and gives one object
    per triple, in order, whose [line_item], [total] and [category] are the
    three cells of the triple. *)
Theorem objects_of_match (pairs cats : list row) :
  Forall scalar_key pairs ->
  Forall scalar_key cats ->
  exists out objs,
    match_categories_with_amounts pairs cats = Ok out /\
    convert_to_objects out = Ok objs /\
    length objs = length out /\
    forall (i : nat) o, objs !! i = Some o ->
      out !! i = Some [line_item o; total o; category o].
Proof.
  intros Hp Hc.
  destruct (lookup_fold cats [] Hc) as (d & Hd & _).
  unfold match_categories_with_amounts. rewrite Hd. cbn [rbind].
  rewrite match_fold by done. rewrite app_nil_l.
  pose proof (triples_of_omap d pairs) as Hshape.
  eexists _, _. split; [reflexivity|].
  unfold convert_to_objects. rewrite convert_objects_fold by done. rewrite app_nil_l.
  split; [reflexivity|]. split; [by rewrite length_fmap|].
  intros i o Hi. rewrite list_lookup_fmap in Hi.
  destruct (omap (triple_of d) pairs !! i) as [t|] eqn:Ht; [|done].
  rewrite Forall_forall in Hshape.
  destruct (Hshape t) as (l & a & c & ->).
  { apply list_elem_of_lookup. eauto. }
  simpl in Hi. by injection Hi as <-.
Qed.

Lemma objects_of_match_witness :
  exists objs,
    (do out <- match_categories_with_amounts
                 [[PStr "Base Rent"; PInt 50000]; [PStr "note"]]
                 [[PStr "Base Rent"; PStr "Residential Rent"]];
     convert_to_objects out) = Ok objs.
Proof.
  destruct (objects_of_match
              [[PStr "Base Rent"; PInt 50000]; [PStr "note"]]
              [[PStr "Base Rent"; PStr "Residential Rent"]])
    as (out & objs & H1 & H2 & _).
  - repeat constructor; intros k c rest [= <- _ _]; reflexivity.
  - repeat constructor; intros k c rest [= <- _ _]; reflexivity.
  - exists objs. rewrite H1. exact H2.
Defined.

End T12Objects.

(** ** Two-pass boundary classification: which result is built *)

Module ValidationAnswerFacts.
Import PyStr BoundaryClassifier ValidationAnswer.

Section Answer.
Context `{Collaborators}.

Lemma validate_parsed text ft R response json_str d :
  validation_response text ft R = Ok response ->
  search_object_greedy response = Some json_str ->
  json_loads json_str = Ok (PDict d) ->
  validate_boundaries text ft R
  = if corrections_readable d then Some (PDict d) else None.
Proof.
  intros Hv Hs Hj. unfold validate_boundaries, corrections_readable.
  rewrite Hv. cbn [rbind]. rewrite Hs, Hj. cbn [rbind read_corrections].
  by destruct (dict_get d "corrections_made") as [[]|].
Qed.

Lemma analyze_after_first_pass text ft R :
  first_pass_parses text ft R ->
  analyze_rent_roll_boundaries text ft
  = catch_all
      (to_model ft
         (if is_truthy (validate_boundaries text ft R)
          then default R (validate_boundaries text ft R) else R)).
Proof.
  intros (Hft & Htext & response & json_str & Hr & Hs & Hj).
  unfold analyze_rent_roll_boundaries.
  assert (String.eqb (lower ft) "pdf" || String.eqb (lower ft) "excel" = true)
    as -> by (destruct Hft as [-> | ->]; reflexivity).
  rewrite Htext. cbn [negb]. rewrite Hr. cbn [rbind]. rewrite Hs, Hj. done.
Qed.

End Answer.

(** X8.  When pass 1 parses to [R] and the answer of pass 2 parses to a JSON
    object, the classification is built from that object alone if it is not
    empty and its [corrections_made] is missing or an object: nothing of [R]
    is merged in, and if the model rejects the object the analysis is None
    although [R] is at hand.  If the object is empty, or [corrections_made]
    is there and not an object, the classification is built from [R]. *)
Theorem validated_result_replaces_first `{Collaborators}
    (text ft : string) (R : pyval) (response json_str : string)
    (d : list (string * pyval)) :
  first_pass_parses text ft R ->
  validation_response text ft R = Ok response ->
  search_object_greedy response = Some json_str ->
  json_loads json_str = Ok (PDict d) ->
  (d <> [] -> corrections_readable d = true ->
   analyze_rent_roll_boundaries text ft = catch_all (to_model ft (PDict d))) /\
  (d = [] \/ corrections_readable d = false ->
   analyze_rent_roll_boundaries text ft = catch_all (to_model ft R)).
Proof.
  intros Hfirst Hv Hs Hj.
  rewrite (analyze_after_first_pass _ _ _ Hfirst).
  rewrite (validate_parsed _ _ _ _ _ _ Hv Hs Hj).
  split.
  - intros Hne ->. destruct d; [done|]. reflexivity.
  - intros [Hd|Hc]; [subst d|rewrite Hc]; [|done].
    by destruct (corrections_readable []).
Qed.

Lemma validated_result_replaces_first_witness :
  @analyze_rent_roll_boundaries rejecting_run "Unit 101 ..." "pdf" = None /\
  @catch_all classification
     (@to_model rejecting_run "pdf" sample_first_result)
  = Some (PdfClassification sample_pdf_classification).
Proof.
  split; [|reflexivity].
  destruct (@validated_result_replaces_first rejecting_run
              "Unit 101 ..." "pdf" sample_first_result "{second}" "{second}"
              [("note", PStr "looks fine")]) as [Huse _].
  - split; [left; reflexivity|]. split; [reflexivity|].
    exists "{first}", "{first}". repeat split; reflexivity.
  - reflexivity.
  - reflexivity.
  - reflexivity.
  - rewrite Huse; [reflexivity|discriminate|reflexivity].
Defined.

End ValidationAnswerFacts.

(** ** Python strings: [split] and [join], slices *)

Module SplitFacts.
Import PyStr PyStrFacts StripFacts.

Lemma split_nonempty sep s : split sep s <> [].
Proof.
  destruct s as [|c s]; simpl; [done|].
  destruct (Ascii.eqb c sep); [done|]. by destruct (split sep s).
Qed.

Lemma join_cons sep x y l :
  join sep (x :: y :: l) = x +:+ sep +:+ join sep (y :: l).
Proof. reflexivity. Qed.

Lemma join_head_char sep c w ws :
  join sep (String c w :: ws) = String c (join sep (w :: ws)).
Proof. destruct ws; [done|]. by rewrite !join_cons, append_cons. Qed.

(** Splitting at a character and joining with it gives the string back. *)
Lemma join_split c s : join (String c "") (split c s) = s.
Proof.
  induction s as [|a s IH]; [done|]. simpl.
  destruct (Ascii.eqb_spec a c) as [->|Hne].
  - pose proof (split_nonempty c s) as Hn.
    destruct (split c s) as [|y l]; [done|].
    rewrite join_cons, IH. by rewrite append_nil, append_cons, append_nil.
  - pose proof (split_nonempty c s) as Hn.
    destruct (split c s) as [|w ws]; [done|].
    by rewrite join_head_char, IH.
Qed.

Lemma slice_to_from n s : slice_to n s +:+ slice_from n s = s.
Proof.
  revert s. induction n as [|n IH]; intros s; simpl.
  - by rewrite append_nil.
  - destruct s as [|c s]; [done|]. by rewrite append_cons, IH.
Qed.

Lemma slice_to_all n s : (String.length s <= n)%nat -> slice_to n s = s.
Proof.
  revert s. induction n as [|n IH]; intros s H; simpl.
  - destruct s; [done|simpl in H; lia].
  - destruct s as [|c s]; [done|]. simpl in H. f_equal. apply IH. lia.
Qed.

Lemma slice_to_min n s :
  slice_to (Nat.min n (String.length s)) s = slice_to n s.
Proof.
  destruct (Nat.le_gt_cases n (String.length s)).
  - by rewrite Nat.min_l.
  - rewrite Nat.min_r by lia. rewrite !slice_to_all by lia. done.
Qed.

Lemma slice_from_zero s : slice_from 0 s = s.
Proof. reflexivity. Qed.

End SplitFacts.

(** ** Boundary context: what the validation pass is shown *)

Module BoundaryContextFacts.
Import PyStr PyStrFacts StripFacts SplitFacts BoundaryClassifier BoundaryContext.

(** X9.  For a PDF the page numbers of the first pass are used as character
    offsets.  On a text that is not blank, the start context is a prefix of
    the text, its first [data_start_page + context_chars] characters, and
    the end context is a suffix of the text; when [data_end_page] is at most
    [context_chars] the end context is the whole text.  A blank text gives
    two empty contexts. *)
Theorem pdf_context_uses_pages_as_offsets (text : string)
    (b : first_boundaries) (ft : string) (context_rows context_chars : Z) :
  lower ft = "pdf" ->
  exists c,
    extract_full_boundary_context text b ft context_rows context_chars = Ok c /\
    (nonempty (strip text) = false ->
     start_context c = "" /\ end_context c = "") /\
    (nonempty (strip text) = true ->
     (exists rest, text = start_context c +:+ rest) /\
     (exists pre, text = pre +:+ end_context c) /\
     (0 <= default 1 (data_start_page b) + context_chars ->
      start_context c
      = slice_to (Z.to_nat (default 1 (data_start_page b) + context_chars))
                 text) /\
     (default 1 (data_end_page b) <= context_chars ->
      end_context c = text)).
Proof.
  intros Hft. unfold extract_full_boundary_context. rewrite Hft.
  cbn [String.eqb Ascii.eqb Bool.eqb]. eexists. split; [reflexivity|].
  unfold extract_pdf_boundary_context. split.
  - intros ->. done.
  - intros ->. cbn [negb start_context end_context].
    unfold str_slice_to, str_slice_from. repeat split.
    + eexists. symmetry. apply slice_to_from.
    + eexists. symmetry. apply slice_to_from.
    + intros Hs. unfold slice_index, len.
      destruct (Z.ltb_spec (Z.min (default 1 (data_start_page b) + context_chars)
                              (Z.of_nat (String.length text))) 0); [lia|].
      rewrite <- (slice_to_min (Z.to_nat (_ + context_chars))). f_equal. lia.
    + intros He. unfold slice_index, len.
      destruct (Z.ltb_spec (Z.max 0 (default 1 (data_end_page b) - context_chars))
                  0); [lia|].
      replace (Z.to_nat _) with 0%nat by lia. done.
Qed.

Lemma pdf_context_uses_pages_as_offsets_witness :
  exists c,
    extract_full_boundary_context "page one text"
      {| data_start_row := None; data_end_row := None;
         data_start_page := Some 14; data_end_page := Some 15 |}
      "PDF" 5 500 = Ok c /\
    end_context c = "page one text".
Proof.
  destruct (pdf_context_uses_pages_as_offsets "page one text"
              {| data_start_row := None; data_end_row := None;
                 data_start_page := Some 14; data_end_page := Some 15 |}
              "PDF" 5 500 eq_refl) as (c & Hc & _ & Hfull).
  exists c. split; [exact Hc|].
  apply Hfull; [reflexivity|]. simpl. lia.
Defined.

Lemma take_min {A} (l : list A) (n : nat) :
  take (Nat.min n (length l)) l = take n l.
Proof.
  destruct (Nat.le_gt_cases n (length l)).
  - by rewrite Nat.min_l.
  - rewrite Nat.min_r by lia. by rewrite !take_ge by lia.
Qed.

(** X10.  For a spreadsheet, on a text that is not blank, both contexts are
    made of whole lines of the text: the start context joins its first
    [start_row + context_rows] lines (when that number is not negative) and
    the end context joins the lines from index
    [max(0, end_row - context_rows)] on.  So the end context is the whole
    text when [end_row <= context_rows], and the start context is the whole
    text when the text has no more than [start_row + context_rows] lines. *)
Theorem excel_context_whole_lines (text : string)
    (start_row end_row context_rows : Z) :
  nonempty (strip text) = true ->
  let c := extract_excel_boundary_context text start_row end_row context_rows in
  let lines := split "010"%char text in
  end_context c
    = join nl (drop (Z.to_nat (end_row - context_rows)) lines) /\
  (end_row <= context_rows -> end_context c = text) /\
  (0 <= start_row + context_rows ->
   start_context c
     = join nl (take (Z.to_nat (start_row + context_rows)) lines) /\
   (Z.of_nat (length lines) <= start_row + context_rows ->
    start_context c = text)).
Proof.
  intros Htext c lines. subst c.
  unfold extract_excel_boundary_context. rewrite Htext.
  cbn [negb start_context end_context]. fold lines.
  assert (Hend : py_slice lines (Z.max 0 (end_row - context_rows))
                   (Z.of_nat (length lines))
                 = drop (Z.to_nat (end_row - context_rows)) lines).
  { unfold py_slice, slice_index.
    destruct (Z.ltb_spec (Z.max 0 (end_row - context_rows)) 0); [lia|].
    destruct (Z.ltb_spec (Z.of_nat (length lines)) 0); [lia|].
    destruct (Z.le_gt_cases (end_row - context_rows) (Z.of_nat (length lines))).
    - rewrite take_ge by (rewrite length_drop; lia). f_equal. lia.
    - rewrite !drop_ge by lia. by rewrite take_nil. }
  assert (Hstart : 0 <= start_row + context_rows ->
                   py_slice lines 0
                     (Z.min (start_row + context_rows - 1)
                        (Z.of_nat (length lines) - 1) + 1)
                   = take (Z.to_nat (start_row + context_rows)) lines).
  { intros Hs. unfold py_slice, slice_index.
    destruct (Z.ltb_spec 0 0); [lia|].
    destruct (Z.ltb_spec (Z.min (start_row + context_rows - 1)
                            (Z.of_nat (length lines) - 1) + 1) 0); [lia|].
    replace (Z.to_nat (0 `min` Z.of_nat (length lines))) with 0%nat by lia.
    rewrite drop_0.
    rewrite <- (take_min lines (Z.to_nat (start_row + context_rows))).
    f_equal. lia. }
  rewrite Hend. split; [done|]. split.
  - intros He. replace (Z.to_nat _) with 0%nat by lia. apply join_split.
  - intros Hs. rewrite (Hstart Hs). split; [done|].
    intros Hn. rewrite take_ge by lia. apply join_split.
Qed.

Lemma excel_context_whole_lines_witness :
  end_context
    (extract_excel_boundary_context
       ("Sheet: RR" +:+ nl +:+ "Row 1: a" +:+ nl +:+ "Row 2: b") 1 2 5)
  = "Sheet: RR" +:+ nl +:+ "Row 1: a" +:+ nl +:+ "Row 2: b".
Proof.
  destruct (excel_context_whole_lines
              ("Sheet: RR" +:+ nl +:+ "Row 1: a" +:+ nl +:+ "Row 2: b") 1 2 5
              eq_refl) as (_ & Hwhole & _).
  apply Hwhole. lia.
Defined.

End BoundaryContextFacts.


(** ** Excel writer: clearing and writing *)

Module ExcelWriterSpec.
Import PyStr ExcelWriter ExcelWriterFacts ClearedCells.

Lemma bind_Ok {A B} (m : M A) (k : A -> M B) ws ws' b :
  bind m k ws = (ws', Ok b) ->
  exists ws1 a, m ws = (ws1, Ok a) /\ k a ws1 = (ws', Ok b).
Proof.
  unfold bind. destruct (m ws) as [ws1 [a|e]]; [eauto|done].
Qed.

Lemma for_each_app {A} (l1 l2 : list A) body ws :
  for_each (l1 ++ l2) body ws
  = bind (for_each l1 body) (fun _ => for_each l2 body) ws.
Proof.
  revert ws. induction l1 as [|x l1 IH]; intros ws; [reflexivity|].
  cbn [app for_each]. unfold bind.
  destruct (body x ws) as [ws1 [[]|e]]; [|done]. apply IH.
Qed.

Lemma for_each_skip {A} (l : list A) body ws :
  (forall x ws0, x ∈ l -> body x ws0 = (ws0, Ok tt)) ->
  for_each l body ws = (ws, Ok tt).
Proof.
  induction l as [|x l IH]; intros Hb; [done|]. simpl. unfold bind.
  rewrite Hb by (by left). apply IH. intros y ws0 Hy. apply Hb. by right.
Qed.

Lemma cleared_trans S1 S2 ws ws1 ws2 :
  cleared S1 ws ws1 -> cleared S2 ws1 ws2 ->
  cleared (fun r c => S1 r c || S2 r c) ws ws2.
Proof.
  intros H1 H2 r c. rewrite H2, H1.
  destruct (S1 r c), (S2 r c), (is_formula (cell_value ws r c)) eqn:E;
    simpl; rewrite ?E; done.
Qed.

Lemma cleared_ext S S' ws ws' :
  (forall r c, S r c = S' r c) -> cleared S ws ws' -> cleared S' ws ws'.
Proof. intros HS H r c. rewrite <- HS. apply H. Qed.

Lemma cleared_none ws : cleared (fun _ _ => false) ws ws.
Proof. by intros r c. Qed.

Lemma clear_cell_cleared row col ws :
  1 <= row -> 1 <= col ->
  (clear_cell row col ws).2 = Ok tt /\
  cleared (fun r c => (r =? row) && (c =? col)) ws (clear_cell row col ws).1.
Proof.
  intros Hr Hc. unfold clear_cell, bind, cell.
  destruct (Z.ltb_spec row 1); [lia|]. destruct (Z.ltb_spec col 1); [lia|].
  cbn [orb].
  assert (Hsame : forall ws0 : worksheet,
             (forall r c, (r, c) <> (row, col) ->
                          cell_value ws0 r c = cell_value ws r c) ->
             (is_formula (cell_value ws row col) = false ->
              cell_value ws0 row col = PNone) ->
             (is_formula (cell_value ws row col) = true ->
              cell_value ws0 row col = cell_value ws row col) ->
             cleared (fun r c => (r =? row) && (c =? col)) ws ws0).
  { intros ws0 Hother Hclear Hkeep r c.
    destruct (Z.eqb_spec r row) as [->|Hne].
    - destruct (Z.eqb_spec c col) as [->|Hne]; simpl.
      + destruct (is_formula (cell_value ws row col)) eqn:E; simpl; auto.
      + apply Hother. congruence.
    - simpl. apply Hother. congruence. }
  assert (Hdel : is_formula (cell_value ws row col) = false ->
                 cleared (fun r c => (r =? row) && (c =? col)) ws
                   (delete (row, col) ws)).
  { intros Hnf. apply Hsame.
    - intros r c Hne. unfold cell_value. by rewrite lookup_delete_ne.
    - intros _. unfold cell_value. by rewrite lookup_delete_eq.
    - intros Hf. congruence. }
  destruct (cell_value ws row col) eqn:E; cbn [is_formula] in *;
    try (split; [done|]; apply Hdel; done).
  - split; [done|]. apply Hsame; auto.
  - destruct (starts_with "=" s) eqn:Hf; (split; [done|]).
    + apply Hsame; auto. done.
    + apply Hdel. done.
Qed.

Lemma for_each_cleared {A} (cells : A -> Z -> Z -> bool) (l : list A) body :
  (forall x, x ∈ l -> forall ws,
     (body x ws).2 = Ok tt /\ cleared (cells x) ws (body x ws).1) ->
  forall ws,
    (for_each l body ws).2 = Ok tt /\
    cleared (fun r c => existsb (fun x => cells x r c) l) ws
            (for_each l body ws).1.
Proof.
  induction l as [|x l IH]; intros Hb ws; simpl.
  - split; [done|]. apply cleared_none.
  - unfold bind. destruct (Hb x (list_elem_of_here _ _) ws) as [Hok Hx].
    destruct (body x ws) as [ws1 [[]|e]]; [|done]. simpl in Hx.
    destruct (IH (fun y Hy => Hb y (list_elem_of_further _ _ _ Hy)) ws1)
      as [Hok' Hl].
    split; [done|]. by apply (cleared_trans _ _ ws ws1).
Qed.

Lemma existsb_range (f : Z -> bool) a b x :
  (forall y, f y = (x =? y)) ->
  existsb f (inclusive_range a b) = (a <=? x) && (x <=? b).
Proof.
  intros Hf. apply eq_true_iff_eq.
  rewrite existsb_exists, andb_true_iff, !Z.leb_le. split.
  - intros (y & Hy & Hfy). rewrite Hf in Hfy. apply Z.eqb_eq in Hfy as <-.
    apply list_elem_of_In, elem_of_seqZ in Hy. lia.
  - intros [Ha Hb]. exists x. rewrite Hf, Z.eqb_refl. split; [|done].
    apply list_elem_of_In, elem_of_seqZ. lia.
Qed.

Lemma existsb_const {A} (l : list A) (f : A -> bool) :
  (forall x, f x = false) -> existsb f l = false.
Proof. intros Hf. induction l; simpl; [done|]. by rewrite Hf. Qed.

Lemma rectangle_cells start_row end_row start_column end_column r c :
  existsb (fun row =>
     existsb (fun col => (r =? row) && (c =? col))
             (inclusive_range start_column end_column))
     (inclusive_range start_row end_row)
  = in_rectangle start_row end_row start_column end_column r c.
Proof.
  unfold in_rectangle.
  destruct ((start_column <=? c) && (c <=? end_column)) eqn:Hc.
  - rewrite (existsb_range _ start_row end_row r).
    + rewrite <- andb_assoc, Hc. by rewrite andb_true_r.
    + intros row. destruct (Z.eqb_spec r row); simpl.
      * by rewrite (existsb_range _ start_column end_column c).
      * by apply existsb_const.
  - rewrite <- andb_assoc, Hc, andb_false_r.
    apply existsb_const. intros row.
    destruct (r =? row); simpl.
    + by rewrite (existsb_range _ start_column end_column c).
    + by apply existsb_const.
Qed.

(** On rows and columns from 1 on, the clearing pass returns and empties
    exactly the cells of the rectangle that hold no formula. *)
Lemma clear_data_rows_cleared start_row end_row start_column end_column ws :
  1 <= start_row -> 1 <= start_column ->
  (clear_data_rows start_row end_row start_column end_column ws).2 = Ok tt /\
  cleared (in_rectangle start_row end_row start_column end_column) ws
    (clear_data_rows start_row end_row start_column end_column ws).1.
Proof.
  intros Hr Hc. unfold clear_data_rows.
  destruct (for_each_cleared
              (fun row r c =>
                 existsb (fun col => (r =? row) && (c =? col))
                         (inclusive_range start_column end_column))
              (inclusive_range start_row end_row)
              (fun row =>
                 for_each (inclusive_range start_column end_column)
                          (fun col => clear_cell row col))) with (ws := ws)
    as [Hok Hcl].
  - intros row Hrow ws0.
    apply (for_each_cleared (fun col r c => (r =? row) && (c =? col))).
    intros col Hcol ws1. apply elem_of_seqZ in Hrow, Hcol.
    apply clear_cell_cleared; lia.
  - split; [done|]. eapply cleared_ext; [|exact Hcl].
    intros r c. apply rectangle_cells.
Qed.

(** A rectangle that is not empty and starts below row 1 or column 1:
    the first cell looked up raises. *)
Lemma clear_data_rows_raises start_row end_row start_column end_column ws :
  start_row <= end_row -> start_column <= end_column ->
  start_row < 1 \/ start_column < 1 ->
  clear_data_rows start_row end_row start_column end_column ws
  = (ws, Raise ValueError).
Proof.
  intros Hrows Hcols Hbelow. unfold clear_data_rows, inclusive_range.
  rewrite (seqZ_cons start_row) by lia.
  rewrite (seqZ_cons start_column) by lia.
  cbn [for_each]. unfold bind, clear_cell, cell.
  destruct (Z.ltb_spec start_row 1); [done|].
  destruct (Z.ltb_spec start_column 1); [done|lia].
Qed.

(** X11.  [clear_data_rows] in full.  With a first row and first column of
    at least 1 it returns, and afterwards a cell holds None when it lies in
    the rectangle and held no formula, and what it held before otherwise.
    With an empty row or column range it does nothing.  With a rectangle
    that is not empty and a first row or first column below 1 it raises
    ValueError on its first cell and the worksheet is unchanged. *)
Theorem clear_data_rows_effect
    (start_row end_row start_column end_column : Z) (ws : worksheet) :
  let out := clear_data_rows start_row end_row start_column end_column ws in
  (1 <= start_row -> 1 <= start_column ->
   out.2 = Ok tt /\
   forall r c,
     cell_value out.1 r c
     = if in_rectangle start_row end_row start_column end_column r c
          && negb (is_formula (cell_value ws r c))
       then PNone else cell_value ws r c) /\
  (end_row < start_row \/ end_column < start_column -> out = (ws, Ok tt)) /\
  (start_row <= end_row -> start_column <= end_column ->
   start_row < 1 \/ start_column < 1 -> out = (ws, Raise ValueError)).
Proof.
  cbn zeta. split; [|split].
  - intros Hr Hc. by apply clear_data_rows_cleared.
  - intros Hempty. unfold clear_data_rows.
    apply for_each_skip. intros row ws0 Hrow.
    apply for_each_skip. intros col ws1 Hcol.
    apply elem_of_seqZ in Hrow, Hcol. lia.
  - apply clear_data_rows_raises.
Qed.

End ExcelWriterSpec.


(** ** Excel writer: the whole call *)

Module ExcelWriterRun.
Import PyStr ExcelWriter ExcelWriterFacts ClearedCells ExcelWriterSpec.

Lemma column_value_ge acc name n :
  0 <= acc -> column_value acc name = Some n -> acc <= n.
Proof.
  revert acc. induction name as [|ch name IH]; intros acc Hacc; simpl.
  - intros [= <-]. lia.
  - unfold is_upper. destruct (_ && _)%bool eqn:Hu; [|done].
    apply andb_true_iff in Hu as [H1 H2].
    apply Z.leb_le in H1, H2. intros Hn. apply IH in Hn; lia.
Qed.

(** A column number is at least 1. *)
Lemma column_index_positive s n : column_index_from_string s = Ok n -> 1 <= n.
Proof.
  unfold column_index_from_string.
  destruct (str_upper s) as [|ch name]; [done|].
  destruct (_ && _)%bool; [|done].
  destruct (column_value 0 (ch :: name)) as [m|] eqn:Hm; [|done].
  intros [= <-]. revert Hm. simpl. unfold is_upper.
  destruct (_ && _)%bool eqn:Hu; [|done].
  apply andb_true_iff in Hu as [H1 H2]. apply Z.leb_le in H1, H2.
  intros Hm. apply column_value_ge in Hm; lia.
Qed.

Lemma column_index_raises s e :
  column_index_from_string s = Raise e -> e = ValueError.
Proof.
  unfold column_index_from_string. destruct (_ && _)%bool; [|congruence].
  destruct (column_value 0 _); congruence.
Qed.

Lemma column_numbers_raises letters e :
  column_numbers letters = Raise e -> e = ValueError.
Proof.
  induction letters as [|l letters IH]; simpl; [done|].
  destruct (column_index_from_string l) eqn:Hl; simpl.
  - destruct (column_numbers letters); simpl; [done|].
    intros [= <-]. by apply IH.
  - intros [= <-]. by apply column_index_raises in Hl.
Qed.

Lemma column_numbers_Ok letters ns :
  column_numbers letters = Ok ns ->
  Forall2 (fun l n => column_index_from_string l = Ok n) letters ns.
Proof.
  revert ns. induction letters as [|l letters IH]; simpl; intros ns.
  - intros [= <-]. constructor.
  - destruct (column_index_from_string l) eqn:Hl; simpl; [|done].
    destruct (column_numbers letters); simpl; [|done].
    intros [= <-]. constructor; auto.
Qed.

Lemma minimum_le n ns : minimum n ns <= n.
Proof. destruct ns; simpl; lia. Qed.

Lemma maximum_ge n ns : n <= maximum n ns.
Proof. destruct ns; simpl; lia. Qed.

Lemma minimum_bound k n ns : k <= n -> Forall (Z.le k) ns -> k <= minimum n ns.
Proof.
  intros Hn Hns. revert n Hn. induction Hns as [|y l Hy _ IH]; intros n Hn.
  - done.
  - simpl. specialize (IH y Hy). lia.
Qed.

Lemma truthy_nonempty letter : letter <> "" -> truthy (Some letter) = Some letter.
Proof. by destruct letter. Qed.

(** X12.  A mapping that cannot be used leaves the worksheet as it was.
    With at least one record and at least one mapped column, when
    [data_start_row] is below 1 or some mapped column letter is not a
    column name, [write_data_with_mapping] raises ValueError and no cell
    has changed: the column letters are all converted, and the first cell
    is looked up, before anything is cleared or written.  With no record
    the call returns and nothing has changed either. *)
Theorem unusable_mapping_changes_nothing
    (ws : worksheet) (data : list (gmap string pyval)) (cfg : mapping_config) :
  let letters := omap (fun fc => truthy fc.2) (default [] (columns cfg)) in
  (data = [] -> write_data_with_mapping data cfg ws = (ws, Ok tt)) /\
  (data <> [] -> letters <> [] ->
   default 1 (data_start_row cfg) < 1 \/
   (exists letter e, letter ∈ letters /\
                     column_index_from_string letter = Raise e) ->
   write_data_with_mapping data cfg ws = (ws, Raise ValueError)).
Proof.
  cbn zeta. split.
  - intros ->. reflexivity.
  - intros Hdata Hletters Hbad.
    unfold write_data_with_mapping, clear_phase.
    destruct data as [|d data]; [done|].
    destruct (omap _ _) as [|l letters] eqn:Hl; [done|].
    unfold bind at 1 2. unfold lift.
    destruct (column_numbers (l :: letters)) as [numbers|e] eqn:Hn.
    + pose proof (column_numbers_Ok _ _ Hn) as Hall.
      destruct numbers as [|n ns]; [by inversion Hall|].
      destruct Hbad as [Hrow|(letter & e & Hin & He)].
      * rewrite clear_data_rows_raises; [done|lia| |by left].
        pose proof (minimum_le n ns). pose proof (maximum_ge n ns). lia.
      * exfalso. apply list_elem_of_lookup in Hin as [i Hi].
        destruct (Forall2_lookup_l _ _ _ _ _ Hall Hi) as (m & _ & Hm).
        congruence.
    + by apply column_numbers_raises in Hn as ->.
Qed.

End ExcelWriterRun.


(** ** Excel writer: what the cells hold after the call *)

Module ExcelWriterCells.
Import PyStr ExcelWriter ExcelWriterFacts ClearedCells ExcelWriterSpec.
Import ExcelWriterRun.

Lemma keeps_run {B : Type} (P : worksheet -> Prop) (m : M B) ws ws' r :
  keeps P m -> m ws = (ws', r) -> P ws -> P ws'.
Proof. intros Hk Hm HP. specialize (Hk ws HP). by rewrite Hm in Hk. Qed.

Lemma cell_write_Ok row col value ws ws' :
  value <> PNone ->
  cell_write row col value ws = (ws', Ok tt) ->
  exists stored, bind_value value = Ok stored /\ holds row col stored ws'.
Proof.
  intros Hv. unfold cell_write, bind, cell.
  destruct ((row <? 1) || (col <? 1)); [done|].
  assert (Hset : set_value row col value ws = (ws', Ok tt) ->
                 exists stored, bind_value value = Ok stored /\
                                holds row col stored ws').
  { unfold set_value. destruct (bind_value value) as [stored|e]; [|done].
    intros [= <-]. exists stored. split; [done|]. unfold holds, cell_value.
    destruct stored; rewrite ?lookup_insert_eq, ?lookup_delete_eq; done. }
  destruct value; done.
Qed.

Lemma rows_lookup (data : list (gmap string pyval)) i row_data :
  data !! i = Some row_data ->
  imap (fun row_index row_data => (Z.of_nat row_index, row_data)) data !! i
  = Some (Z.of_nat i, row_data).
Proof. intros H. by rewrite list_lookup_imap, H. Qed.

(** X13.  What is written is read back.  After a call that returned, the
    cell in row [data_start_row + i] and the column of a mapped field holds
    the value record [i] has for that field, as the worksheet stores it (a
    string cut to 32767 characters, anything else as it is), provided the
    value is not None and no later field of the mapping sends a value of
    the same record to the same column.  Rows written later and the other
    columns of the row leave the cell alone. *)
Theorem written_value_is_read_back
    (ws ws' : worksheet) (data : list (gmap string pyval))
    (cfg : mapping_config) (i : nat) (row_data : gmap string pyval)
    (before after : list (string * option string))
    (field letter : string) (value : pyval) (col : Z) :
  write_data_with_mapping data cfg ws = (ws', Ok tt) ->
  data !! i = Some row_data ->
  default [] (columns cfg) = before ++ (field, Some letter) :: after ->
  letter <> "" ->
  row_data !! field = Some value ->
  value <> PNone ->
  column_index_from_string letter = Ok col ->
  (forall f l v, (f, Some l) ∈ after -> column_index_from_string l = Ok col ->
                 row_data !! f = Some v -> v = PNone) ->
  exists stored,
    bind_value value = Ok stored /\
    cell_value ws' (default 1 (data_start_row cfg) + Z.of_nat i) col = stored.
Proof.
  intros Hrun Hi Hcols Hletter Hvalue Hnone Hcol Hlater.
  unfold write_data_with_mapping in Hrun.
  apply bind_Ok in Hrun as (ws1 & [] & _ & Hwrite).
  unfold write_phase in Hwrite.
  pose proof (rows_lookup _ _ _ Hi) as Hrow.
  rewrite <- (take_drop_middle _ _ _ Hrow), for_each_app in Hwrite.
  apply bind_Ok in Hwrite as (ws2 & [] & _ & Hwrite).
  cbn [for_each] in Hwrite.
  apply bind_Ok in Hwrite as (ws3 & [] & Hthis & Hrest).
  rewrite Hcols, for_each_app in Hthis.
  apply bind_Ok in Hthis as (ws4 & [] & _ & Hthis).
  cbn [for_each] in Hthis.
  apply bind_Ok in Hthis as (ws5 & [] & Hfield & Hafter).
  unfold write_field in Hfield. cbn [fst snd] in Hfield.
  rewrite (truthy_nonempty _ Hletter), Hvalue in Hfield.
  unfold bind at 1 in Hfield. unfold lift in Hfield. rewrite Hcol in Hfield.
  destruct (cell_write_Ok _ _ _ _ _ Hnone Hfield) as (stored & Hstored & H5).
  exists stored. split; [done|].
  set (R := default 1 (data_start_row cfg) + Z.of_nat i) in *.
  assert (H3 : holds R col stored ws3).
  { eapply (keeps_run (holds R col stored)); [|exact Hafter|exact H5].
    apply keeps_for_each. intros [f l] Hf.
    apply keeps_write_field. cbn [fst snd].
    intros l' v -> _ Hv Hvn Hl'. exfalso. apply Hvn. eapply Hlater; eauto. }
  eapply (keeps_run (holds R col stored)); [|exact Hrest|exact H3].
  apply keeps_for_each. intros [j rd] Hj.
  apply list_elem_of_lookup in Hj as [k Hk].
  rewrite lookup_drop, list_lookup_imap in Hk.
  destruct (data !! (S i + k)%nat); [|done]. injection Hk as <- <-.
  apply keeps_for_each. intros fc _. apply keeps_write_field. lia.
Qed.

Lemma written_value_is_read_back_witness :
  exists stored,
    bind_value (PStr "101") = Ok stored /\
    cell_value (write_data_with_mapping sample_data sample_mapping
                  sample_template).1 1 1 = stored.
Proof.
  apply (written_value_is_read_back sample_template _ sample_data
           sample_mapping 0 {[ "unit" := PStr "101" ]} [] [] "unit" "A"
           (PStr "101") 1).
  - reflexivity.
  - reflexivity.
  - reflexivity.
  - done.
  - reflexivity.
  - done.
  - reflexivity.
  - intros f l v Hin. by apply elem_of_nil in Hin.
Defined.

(** X14.  Old data is cleared, also between the mapped columns.  With at
    least one record, a first data row of at least 1 and column letters
    that are all column names, after the call (whether the writing returns
    or raises) every cell from row [data_start_row] to row
    [data_start_row + len(data) + 10] and from the smallest to the largest
    mapped column that held no formula and is not a cell the writing is
    sent to holds None; a column that lies between two mapped columns is
    cleared although no field is mapped to it. *)
Theorem stale_cells_are_cleared
    (ws : worksheet) (data : list (gmap string pyval)) (cfg : mapping_config)
    (n : Z) (ns : list Z) (r c : Z) :
  data <> [] ->
  1 <= default 1 (data_start_row cfg) ->
  column_numbers (omap (fun fc => truthy fc.2) (default [] (columns cfg)))
  = Ok (n :: ns) ->
  cleared_rectangle data (default 1 (data_start_row cfg)) n ns r c = true ->
  is_formula (cell_value ws r c) = false ->
  ~ write_target data cfg r c ->
  cell_value (write_data_with_mapping data cfg ws).1 r c = PNone.
Proof.
  intros Hdata Hrow Hn Hrect Hf Hnt.
  assert (Hclear : clear_phase data (default [] (columns cfg))
                     (default 1 (data_start_row cfg)) ws
                   = clear_data_rows (default 1 (data_start_row cfg))
                       (default 1 (data_start_row cfg)
                        + Z.of_nat (length data) + 10)
                       (minimum n ns) (maximum n ns) ws).
  { unfold clear_phase. destruct data as [|d data]; [done|].
    destruct (omap _ _) as [|l letters]; [done|].
    unfold bind, lift. by rewrite Hn. }
  assert (Hcol : 1 <= minimum n ns).
  { apply column_numbers_Ok in Hn.
    assert (Hall : Forall (Z.le 1) (n :: ns)).
    { apply Forall_forall. intros m Hm.
      apply list_elem_of_lookup in Hm as [k Hk].
      destruct (Forall2_lookup_r _ _ _ _ _ Hn Hk) as (l & _ & Hl).
      by apply column_index_positive in Hl. }
    inversion Hall; subst. by apply minimum_bound. }
  destruct (clear_data_rows_cleared (default 1 (data_start_row cfg))
              (default 1 (data_start_row cfg) + Z.of_nat (length data) + 10)
              (minimum n ns) (maximum n ns) ws Hrow Hcol) as [Hok Hcl].
  rewrite <- Hclear in Hok, Hcl.
  specialize (Hcl r c). unfold cleared_rectangle in Hrect.
  rewrite Hrect, Hf in Hcl. cbn [andb negb] in Hcl.
  unfold write_data_with_mapping, bind.
  destruct (clear_phase data _ _ ws) as [ws1 [[]|e]]; [|done].
  cbn [fst] in Hcl.
  by apply (keeps_write_phase r c PNone data cfg Hnt ws1).
Qed.

Lemma stale_cells_are_cleared_witness :
  cell_value
    (write_data_with_mapping sample_data
       {| columns := Some [("unit", Some "A"); ("rent", Some "C")];
          data_start_row := Some 2 |}
       (<[(3, 2) := PStr "old"]> sample_template)).1 3 2
  = PNone.
Proof.
  apply (stale_cells_are_cleared _ sample_data
           {| columns := Some [("unit", Some "A"); ("rent", Some "C")];
              data_start_row := Some 2 |} 1 [3] 3 2).
  - done.
  - simpl. lia.
  - reflexivity.
  - reflexivity.
  - reflexivity.
  - intros (i & rd & field & letter & value & _ & Hc & _ & _ & _ & Hn & _).
    simpl in Hc. apply elem_of_cons in Hc as [Hc|Hc].
    + injection Hc as _ ->. vm_compute in Hn. discriminate.
    + apply list_elem_of_singleton in Hc.
      injection Hc as _ ->. vm_compute in Hn. discriminate.
Defined.

End ExcelWriterCells.


(** ** Page chunks: runs of pages, chunk ids, forced boundaries *)

Module ChunkShapeFacts.
Import PyStr PyStrFacts Chunker ChunkerFacts ChunkShape.

Lemma text_of_snoc ps p :
  text_of (ps ++ [p]) = text_of ps +:+ page_content p.1 p.2.
Proof. unfold text_of. by rewrite foldl_app. Qed.

Lemma size_of_snoc ps p :
  size_of (ps ++ [p]) = size_of ps + len (page_content p.1 p.2).
Proof. unfold size_of. by rewrite foldl_app. Qed.

Lemma shape_initial chunk_size : shape chunk_size [] initial [] [].
Proof. split; try done. Qed.

Lemma shape_nonempty chunk_size seen st groups cur :
  shape chunk_size seen st groups cur ->
  current_chunk_pages st <> [] -> cur <> [].
Proof. intros H Hp ->. apply Hp. by rewrite (shape_pages _ _ _ _ _ H). Qed.

(** Adding a page to the current chunk. *)
Lemma shape_add chunk_size seen st groups cur page st' :
  shape chunk_size seen st groups cur ->
  chunks st' = chunks st ->
  current_chunk_pages st' = current_chunk_pages st ++ [page.1] ->
  current_chunk_text st'
  = current_chunk_text st +:+ page_content page.1 page.2 ->
  current_chunk_size st'
  = current_chunk_size st + len (page_content page.1 page.2) ->
  next_chunk_id st' = next_chunk_id st ->
  shape chunk_size (seen ++ [page]) st' groups (cur ++ [page]).
Proof.
  intros [Hcov Hch Hp Ht Hs Hid Hn Hadj Hlast] Ec Ep Et Es En.
  split.
  - by rewrite app_assoc, Hcov.
  - by rewrite Ec.
  - by rewrite Ep, Hp, fmap_app.
  - by rewrite Et, Ht, text_of_snoc.
  - by rewrite Es, Hs, size_of_snoc.
  - rewrite Ec. exact Hid.
  - by rewrite En, Ec.
  - rewrite Ec. exact Hadj.
  - rewrite Ec. intros c Hc. destruct (Hlast c Hc) as [?|(p & t & Hh & Hlt)].
    + by left.
    + right. exists p, t. split; [|done]. by destruct cur.
Qed.

(** Closing the current chunk: the lists of runs and of chunks grow
    together. *)
Lemma close_fields chunk_size seen st groups cur flag :
  shape chunk_size seen st groups cur -> cur <> [] ->
  concat (groups ++ [cur]) = seen /\
  Forall2 made_of (groups ++ [cur]) (chunks st ++ [close_chunk st flag]) /\
  (forall (i : nat) c,
     (chunks st ++ [close_chunk st flag]) !! i = Some c ->
     chunk_id c = Z.of_nat i) /\
  (forall (i : nat) c g p t,
     (chunks st ++ [close_chunk st flag]) !! i = Some c ->
     (groups ++ [cur]) !! (S i) = Some g ->
     head g = Some (p, t) -> forced chunk_size c p t).
Proof.
  intros [Hcov Hch Hp Ht Hs Hid Hn Hadj Hlast] Hcur.
  pose proof (Forall2_length _ _ _ Hch) as Hlen.
  split; [|split; [|split]].
  - rewrite concat_app. simpl. by rewrite app_nil_r.
  - apply Forall2_app; [done|]. constructor; [|constructor].
    unfold made_of. fields. by rewrite Hp, Ht, Hs.
  - intros i c Hc. apply lookup_app_Some in Hc as [Hc|[Hge Hc]].
    + by apply Hid.
    + apply list_lookup_singleton_Some in Hc as [Hi <-]. fields. lia.
  - intros i c g p t Hc Hg Hh.
    apply lookup_app_Some in Hg as [Hg|[Hge Hg]].
    + apply lookup_lt_Some in Hg as Hlt.
      rewrite lookup_app_l in Hc by lia. by eapply Hadj.
    + apply list_lookup_singleton_Some in Hg as [Hi <-].
      rewrite lookup_app_l in Hc by lia.
      assert (Hl : last (chunks st) = Some c).
      { rewrite last_lookup. rewrite <- Hc. f_equal. lia. }
      destruct (Hlast c Hl) as [?|(p' & t' & Hh' & Hlt)]; [by left|].
      right. congruence.
Qed.

Lemma shape_close chunk_size seen st groups cur flag cur' st' :
  shape chunk_size seen st groups cur -> cur <> [] ->
  chunks st' = chunks st ++ [close_chunk st flag] ->
  current_chunk_pages st' = cur'.*1 ->
  current_chunk_text st' = text_of cur' ->
  current_chunk_size st' = size_of cur' ->
  next_chunk_id st' = next_chunk_id st + 1 ->
  (flag = true \/
   exists p t, head cur' = Some (p, t) /\
               chunk_size < size_of cur + len (page_content p t)) ->
  shape chunk_size (seen ++ cur') st' (groups ++ [cur]) cur'.
Proof.
  intros Hshape Hcur Ec Ep Et Es En Hforced.
  destruct (close_fields _ _ _ _ _ flag Hshape Hcur)
    as (Hcov & Hch & Hid & Hadj).
  destruct Hshape as [_ Hch0 _ _ Hs _ Hn _ _].
  split; rewrite ?Ec; try done.
  - by rewrite Hcov.
  - rewrite En, Hn, length_app. simpl. lia.
  - intros c. rewrite last_snoc. intros [= <-]. fields. rewrite Hs.
    destruct Hforced as [->|?]; [by left|by right].
Qed.

Lemma shape_step chunk_size seen st groups cur page :
  shape chunk_size seen st groups cur ->
  exists groups' cur',
    shape chunk_size (seen ++ [page]) (step chunk_size st page) groups' cur'.
Proof.
  intros Hshape. destruct page as [p t]. unfold step.
  set (size := len (page_content p t)).
  set (st1 := if bool_decide (current_chunk_pages st <> []) && _ then _ else _).
  assert (H1 : exists groups1 cur1,
             shape chunk_size (seen ++ [(p, t)]) st1 groups1 cur1).
  { subst st1.
    destruct (bool_decide (current_chunk_pages st <> [])
              && (chunk_size <? current_chunk_size st + size)) eqn:Hc.
    - apply andb_true_iff in Hc as [Hne Hlt].
      apply bool_decide_eq_true in Hne. apply Z.ltb_lt in Hlt.
      exists (groups ++ [cur]), [(p, t)].
      eapply (shape_close _ _ _ _ _ false [(p, t)]); try done.
      + by eapply shape_nonempty.
      + right. exists p, t. split; [done|].
        by rewrite <- (shape_size _ _ _ _ _ Hshape).
    - exists groups, (cur ++ [(p, t)]). by eapply shape_add. }
  destruct H1 as (groups1 & cur1 & Hshape1).
  destruct ((chunk_size <? size)
            && (length (current_chunk_pages st1) =? 1)%nat) eqn:Hbig.
  - apply andb_true_iff in Hbig as [_ Hone]. apply Nat.eqb_eq in Hone.
    exists (groups1 ++ [cur1]), [].
    rewrite <- (app_nil_r (seen ++ [(p, t)])).
    eapply (shape_close _ _ _ _ _ true []); try done.
    + eapply shape_nonempty; [done|]. by destruct (current_chunk_pages st1).
    + by left.
  - by exists groups1, cur1.
Qed.

Lemma shape_fold chunk_size l : forall seen st groups cur,
  shape chunk_size seen st groups cur ->
  exists groups' cur',
    shape chunk_size (seen ++ l) (foldl (step chunk_size) st l) groups' cur'.
Proof.
  induction l as [|page l IH]; intros seen st groups cur H; simpl.
  - rewrite app_nil_r. eauto.
  - destruct (shape_step _ _ _ _ _ page H) as (g1 & c1 & H1).
    replace (seen ++ page :: l) with ((seen ++ [page]) ++ l)
      by (by rewrite <- app_assoc).
    by eapply IH.
Qed.

(** The chunks follow a division of the sorted pages into runs. *)
Lemma create_page_chunks_shape pages_text chunk_size :
  exists groups,
    concat groups = sorted_pages pages_text /\
    Forall2 made_of groups (create_page_chunks pages_text chunk_size) /\
    (forall (i : nat) c,
       create_page_chunks pages_text chunk_size !! i = Some c ->
       chunk_id c = Z.of_nat i) /\
    (forall (i : nat) c g p t,
       create_page_chunks pages_text chunk_size !! i = Some c ->
       groups !! (S i) = Some g ->
       head g = Some (p, t) -> forced chunk_size c p t).
Proof.
  unfold create_page_chunks, finish.
  destruct (shape_fold chunk_size (sorted_pages pages_text) [] initial [] []
              (shape_initial chunk_size)) as (groups & cur & Hshape).
  rewrite app_nil_l in Hshape.
  destruct (bool_decide _) eqn:Hne.
  - apply bool_decide_eq_true in Hne. exists (groups ++ [cur]).
    apply (close_fields _ _ _ _ _ false Hshape).
    by eapply shape_nonempty.
  - apply bool_decide_eq_false in Hne.
    destruct Hshape as [Hcov Hch Hp _ _ Hid _ Hadj _].
    assert (cur = []) as ->.
    { destruct cur; [done|]. exfalso. apply Hne. intros E. by rewrite E in Hp. }
    rewrite app_nil_r in Hcov. by exists groups.
Qed.

(** X15.  The chunks of [create_page_chunks] follow a division of the
    sorted pages into consecutive runs, none of them empty: a chunk lists
    the page numbers of its run, its content is the marked-up text of
    these pages, concatenated in order and stripped, its [char_count] is
    the sum of the lengths of the marked-up pages (the text before it is
    stripped), and the chunk at index [i] has [chunk_id] equal to [i]. *)
Theorem chunks_are_runs_of_pages (pages_text : gmap Z string)
    (chunk_size : Z) :
  exists groups,
    concat groups = sorted_pages pages_text /\
    Forall2 made_of groups (create_page_chunks pages_text chunk_size) /\
    forall (i : nat) c,
      create_page_chunks pages_text chunk_size !! i = Some c ->
      chunk_id c = Z.of_nat i.
Proof.
  destruct (create_page_chunks_shape pages_text chunk_size)
    as (groups & Hcov & Hch & Hid & _).
  by exists groups.
Qed.

(** X16.  A chunk ends only where it has to.  Of two chunks that follow
    each other, either the first is an oversized single page, or the first
    page of the second did not fit: the first chunk's [char_count] plus
    the length of that page with its header is over the budget. *)
Theorem chunk_boundaries_are_forced (pages_text : gmap Z string)
    (chunk_size : Z) (i : nat) (c c' : chunk) (p : Z) :
  create_page_chunks pages_text chunk_size !! i = Some c ->
  create_page_chunks pages_text chunk_size !! (S i) = Some c' ->
  head (pages c') = Some p ->
  oversized c = true \/
  exists text,
    pages_text !! p = Some text /\
    chunk_size < char_count c + len (page_content p text).
Proof.
  intros Hc Hc' Hp.
  destruct (create_page_chunks_shape pages_text chunk_size)
    as (groups & Hcov & Hch & _ & Hadj).
  destruct (Forall2_lookup_r _ _ _ _ _ Hch Hc') as (g & Hg & Hm).
  destruct Hm as (Hne & Hpages & _ & _).
  destruct g as [|[p' t] g]; [done|].
  rewrite Hpages in Hp. injection Hp as ->.
  destruct (Hadj i c _ p t Hc Hg eq_refl) as [?|Hlt]; [by left|].
  right. exists t. split; [|done].
  apply sorted_pages_elem. rewrite <- Hcov.
  apply OMMergeFacts.elem_of_concat. exists ((p, t) :: g). split; [by left|].
  by eapply list_elem_of_lookup_2.
Qed.

Lemma chunk_boundaries_are_forced_witness :
  exists c,
    create_page_chunks {[ 1 := "first page"; 2 := "second page" ]} 40 !! 0%nat
    = Some c /\
    (oversized c = true \/
     exists text,
       ({[ 1 := "first page"; 2 := "second page" ]} : gmap Z string) !! 2
       = Some text /\
       40 < char_count c + len (page_content 2 text)).
Proof.
  eexists. split; [vm_compute; reflexivity|].
  eapply (chunk_boundaries_are_forced _ 40 0).
  - vm_compute. reflexivity.
  - vm_compute. reflexivity.
  - reflexivity.
Defined.

End ChunkShapeFacts.


(** ** Page classification: parsing and conversion *)

Module OMParseFacts.
Import PyStr PyNum PyInt OM BoundaryClassifier OMFacts StripFacts OMParse.

Lemma dict_get_set_eq d key v : dict_get (dict_set d key v) key = Some v.
Proof.
  induction d as [|[k x] d IH]; simpl.
  - by rewrite String.eqb_refl.
  - destruct (String.eqb k key) eqn:E; simpl; by rewrite E.
Qed.

Lemma dict_get_set_ne d key v key' :
  key <> key' -> dict_get (dict_set d key v) key' = dict_get d key'.
Proof.
  intros Hne. induction d as [|[k x] d IH]; simpl.
  - destruct (String.eqb_spec key key'); done.
  - destruct (String.eqb_spec k key) as [->|Hk]; simpl.
    + destruct (String.eqb_spec key key'); done.
    + by rewrite IH.
Qed.

Lemma field_name_inj f g : field_name f = field_name g -> f = g.
Proof. destruct f, g; simpl; intros H; try done; discriminate. Qed.

Lemma list_name_inj f g : list_name f = list_name g -> f = g.
Proof. destruct f, g; simpl; intros H; try done; discriminate. Qed.

Lemma field_list_names f g : field_name f <> list_name g.
Proof. destruct f, g; discriminate. Qed.

Lemma sorted_set_fixed l : StronglySorted Z.lt l -> sorted_set l = l.
Proof.
  intros Hs. unfold sorted_set.
  assert (Hnd : NoDup l).
  { induction Hs as [|x l Hs IH Hx]; constructor; [|done].
    intros Hin. rewrite Forall_forall in Hx. specialize (Hx x Hin). lia. }
  apply (Sorted_unique Z.le).
  - apply Sorted_merge_sort; apply _.
  - apply StronglySorted_Sorted.
    induction Hs as [|x l Hs IH Hx]; constructor.
    + apply IH. by inversion Hnd.
    + eapply Forall_impl; [exact Hx|]. intros; simpl in *. lia.
  - rewrite merge_sort_Permutation. by apply elements_list_to_set.
Qed.

(** *** The loop over a page list *)

Lemma int_of_raises x e :
  int_of x = Raise e -> e = TypeError \/ e = ValueError \/ e = OverflowError.
Proof.
  destruct x as [| | |[| |]| | |]; simpl; try (intros [= <-]; auto); try done.
  destruct (int_of_string s); [done|]. intros [= <-]. auto.
Qed.

Lemma clean_step_cases acc x :
  match int_of x with
  | Ok n => clean_step acc x = Ok (if 0 <? n then acc ++ [n] else acc)
  | Raise OverflowError => clean_step acc x = Raise OverflowError
  | Raise _ => clean_step acc x = Ok acc
  end.
Proof.
  unfold clean_step. destruct (int_of x) as [n|e] eqn:Hx; [done|].
  destruct (int_of_raises _ _ Hx) as [->|[->| ->]]; done.
Qed.

Lemma clean_loop pages : forall acc,
  (exists x, x ∈ pages /\ int_of x = Raise OverflowError) /\
    rfold clean_step pages acc = Raise OverflowError \/
  (forall x, x ∈ pages -> int_of x <> Raise OverflowError) /\
    exists l, rfold clean_step pages acc = Ok (acc ++ l) /\
      forall p, p ∈ l <-> exists x, x ∈ pages /\ int_of x = Ok p /\ 0 < p.
Proof.
  induction pages as [|x pages IH]; intros acc.
  - right. split; [by intros ? ?%elem_of_nil|]. exists []. rewrite app_nil_r.
    split; [done|]. intros p. split; [by intros ?%elem_of_nil|].
    by intros (? & ?%elem_of_nil & _).
  - cbn [rfold]. pose proof (clean_step_cases acc x) as Hstep.
    destruct (int_of x) as [n|e] eqn:Hx.
    + rewrite Hstep. cbn [rbind].
      destruct (IH (if 0 <? n then acc ++ [n] else acc))
        as [[(y & Hy & Ho) ->]|[Hno (l & -> & Hl)]].
      * left. split; [|done]. exists y. split; [by right|done].
      * right. split.
        { intros y [->|Hy]%elem_of_cons; [congruence|by apply Hno]. }
        destruct (Z.ltb_spec 0 n).
        -- exists (n :: l). split; [by rewrite <- app_assoc|].
           intros p. rewrite elem_of_cons, Hl. split.
           ++ intros [->|(y & Hy & H')].
              ** exists x. split; [by left|done].
              ** exists y. split; [by right|done].
           ++ intros (y & [->|Hy]%elem_of_cons & Hn & Hp).
              ** left. congruence.
              ** right. by exists y.
        -- exists l. split; [done|]. intros p. rewrite Hl. split.
           ++ intros (y & Hy & H'). exists y. split; [by right|done].
           ++ intros (y & [->|Hy]%elem_of_cons & Hn & Hp).
              ** exfalso. assert (p = n) by congruence. lia.
              ** by exists y.
    + assert (He : e = OverflowError \/ e <> OverflowError)
        by (destruct e; auto).
      destruct He as [->|He].
      * rewrite Hstep. left. split; [|done]. exists x. split; [by left|done].
      * assert (Hskip : clean_step acc x = Ok acc) by (by destruct e).
        rewrite Hskip. cbn [rbind].
        destruct (IH acc) as [[(y & Hy & Ho) ->]|[Hno (l & -> & Hl)]].
        -- left. split; [|done]. exists y. split; [by right|done].
        -- right. split.
           { intros y [->|Hy]%elem_of_cons; [congruence|by apply Hno]. }
           exists l. split; [done|]. intros p. rewrite Hl. split.
           ++ intros (y & Hy & H'). exists y. split; [by right|done].
           ++ intros (y & [->|Hy]%elem_of_cons & Hn & Hp); [congruence|].
              by exists y.
Qed.

(** A cleaned page list: it is raised as OverflowError exactly when an
    entry overflows; otherwise it holds, strictly increasing, the positive
    integers its entries convert to. *)
Lemma clean_page_list_spec pages :
  (exists x, x ∈ pages /\ int_of x = Raise OverflowError) /\
    clean_page_list pages = Raise OverflowError \/
  (forall x, x ∈ pages -> int_of x <> Raise OverflowError) /\
    exists l, clean_page_list pages = Ok l /\
      StronglySorted Z.lt l /\
      forall p, p ∈ l <-> exists x, x ∈ pages /\ int_of x = Ok p /\ 0 < p.
Proof.
  unfold clean_page_list.
  destruct (clean_loop pages []) as [[Hex ->]|[Hno (l & -> & Hl)]].
  - by left.
  - right. split; [done|]. exists (sorted_set l). rewrite app_nil_l.
    split; [done|]. split; [apply sorted_set_strict|].
    intros p. by rewrite sorted_set_elem.
Qed.

Lemma clean_positive_list l :
  StronglySorted Z.lt l -> Forall (Z.lt 0) l ->
  clean_page_list (PInt <$> l) = Ok l.
Proof.
  intros Hs Hpos.
  destruct (clean_page_list_spec (PInt <$> l))
    as [[(x & Hx & Ho) _]|[_ (l' & -> & Hs' & Hl')]].
  - apply list_elem_of_fmap in Hx as (n & -> & _). discriminate.
  - f_equal. rewrite <- (sorted_set_fixed l), <- (sorted_set_fixed l') by done.
    apply sorted_set_ext. intros p. rewrite Hl'. split.
    + intros (x & Hx & Hn & _).
      apply list_elem_of_fmap in Hx as (n & -> & Hn'). simpl in Hn. congruence.
    + intros Hp. exists (PInt p). split; [by apply list_elem_of_fmap_2|].
      split; [done|]. rewrite Forall_forall in Hpos. by apply Hpos.
Qed.

(** *** Loops over the field names *)

Lemma collect_Ok {K V} (fields : list K) (f : K -> result V) (h : K -> V) :
  (forall k, k ∈ fields -> f k = Ok (h k)) ->
  collect fields f = Ok ((fun k => (k, h k)) <$> fields).
Proof.
  induction fields as [|k ks IH]; intros Hf; simpl; [done|].
  rewrite Hf by (by left). cbn [rbind].
  rewrite IH; [done|]. intros k' Hk'. apply Hf. by right.
Qed.

Lemma collect_inv {K V} `{EqDecision K} (fields : list K) (f : K -> result V)
    (dflt : V) l :
  collect fields f = Ok l ->
  forall k, k ∈ fields -> f k = Ok (field_of dflt l k).
Proof.
  revert l. induction fields as [|k ks IH]; intros l; simpl.
  - intros _ k ?%elem_of_nil. done.
  - destruct (f k) as [v|e] eqn:Hk; [|done]. cbn [rbind].
    destruct (collect ks f) as [rest|e]; [|done]. cbn [rbind].
    intros [= <-] k' Hk'. simpl.
    destruct (decide (k = k')) as [<-|Hne]; [done|].
    apply IH; [done|]. apply elem_of_cons in Hk' as [->|?]; done.
Qed.

Lemma field_of_fmap {K V} `{EqDecision K} (fields : list K) (h : K -> V)
    (dflt : V) k :
  k ∈ fields -> field_of dflt ((fun k => (k, h k)) <$> fields) k = h k.
Proof.
  induction fields as [|k' ks IH]; simpl.
  - by intros ?%elem_of_nil.
  - intros Hk. destruct (decide (k' = k)) as [->|Hne]; [done|].
    apply IH. apply elem_of_cons in Hk as [->|?]; done.
Qed.

Lemma all_property_info_fields f : f ∈ property_info_fields.
Proof. unfold property_info_fields. destruct f; set_solver. Qed.

Lemma all_page_list_fields f : f ∈ page_list_fields.
Proof. unfold page_list_fields. destruct f; set_solver. Qed.

End OMParseFacts.


Module OMConversion.
Import PyStr PyNum PyInt OM BoundaryClassifier OMFacts StripFacts OMParse.
Import OMParseFacts.

Lemma represents_empty : represents create_empty_result_dict create_empty_result.
Proof.
  split; intros f.
  - exists PNone. by destruct f.
  - split; [by destruct f|]. split; constructor.
Qed.

Lemma represents_set_info d r f s n :
  represents d r -> strip s = s ->
  represents
    (dict_set d (field_name f)
       (PDict [("value", PStr s); ("first_page", PInt n)]))
    {| property_info := fun g =>
         if decide (g = f) then Some {| value := s; first_page := n |}
         else property_info r g;
       page_list := page_list r |}.
Proof.
  intros [Hi Hl] Hs. split.
  - intros g. cbn [property_info]. destruct (decide (g = f)) as [->|Hne].
    + eexists. split; [apply dict_get_set_eq|]. by split.
    + rewrite dict_get_set_ne; [apply Hi|].
      intros E. apply Hne. symmetry. by apply field_name_inj.
  - intros g. cbn [page_list].
    rewrite dict_get_set_ne by apply field_list_names. apply Hl.
Qed.

Lemma represents_set_pages d r f l :
  represents d r -> StronglySorted Z.lt l -> Forall (Z.lt 0) l ->
  represents
    (dict_set d (list_name f) (PList (PInt <$> l)))
    {| property_info := property_info r;
       page_list := fun g => if decide (g = f) then l else page_list r g |}.
Proof.
  intros [Hi Hl] Hs Hp. split.
  - intros g. cbn [property_info].
    rewrite dict_get_set_ne; [apply Hi|].
    intros E. by apply (field_list_names g f).
  - intros g. cbn [page_list]. destruct (decide (g = f)) as [->|Hne].
    + by rewrite dict_get_set_eq.
    + rewrite dict_get_set_ne; [apply Hl|].
      intros E. apply Hne. symmetry. by apply list_name_inj.
Qed.

Section Convert.
Variable py_repr : pyval -> string.
Variable json_loads : string -> result pyval.

Lemma info_step_represents parsed clean r f clean' :
  represents clean r ->
  info_step py_repr parsed clean f = Ok clean' ->
  exists r', represents clean' r'.
Proof.
  intros Hr. unfold info_step.
  destruct (dict_get parsed (field_name f)) as [x|];
    [|intros [= <-]; by exists r].
  destruct x as [| | | | | |fd]; try (intros [= <-]; by exists r).
  destruct (dict_get fd "value") as [v|]; [|intros [= <-]; by exists r].
  destruct (dict_get fd "first_page") as [fp|]; [|intros [= <-]; by exists r].
  destruct (int_of fp) as [n|e]; [|done]. cbn [rbind]. intros [= <-].
  eexists. apply represents_set_info; [done|]. apply strip_idempotent.
Qed.

Lemma pages_step_represents parsed clean r f clean' :
  represents clean r ->
  pages_step parsed clean f = Ok clean' ->
  exists r', represents clean' r'.
Proof.
  intros Hr. unfold pages_step.
  destruct (dict_get parsed (list_name f)) as [x|];
    [|intros [= <-]; by exists r].
  destruct x as [| | | | |pages|]; try (intros [= <-]; by exists r).
  destruct (clean_page_list_spec pages) as [[_ ->]|[_ (l' & -> & Hs & Hl)]];
    [done|].
  cbn [rbind]. intros [= <-].
  eexists. apply represents_set_pages; [done|done|].
  apply Forall_forall. intros q Hq. apply Hl in Hq as (x & _ & _ & Hpos). done.
Qed.

Lemma rfold_represents {K} (step : dict -> K -> result dict) fields :
  (forall clean r f clean',
     represents clean r -> step clean f = Ok clean' ->
     exists r', represents clean' r') ->
  forall clean r clean',
    represents clean r -> rfold step fields clean = Ok clean' ->
    exists r', represents clean' r'.
Proof.
  intros Hstep. induction fields as [|f fields IH]; intros clean r clean' Hr.
  - simpl. intros [= <-]. by exists r.
  - cbn [rfold]. destruct (step clean f) as [c1|e] eqn:E; [|done].
    cbn [rbind]. destruct (Hstep _ _ _ _ Hr E) as [r1 Hr1]. by apply (IH c1 r1).
Qed.

Lemma clean_result_represents parsed d :
  clean_result_of py_repr parsed = Ok d -> exists r, represents d r.
Proof.
  unfold clean_result_of.
  destruct (rfold (info_step py_repr parsed) _ _) as [c1|e] eqn:E1; [|done].
  cbn [rbind]. intros E2.
  destruct (rfold_represents (info_step py_repr parsed) property_info_fields
              (info_step_represents parsed) _ _ _ represents_empty E1)
    as [r1 Hr1].
  by apply (rfold_represents (pages_step parsed) page_list_fields
              (pages_step_represents parsed) _ _ _ Hr1 E2).
Qed.

Lemma parse_represents response d :
  parse_llm_response py_repr json_loads response = Ok d ->
  exists r, represents d r.
Proof.
  unfold parse_llm_response.
  assert (Hempty : forall d0, Ok create_empty_result_dict = Ok d0 ->
                              exists r, represents d0 r).
  { intros d0 [= <-]. exists create_empty_result. apply represents_empty. }
  destruct (search_object_greedy response) as [json_str|]; [|by apply Hempty].
  destruct (json_loads json_str) as [parsed|e]; cbn [rbind].
  - destruct parsed; try by apply Hempty.
    destruct (clean_result_of py_repr d0) as [c|e] eqn:E.
    + intros [= <-]. by apply (clean_result_represents d0).
    + destruct e; try done; by apply Hempty.
  - destruct e; try done; by apply Hempty.
Qed.

Lemma from_dict_represents d r :
  represents d r ->
  exists r', from_dict py_repr d = Ok r' /\
    (forall f, property_info r' f = property_info r f) /\
    (forall f, page_list r' f = page_list r f).
Proof.
  intros [Hi Hl]. unfold from_dict.
  rewrite (collect_Ok property_info_fields _ (property_info r)).
  2:{ intros f _. destruct (Hi f) as (x & -> & Hx). unfold parsed_info in Hx.
      destruct (property_info r f) as [[v n]|].
      - destruct Hx as [-> Hs]. simpl in *. by rewrite Hs.
      - by subst x. }
  cbn [rbind].
  rewrite (collect_Ok page_list_fields _ (page_list r)).
  2:{ intros f _. unfold pages_of. destruct (Hl f) as (-> & Hs & Hp).
      by apply clean_positive_list. }
  cbn [rbind]. eexists. split; [reflexivity|]. cbn [property_info page_list].
  split; intros f; apply field_of_fmap.
  - apply all_property_info_fields.
  - apply all_page_list_fields.
Qed.

Lemma represents_ext d r r' :
  (forall f, property_info r' f = property_info r f) ->
  (forall f, page_list r' f = page_list r f) ->
  represents d r -> represents d r'.
Proof.
  intros Ei El [Hi Hl]. split; intros f.
  - rewrite Ei. apply Hi.
  - rewrite El. apply Hl.
Qed.

Lemma from_dict_pages data r f :
  from_dict py_repr data = Ok r ->
  pages_of data f = Ok (page_list r f).
Proof.
  unfold from_dict. destruct (collect property_info_fields _); [|done].
  cbn [rbind]. destruct (collect page_list_fields _) as [lists|] eqn:E; [|done].
  cbn [rbind]. intros [= <-]. cbn [page_list].
  apply (collect_inv _ _ [] _ E). apply all_page_list_fields.
Qed.

Lemma info_fold_raises parsed fields : forall clean,
  (forall f fd fp,
     dict_get parsed (field_name f) = Some (PDict fd) ->
     dict_get fd "first_page" = Some fp -> int_of fp <> Raise OverflowError) ->
  (exists f fd v fp,
     f ∈ fields /\
     dict_get parsed (field_name f) = Some (PDict fd) /\
     dict_get fd "value" = Some v /\ dict_get fd "first_page" = Some fp /\
     forall n, int_of fp <> Ok n) ->
  exists e, rfold (info_step py_repr parsed) fields clean = Raise e /\
            (e = TypeError \/ e = ValueError).
Proof.
  intros clean Hno. revert clean.
  induction fields as [|k ks IH]; intros clean (f & fd & v & fp & Hin & Hf).
  - by apply elem_of_nil in Hin.
  - cbn [rfold].
    assert (Hk : (exists c, info_step py_repr parsed clean k = Ok c) \/
                 (exists e, info_step py_repr parsed clean k = Raise e /\
                            (e = TypeError \/ e = ValueError))).
    { unfold info_step.
      destruct (dict_get parsed (field_name k)) as [x|] eqn:Ex; [|eauto].
      destruct x; eauto.
      destruct (dict_get d "value"); [|eauto].
      destruct (dict_get d "first_page") as [fp'|] eqn:Efp; [|eauto].
      destruct (int_of fp') as [n|e] eqn:En; cbn [rbind]; [eauto|].
      right. exists e. split; [done|].
      destruct (int_of_raises _ _ En) as [?|[?| ->]]; auto.
      exfalso. by eapply Hno. }
    apply elem_of_cons in Hin as [->|Hin].
    + destruct Hf as (Hd & Hv & Hfp & Hbad). unfold info_step.
      rewrite Hd, Hv, Hfp.
      destruct (int_of fp) as [n|e] eqn:En; [by destruct (Hbad n)|].
      cbn [rbind]. exists e. split; [done|].
      destruct (int_of_raises _ _ En) as [?|[?| ->]]; auto.
      exfalso. by eapply Hno.
    + destruct Hk as [[c ->]|(e & -> & He)]; cbn [rbind].
      * apply IH. by exists f, fd, v, fp.
      * by exists e.
Qed.

End Convert.

(** X17.  What [parse_llm_response] returns always converts.  On every
    dict the parser returns, whatever the answer and whatever [json.loads]
    made of it, [from_dict] raises nothing and the model it builds holds
    what the dict holds: each property-info entry of the dict is None or a
    value that [strip] leaves unchanged with its first page, and each page
    list of the dict is the model's list, strictly increasing and
    positive. *)
Theorem parsed_result_converts (py_repr : pyval -> string)
    (json_loads : string -> result pyval) (response : string) (d : dict) :
  parse_llm_response py_repr json_loads response = Ok d ->
  exists r, from_dict py_repr d = Ok r /\ represents d r.
Proof.
  intros Hparse.
  destruct (parse_represents _ _ _ _ Hparse) as [r0 Hr0].
  destruct (from_dict_represents py_repr d r0 Hr0) as (r & Hr & Ei & El).
  exists r. split; [done|]. by apply (represents_ext d r0).
Qed.

Lemma parsed_result_converts_witness :
  exists d r,
    parse_llm_response (fun _ => "")
      (fun _ => Ok (PDict [("t12", PList [PInt 3; PStr "1"; PInt 3; PNone;
                                          PInt (-2)])]))
      "pages: {...}" = Ok d /\
    from_dict (fun _ => "") d = Ok r /\ represents d r.
Proof.
  eexists.
  destruct (parsed_result_converts (fun _ => "")
              (fun _ => Ok (PDict [("t12", PList [PInt 3; PStr "1"; PInt 3;
                                                  PNone; PInt (-2)])]))
              "pages: {...}" _ eq_refl) as (r & Hr & Hrep).
  exists r. split; [reflexivity|]. split; [exact Hr|exact Hrep].
Defined.

(** X18.  The page lists of [from_dict], for any dict it accepts.  A page
    list of the model is strictly increasing.  When the dict holds a list
    for the field, the model's list has exactly the positive integers that
    [int()] gives on the entries of that list (entries on which [int()]
    raises ValueError or TypeError, and entries that are zero or negative,
    are left out), and no entry overflows: an entry on which [int()]
    raises OverflowError makes [from_dict] raise.  When the key is missing
    or its value is not a list, the model's list is empty. *)
Theorem from_dict_page_lists (py_repr : pyval -> string) (data : dict)
    (r : EnhancedClassificationResult) (f : page_list_field) :
  from_dict py_repr data = Ok r ->
  StronglySorted Z.lt (page_list r f) /\
  (forall pages,
     dict_get data (list_name f) = Some (PList pages) ->
     (forall x, x ∈ pages -> int_of x <> Raise OverflowError) /\
     forall p, p ∈ page_list r f <->
               exists x, x ∈ pages /\ int_of x = Ok p /\ 0 < p) /\
  ((forall pages, dict_get data (list_name f) <> Some (PList pages)) ->
   page_list r f = []).
Proof.
  intros Hr. pose proof (from_dict_pages py_repr data r f Hr) as Hp.
  unfold pages_of in Hp.
  assert (Hnil : clean_page_list [] = Ok []) by (by vm_compute).
  destruct (dict_get data (list_name f)) as [x|] eqn:Ex.
  - destruct x as [| | | | |pages|];
      try (injection Hp as <-; split; [constructor|]; split; [done|done]).
    destruct (clean_page_list_spec pages)
      as [[_ Hraise]|[Hno (l & Hl & Hs & Hel)]]; [congruence|].
    assert (page_list r f = l) as -> by congruence.
    split; [done|]. split.
    + intros pages' [= <-]. by split.
    + intros Hnone. by destruct (Hnone pages).
  - rewrite Hnil in Hp. injection Hp as <-.
    split; [constructor|]. split; [done|done].
Qed.

Lemma from_dict_page_lists_witness :
  exists r,
    from_dict (fun _ => "")
      [("rent_roll", PList [PInt 7; PStr " 4 "; PFloat (FFin 5 (-1));
                            PStr "x"; PInt 7])] = Ok r /\
    StronglySorted Z.lt (page_list r rent_roll).
Proof.
  eexists. split; [vm_compute; reflexivity|].
  eapply (from_dict_page_lists (fun _ => "")
            [("rent_roll", PList [PInt 7; PStr " 4 "; PFloat (FFin 5 (-1));
                                  PStr "x"; PInt 7])] _ rent_roll).
  vm_compute. reflexivity.
Defined.

(** X19.  One first page that does not convert empties the whole result.
    When the answer parses to an object in which some property-info field
    is a dict with "value" and "first_page" whose first page [int()]
    rejects, and no first page overflows, [parse_llm_response] returns the
    empty result: the ValueError or TypeError is caught around both loops,
    so the other property fields and all page lists of the answer are
    dropped with it. *)
Theorem bad_first_page_empties_result (py_repr : pyval -> string)
    (json_loads : string -> result pyval) (response json_str : string)
    (parsed : dict) :
  search_object_greedy response = Some json_str ->
  json_loads json_str = Ok (PDict parsed) ->
  (forall f fd fp,
     dict_get parsed (field_name f) = Some (PDict fd) ->
     dict_get fd "first_page" = Some fp -> int_of fp <> Raise OverflowError) ->
  (exists f fd v fp,
     dict_get parsed (field_name f) = Some (PDict fd) /\
     dict_get fd "value" = Some v /\ dict_get fd "first_page" = Some fp /\
     forall n, int_of fp <> Ok n) ->
  parse_llm_response py_repr json_loads response = Ok create_empty_result_dict.
Proof.
  intros Hs Hj Hno (f & fd & v & fp & Hbad).
  unfold parse_llm_response. rewrite Hs, Hj. cbn [rbind].
  unfold clean_result_of.
  destruct (info_fold_raises py_repr parsed property_info_fields
              create_empty_result_dict Hno) as (e & -> & He).
  { exists f, fd, v, fp. split; [apply all_property_info_fields|done]. }
  cbn [rbind]. by destruct He as [-> | ->].
Qed.

Lemma bad_first_page_empties_result_witness :
  parse_llm_response (fun _ => "")
    (fun _ => Ok (PDict [("address",
                          PDict [("value", PStr "1 Main St");
                                 ("first_page", PStr "three")]);
                         ("t12", PList [PInt 4; PInt 5])]))
    "{...}"
  = Ok create_empty_result_dict.
Proof.
  eapply (bad_first_page_empties_result _ _ "{...}" "{...}").
  - reflexivity.
  - reflexivity.
  - intros f fd fp Hf Hfp. destruct f; try discriminate.
    injection Hf as <-. injection Hfp as <-. discriminate.
  - exists address. eexists _, _, _. split; [reflexivity|].
    split; [reflexivity|]. split; [reflexivity|]. discriminate.
Defined.

End OMConversion.


(** ** Chunks for classification, pages for a description *)

Module OMExtractionFacts.
Import PyStr Chunker ChunkerFacts ChunkShape ChunkShapeFacts.
Import OMExtractionService.

Lemma sorted_pages_nonempty (pages_text : gmap Z string) :
  pages_text <> ∅ -> sorted_pages pages_text <> [].
Proof.
  intros Hne Hnil. apply Hne. apply map_to_list_empty_iff.
  apply Permutation_nil_r. rewrite <- Hnil. unfold sorted_pages.
  by rewrite merge_sort_Permutation.
Qed.

(** A page map that is not empty gives at least one chunk. *)
Lemma page_chunks_nonempty (pages_text : gmap Z string) chunk_size :
  pages_text <> ∅ -> create_page_chunks pages_text chunk_size <> [].
Proof.
  intros Hne Hnil.
  destruct (create_page_chunks_shape pages_text chunk_size)
    as (groups & Hcov & Hch & _).
  rewrite Hnil in Hch. apply Forall2_nil_inv_r in Hch as ->.
  by apply (sorted_pages_nonempty pages_text).
Qed.

(** X20.  [create_chunks_for_classification] fails only on an empty page
    map (status 400).  On any other page map it returns the chunks of
    [create_page_chunks], of which there is at least one (the second 400,
    for no chunks, cannot happen), and [num_chunks] lies between 1 and the
    number of chunks, so every index below [num_chunks] is an index of a
    chunk; it is the number of chunks when [max_chunks] is not positive. *)
Theorem classification_chunks_in_range (chunk_size max_chunks : Z)
    (pages_text : gmap Z string) :
  (pages_text = ∅ ->
   create_chunks_for_classification chunk_size max_chunks pages_text
   = HTTPException 400 "No text content provided") /\
  (pages_text <> ∅ ->
   exists out,
     create_chunks_for_classification chunk_size max_chunks pages_text
     = Returned out /\
     chunks out = create_page_chunks pages_text chunk_size /\
     chunks out <> [] /\
     1 <= num_chunks out <= Z.of_nat (length (chunks out)) /\
     (max_chunks <= 0 -> num_chunks out = Z.of_nat (length (chunks out)))).
Proof.
  unfold create_chunks_for_classification. split.
  - intros ->. by rewrite decide_True.
  - intros Hne. rewrite decide_False by done.
    pose proof (page_chunks_nonempty pages_text chunk_size Hne) as Hch.
    destruct (create_page_chunks pages_text chunk_size) as [|c cs] eqn:E;
      [done|].
    eexists. split; [reflexivity|]. cbn [chunks num_chunks].
    split; [done|]. split; [done|].
    destruct (Z.ltb_spec 0 max_chunks); simpl length; split; lia.
Qed.

Lemma relevant_texts_none (pages_text : gmap Z string) page_numbers :
  omap (relevant_text pages_text) page_numbers = [] <->
  forall p, p ∈ page_numbers -> relevant_text pages_text p = None.
Proof.
  induction page_numbers as [|q l IH]; simpl.
  - split; [intros _ p ?%elem_of_nil; done|done].
  - destruct (relevant_text pages_text q) eqn:E.
    + split; [done|]. intros H. specialize (H q (list_elem_of_here _ _)).
      congruence.
    + rewrite IH. split.
      * intros H p [->|Hp]%elem_of_cons; auto.
      * intros H p Hp. apply H. by right.
Qed.

(** X21.  [get_relevant_description_pages] returns exactly when some
    listed page exists and has text that is not blank; otherwise, also for
    an empty page map or an empty list of page numbers, it raises an
    HTTPException with status 400, never another status.  What it returns
    is the blocks of the listed pages that have text, in the order of the
    list (a page listed twice gives two blocks), joined by an empty
    line. *)
Theorem description_pages_outcome (pages_text : gmap Z string)
    (page_numbers : list Z) :
  let has_text p :=
    exists text, pages_text !! p = Some text /\ nonempty (strip text) = true in
  ((exists p, p ∈ page_numbers /\ has_text p) ->
   get_relevant_description_pages pages_text page_numbers
   = Returned (join (nl +:+ nl) (omap (relevant_text pages_text) page_numbers))
   /\ omap (relevant_text pages_text) page_numbers <> []) /\
  (~ (exists p, p ∈ page_numbers /\ has_text p) ->
   exists detail,
     get_relevant_description_pages pages_text page_numbers
     = HTTPException 400 detail).
Proof.
  cbn zeta. unfold get_relevant_description_pages. split.
  - intros (p & Hp & text & Ht & Hne).
    assert (Hsome : omap (relevant_text pages_text) page_numbers <> []).
    { rewrite relevant_texts_none. intros H. specialize (H p Hp).
      unfold relevant_text in H. rewrite Ht in H. cbn zeta in H.
      by rewrite Hne in H. }
    rewrite decide_False by (intros ->; by rewrite lookup_empty in Ht).
    destruct page_numbers as [|q l]; [by apply elem_of_nil in Hp|].
    by destruct (omap _ (q :: l)).
  - intros Hnone. destruct (decide (pages_text = ∅)); [by eexists|].
    destruct page_numbers as [|q l]; [by eexists|].
    assert (Hnil : omap (relevant_text pages_text) (q :: l) = []).
    { apply relevant_texts_none. intros p Hp. unfold relevant_text.
      destruct (pages_text !! p) as [text|] eqn:Ht; [|done]. cbn zeta.
      destruct (nonempty (strip text)) eqn:Hne; [|done].
      exfalso. apply Hnone. exists p. split; [done|]. by exists text. }
    rewrite Hnil. by eexists.
Qed.

End OMExtractionFacts.


(** ** Rent-roll chunks: runs of pages and of lines *)

Module RentRollChunksFacts.
Import PyStr PyStrFacts StripFacts SplitFacts RentRollChunks.

Section Loop.
Variable item_size : string -> Z.
Variable make_chunk : Z -> list string -> chunk.
Variable chunk_size : Z.

Lemma total_snoc g x :
  total item_size (g ++ [x]) = total item_size g + item_size x.
Proof. unfold total. by rewrite foldl_app. Qed.

Lemma chunks_of_snoc groups g :
  chunks_of make_chunk (groups ++ [g])
  = chunks_of make_chunk groups
    ++ [make_chunk (Z.of_nat (length groups)) g].
Proof.
  unfold chunks_of. rewrite imap_app. simpl. by rewrite Nat.add_0_r.
Qed.

Lemma loop_initial : loop_inv item_size make_chunk chunk_size [] initial [].
Proof. split; try done; simpl; auto; try constructor. Qed.

(** Closing the current run. *)
Lemma close_packing seen st groups :
  loop_inv item_size make_chunk chunk_size seen st groups ->
  current_chunk st <> [] ->
  chunks st ++ [make_chunk (next_chunk_id st) (current_chunk st)]
  = chunks_of make_chunk (groups ++ [current_chunk st]) /\
  packing item_size chunk_size seen (groups ++ [current_chunk st]).
Proof.
  intros [Hch Hn Hs Hcov Hne Hb Hcur Hg Hl Hst] Hc. split.
  - by rewrite chunks_of_snoc, Hch, Hn.
  - split.
    + rewrite concat_app. simpl. by rewrite app_nil_r.
    + apply Forall_app. split; [done|]. by apply Forall_singleton.
    + apply Forall_app. split; [done|]. apply Forall_singleton.
      destruct Hcur as [?|Hlen]; [by left|right].
      destruct (current_chunk st) as [|? [|? ?]]; simpl in *; try done; lia.
    + intros i g g' x Hi Hi' Hx.
      apply lookup_app_Some in Hi' as [Hi'|[Hge Hi']].
      * apply lookup_lt_Some in Hi' as Hlt.
        rewrite lookup_app_l in Hi by lia. by eapply Hg.
      * apply list_lookup_singleton_Some in Hi' as [Hlen <-].
        rewrite lookup_app_l in Hi by lia.
        apply Hl; [|done]. rewrite last_lookup, <- Hi. f_equal. lia.
Qed.

Lemma loop_step seen st groups item :
  loop_inv item_size make_chunk chunk_size seen st groups ->
  exists groups',
    loop_inv item_size make_chunk chunk_size (seen ++ [item])
             (step item_size make_chunk chunk_size st item) groups'.
Proof.
  intros Hinv. unfold step.
  destruct (bool_decide (current_chunk st <> [])
            && (chunk_size <? current_chunk_size st + item_size item)) eqn:Hc.
  - apply andb_true_iff in Hc as [Hne Hlt].
    apply bool_decide_eq_true in Hne. apply Z.ltb_lt in Hlt.
    destruct (close_packing _ _ _ Hinv Hne) as [Hch [Hcov Hnon Hb Hg]].
    destruct Hinv as [_ Hn Hs _ _ _ _ _ _ _].
    exists (groups ++ [current_chunk st]). split; cbn [chunks current_chunk
      current_chunk_size next_chunk_id]; try done.
    + rewrite Hn, length_app. simpl. lia.
    + by rewrite Hcov.
    + right. simpl. lia.
    + intros g x. rewrite last_snoc. intros [= <-] [= <-]. by rewrite <- Hs.
  - destruct Hinv as [Hch Hn Hs Hcov Hne Hb Hcur Hg Hl Hst].
    exists groups. split; cbn [chunks current_chunk current_chunk_size
      next_chunk_id]; try done.
    + by rewrite Hs, total_snoc.
    + by rewrite app_assoc, Hcov.
    + destruct (current_chunk st) as [|y l] eqn:E; [right; simpl; lia|].
      left. rewrite total_snoc, <- Hs.
      apply andb_false_iff in Hc as [Hc|Hc].
      * apply bool_decide_eq_false in Hc. by destruct Hc.
      * apply Z.ltb_ge in Hc. lia.
    + intros g x Hlast Hx.
      destruct (current_chunk st) as [|y l] eqn:E.
      * rewrite (Hst eq_refl) in Hlast. done.
      * apply Hl; [done|]. by simpl in *.
    + intros E. by destruct (current_chunk st).
Qed.

Lemma loop_fold items : forall seen st groups,
  loop_inv item_size make_chunk chunk_size seen st groups ->
  exists groups',
    loop_inv item_size make_chunk chunk_size (seen ++ items)
             (foldl (step item_size make_chunk chunk_size) st items) groups'.
Proof.
  induction items as [|x items IH]; intros seen st groups H; simpl.
  - rewrite app_nil_r. eauto.
  - destruct (loop_step _ _ _ x H) as (g1 & H1).
    replace (seen ++ x :: items) with ((seen ++ [x]) ++ items)
      by (by rewrite <- app_assoc).
    by eapply IH.
Qed.

(** The chunks of the loop are made of a packing of the items. *)
Lemma chunk_loop_packing items :
  exists groups,
    chunk_loop item_size make_chunk chunk_size items
    = chunks_of make_chunk groups /\
    packing item_size chunk_size items groups.
Proof.
  unfold chunk_loop, finish.
  destruct (loop_fold items [] initial [] loop_initial) as (groups & Hinv).
  rewrite app_nil_l in Hinv.
  destruct (bool_decide _) eqn:Hne.
  - apply bool_decide_eq_true in Hne.
    eexists. by apply close_packing.
  - apply bool_decide_eq_false in Hne.
    assert (Hnil : current_chunk
                     (foldl (step item_size make_chunk chunk_size) initial
                        items) = []).
    { destruct (current_chunk _); [done|]. exfalso. by apply Hne. }
    destruct Hinv as [Hch _ _ Hcov Hnon Hb _ Hg _ _].
    rewrite Hnil, app_nil_r in Hcov. exists groups. by split.
Qed.

End Loop.

Lemma packing_nil item_size chunk_size : packing item_size chunk_size [] [].
Proof. split; try done; constructor. Qed.

Lemma chunks_of_lookup make_chunk groups (i : nat) g :
  groups !! i = Some g ->
  chunks_of make_chunk groups !! i = Some (make_chunk (Z.of_nat i) g).
Proof. intros H. unfold chunks_of. by rewrite list_lookup_imap, H. Qed.

Lemma chunks_of_nil make_chunk groups :
  chunks_of make_chunk groups = [] -> groups = [].
Proof.
  intros H. apply (f_equal length) in H. unfold chunks_of in H.
  rewrite length_imap in H. by apply length_zero_iff_nil.
Qed.

Lemma chunks_of_length make_chunk groups :
  length (chunks_of make_chunk groups) = length groups.
Proof. unfold chunks_of. apply length_imap. Qed.

(** The length of a joined list: the items and one separator between
    each two. *)
Lemma len_join_nl g :
  g <> [] ->
  len (join nl g) = total len g + Z.of_nat (length g) - 1.
Proof.
  intros Hne.
  assert (Hgen : forall acc l,
            foldl (fun a x => a + len x) acc l
            = acc + foldl (fun a x => a + len x) 0 l).
  { intros acc l. revert acc. induction l as [|x l IH]; intros acc; simpl.
    - lia.
    - rewrite (IH (acc + len x)), (IH (0 + len x)). lia. }
  unfold total. induction g as [|x g IH]; [done|].
  destruct g as [|y g].
  - simpl. lia.
  - rewrite join_cons. unfold len in *. rewrite !append_length.
    cbn [foldl]. rewrite Hgen.
    assert (Hy : y :: g <> []) by done. specialize (IH Hy).
    cbn [foldl] in IH. rewrite Hgen in IH.
    change (String.length nl) with 1%nat.
    cbn [length] in *. lia.
Qed.

Lemma page_labels_seq start_page g :
  page_labels start_page g = seqZ start_page (Z.of_nat (length g)).
Proof.
  unfold page_labels.
  replace (seqZ start_page (Z.of_nat (length g)))
    with (Z.add start_page <$> seqZ 0 (Z.of_nat (length g)))
    by (rewrite fmap_add_seqZ; f_equal; lia).
  apply list_fmap_ext. intros; lia.
Qed.

End RentRollChunksFacts.


Module RentRollChunkShape.
Import PyStr PyStrFacts StripFacts SplitFacts RentRollChunks.
Import RentRollChunksFacts.

Lemma total_plus_one g :
  total (fun line => len line + 1) g = total len g + Z.of_nat (length g).
Proof.
  induction g as [|x g IH] using rev_ind; [done|].
  rewrite !total_snoc, IH, length_app. simpl. lia.
Qed.

Lemma join_head_nonempty sep x l :
  x <> "" -> join sep (x :: l) <> "".
Proof.
  intros Hx. destruct x as [|c x]; [done|].
  destruct l; simpl; [done|]. by rewrite append_cons.
Qed.

(** X22.  The chunks of [_chunk_pdf_rent_roll_data] follow a division of
    the page texts into consecutive runs, none empty; the page texts of a
    run are together within [chunk_size] unless the run is a single page,
    and a run ends only where the next page text did not fit.  The chunk
    at index [i] has [chunk_id] equal to [i], its content is the header
    line followed by the page texts of its run joined by newlines, and its
    [char_count] counts the header and the newlines, which the budget does
    not.  Its [pages] are numbered from the start page of the boundaries
    in every chunk, whichever pages the chunk holds. *)
Theorem pdf_chunks_number_pages_from_start
    (precision_extraction : PdfPrecision.PDFRentRollPrecisionExtract)
    (chunk_size chunk_overlap : Z) :
  let boundaries := PdfPrecision.extract_boundaries precision_extraction in
  let header := header_context (PdfPrecision.boundary_headers boundaries) in
  let out :=
    _chunk_pdf_rent_roll_data precision_extraction chunk_size chunk_overlap in
  exists groups,
    packing len chunk_size
      (join nl <$> PdfPrecision.relevant_data precision_extraction) groups /\
    length out = length groups /\
    forall (i : nat) g,
      groups !! i = Some g ->
      exists c,
        out !! i = Some c /\
        chunk_id c = Z.of_nat i /\
        content c = header +:+ join nl g /\
        pages c = Some (seqZ (PdfPrecision.start_page boundaries)
                             (Z.of_nat (length g))) /\
        char_count c = len header + total len g + Z.of_nat (length g) - 1.
Proof.
  cbn zeta. unfold _chunk_pdf_rent_roll_data.
  destruct (PdfPrecision.relevant_data precision_extraction) as [|d ds] eqn:E.
  - exists []. split; [apply packing_nil|]. split; [done|]. by intros i g.
  - destruct (chunk_loop_packing len
                (pdf_chunk
                   (PdfPrecision.boundary_headers
                      (PdfPrecision.extract_boundaries precision_extraction))
                   (PdfPrecision.start_page
                      (PdfPrecision.extract_boundaries precision_extraction)))
                chunk_size (join nl <$> d :: ds)) as (groups & -> & Hp).
    exists groups. split; [done|]. split; [apply chunks_of_length|].
    intros i g Hg. eexists. split; [by apply chunks_of_lookup|].
    cbn [pdf_chunk chunk_id content pages char_count].
    split; [done|]. split; [done|]. split; [by rewrite page_labels_seq|].
    unfold len at 1. rewrite append_length.
    assert (Hne : g <> []).
    { destruct Hp as [_ Hnon _ _]. rewrite Forall_forall in Hnon.
      apply Hnon. by eapply list_elem_of_lookup_2. }
    pose proof (len_join_nl g Hne) as Hlen. unfold len in *. lia.
Qed.

(** X23.  [_chunk_excel_rent_roll_data] keeps every line.  With at least
    one sheet and a text that is not empty, the chunks follow a division
    of the lines of the enumerated text into consecutive runs, none empty,
    and the lines of all chunks, joined by newlines again, are the
    enumerated text.  A chunk's content is the header line followed by its
    lines, its [chunk_id] is its index, and its [char_count] without the
    header is the size the loop counted less one; that size is within
    [chunk_size] unless the chunk is a single line. *)
Theorem excel_chunks_keep_every_line
    (precision_extraction : ExcelPrecision.ExcelRentRollPrecisionExtract)
    (chunk_size chunk_overlap : Z) :
  ExcelPrecision.sheets precision_extraction <> [] ->
  ExcelPrecision.enumerated_text precision_extraction <> "" ->
  let boundaries := ExcelPrecision.extract_boundaries precision_extraction in
  let header := header_context (ExcelPrecision.boundary_headers boundaries) in
  let out :=
    _chunk_excel_rent_roll_data precision_extraction chunk_size chunk_overlap in
  exists groups,
    packing (fun line => len line + 1) chunk_size
      (split "010"%char (ExcelPrecision.enumerated_text precision_extraction))
      groups /\
    join nl (concat groups)
    = ExcelPrecision.enumerated_text precision_extraction /\
    length out = length groups /\
    forall (i : nat) g,
      groups !! i = Some g ->
      exists c,
        out !! i = Some c /\
        chunk_id c = Z.of_nat i /\
        content c = header +:+ join nl g /\
        char_count c
        = len header + total (fun line => len line + 1) g - 1.
Proof.
  intros Hsheets Htext. cbn zeta. unfold _chunk_excel_rent_roll_data.
  destruct (ExcelPrecision.sheets precision_extraction) as [|sh shs] eqn:Es;
    [done|].
  destruct (ExcelPrecision.enumerated_text precision_extraction)
    as [|ch text] eqn:Et; [done|].
  cbn [nonempty].
  pose proof (split_nonempty "010"%char (String ch text)) as Hlines.
  destruct (split "010"%char (String ch text)) as [|l ls] eqn:El; [done|].
  destruct (chunk_loop_packing (fun line => len line + 1)
              (excel_chunk
                 (ExcelPrecision.boundary_headers
                    (ExcelPrecision.extract_boundaries precision_extraction))
                 (sh :: shs))
              chunk_size (l :: ls)) as (groups & -> & Hp).
  exists groups. split; [done|]. split.
  { rewrite (packing_cover _ _ _ _ Hp), <- El. apply join_split. }
  split; [apply chunks_of_length|].
  intros i g Hg. eexists. split; [by apply chunks_of_lookup|].
  cbn [excel_chunk chunk_id content char_count].
  split; [done|]. split; [done|].
  unfold len at 1. rewrite append_length.
  assert (Hne : g <> []).
  { destruct Hp as [_ Hnon _ _]. rewrite Forall_forall in Hnon.
    apply Hnon. by eapply list_elem_of_lookup_2. }
  pose proof (len_join_nl g Hne) as Hlen. rewrite total_plus_one.
  unfold len in *. lia.
Qed.

Lemma excel_chunks_keep_every_line_witness :
  exists groups,
    join nl (concat groups) = "Sheet: RR" +:+ nl +:+ "Row 1: 101" /\
    length
      (_chunk_excel_rent_roll_data
         {| ExcelPrecision.sheets := [ExcelPrecision.sample_sheet];
            ExcelPrecision.total_sheets := 1;
            ExcelPrecision.enumerated_text :=
              "Sheet: RR" +:+ nl +:+ "Row 1: 101";
            ExcelPrecision.extract_boundaries :=
              {| ExcelPrecision.boundary_sheet_name := "RR";
                 ExcelPrecision.start_row := 1;
                 ExcelPrecision.end_row := 1;
                 ExcelPrecision.start_column := None;
                 ExcelPrecision.end_column := None;
                 ExcelPrecision.boundary_headers := ["Unit"] |} |} 12 0)
    = length groups.
Proof.
  destruct (excel_chunks_keep_every_line
              {| ExcelPrecision.sheets := [ExcelPrecision.sample_sheet];
                 ExcelPrecision.total_sheets := 1;
                 ExcelPrecision.enumerated_text :=
                   "Sheet: RR" +:+ nl +:+ "Row 1: 101";
                 ExcelPrecision.extract_boundaries :=
                   {| ExcelPrecision.boundary_sheet_name := "RR";
                      ExcelPrecision.start_row := 1;
                      ExcelPrecision.end_row := 1;
                      ExcelPrecision.start_column := None;
                      ExcelPrecision.end_column := None;
                      ExcelPrecision.boundary_headers := ["Unit"] |} |} 12 0)
    as (groups & _ & Hjoin & Hlen & _).
  - done.
  - done.
  - exists groups. split; [exact Hjoin|exact Hlen].
Defined.

(** X24.  The chunks made from a PDF precision extract always validate.
    For the extract [_extract_pdf_with_boundaries] returns,
    [chunk_rent_roll_data] gives no chunk when the extract has no page and
    otherwise at least one chunk, and [validate_chunks] accepts these
    chunks: every chunk holds at least one page, every page at least one
    line that is not empty, so no [char_count] is 0. *)
Theorem pdf_extract_chunks_validate (page_data : list PdfPrecision.page)
    (classification : PdfPrecision.PDFRentRollClassification)
    (chunk_size chunk_overlap : Z) :
  let extract :=
    PdfPrecision._extract_pdf_with_boundaries page_data classification in
  let out :=
    chunk_rent_roll_data (ExtractionService.PdfExtract extract)
      chunk_size chunk_overlap in
  (PdfPrecision.relevant_data extract = [] -> out = []) /\
  (PdfPrecision.relevant_data extract <> [] ->
   out <> [] /\ validate_chunks out = true).
Proof.
  cbn zeta. cbn [chunk_rent_roll_data]. unfold _chunk_pdf_rent_roll_data.
  split; [by intros ->|]. intros Hne.
  set (extract := PdfPrecision._extract_pdf_with_boundaries page_data
                    classification) in *.
  assert (Hpages : forall t, t ∈ (join nl <$> PdfPrecision.relevant_data extract)
                             -> t <> "").
  { intros t (content & -> & Hin)%list_elem_of_fmap. subst extract.
    rewrite PdfFacts.relevant_data_spec in Hin.
    apply list_elem_of_filter in Hin as [Hc Hin].
    apply list_elem_of_fmap in Hin as (p & -> & _).
    destruct (PdfPrecision.page_content classification p) as [|line ls] eqn:E;
      [done|].
    apply join_head_nonempty.
    assert (Hline : line ∈ PdfPrecision.page_content classification p)
      by (rewrite E; by left).
    unfold PdfPrecision.page_content in Hline.
    by apply PrecisionShape.lines_of_clean in Hline as [Hl _]. }
  destruct (PdfPrecision.relevant_data extract) as [|d ds] eqn:E; [done|].
  destruct (chunk_loop_packing len
              (pdf_chunk
                 (PdfPrecision.boundary_headers
                    (PdfPrecision.extract_boundaries extract))
                 (PdfPrecision.start_page
                    (PdfPrecision.extract_boundaries extract)))
              chunk_size (join nl <$> d :: ds))
    as (groups & -> & [Hcov Hnon _ _]).
  assert (Hgroups : groups <> []) by (intros ->; done).
  assert (Hout : chunks_of
                   (pdf_chunk
                      (PdfPrecision.boundary_headers
                         (PdfPrecision.extract_boundaries extract))
                      (PdfPrecision.start_page
                         (PdfPrecision.extract_boundaries extract)))
                   groups <> []).
  { intros Hnil. by apply chunks_of_nil in Hnil. }
  split; [done|].
  - unfold validate_chunks.
    destruct (chunks_of _ groups) as [|c cs] eqn:Ec; [done|].
    rewrite <- Ec. apply forallb_forall. intros c' Hc'.
    apply list_elem_of_In, list_elem_of_lookup in Hc' as [i Hi].
    unfold chunks_of in Hi. rewrite list_lookup_imap in Hi.
    destruct (groups !! i) as [g|] eqn:Hg; [|done]. injection Hi as <-.
    unfold valid_chunk. cbn [pdf_chunk char_count file_type].
    rewrite andb_true_r. apply negb_true_iff, Z.leb_gt.
    rewrite Forall_forall in Hnon.
    pose proof (Hnon g (list_elem_of_lookup_2 _ _ _ Hg)) as Hgne.
    destruct g as [|t g]; [done|].
    assert (Ht : t <> "").
    { apply Hpages. rewrite <- Hcov. apply OMMergeFacts.elem_of_concat.
      exists (t :: g). split; [by left|]. by eapply list_elem_of_lookup_2. }
    pose proof (join_head_nonempty nl t g Ht) as Hj.
    unfold len. rewrite append_length.
    destruct (join nl (t :: g)); [done|]. simpl. lia.
Qed.

End RentRollChunkShape.


(** ** Reading the rows of a sheet *)

Module SheetRowsFacts.
Import PyStr PyStrFacts StripFacts SheetRows.

Lemma gap_shift n l1 l2 : gap_in n l2 -> gap_in n (l1 ++ l2).
Proof.
  intros [i Hi]. exists (length l1 + i)%nat. intros j Hj.
  rewrite <- Nat.add_assoc, lookup_app_r by lia.
  replace (length l1 + (i + j) - length l1)%nat with (i + j)%nat by lia.
  by apply Hi.
Qed.

Lemma gap_prefix n l1 l2 : gap_in n l1 -> gap_in n (l1 ++ l2).
Proof.
  intros [i Hi]. exists i. intros j Hj.
  apply lookup_app_l_Some. by apply Hi.
Qed.

Lemma replicate_snoc (c : nat) (l : list bool) :
  replicate c true ++ true :: l = replicate (S c) true ++ l.
Proof. induction c as [|c IH]; simpl; [done|]. by rewrite IH. Qed.

Section Loop.
Variable max_rows : Z.
Hypothesis Hmax : 1 <= max_rows.

(** With [c] empty rows just seen, a run of empty rows that brings the
    count to the limit stops the loop. *)
Lemma loop_stops gap post acc (c : nat) :
  Forall (fun r => is_empty r = true) gap ->
  Z.of_nat c < max_rows <= Z.of_nat c + Z.of_nat (length gap) ->
  iter_rows_loop max_rows (gap ++ post) acc (Z.of_nat c) = acc.
Proof.
  intros Hgap. revert c. induction Hgap as [|r gap Hr _ IH]; intros c Hc.
  - simpl in Hc. lia.
  - cbn [app iter_rows_loop]. rewrite Hr. cbn zeta.
    destruct (Z.leb_spec max_rows (Z.of_nat c + 1)); [done|].
    replace (Z.of_nat c + 1) with (Z.of_nat (S c)) by lia.
    apply IH. simpl in Hc. lia.
Qed.

(** As long as no run of [max_rows] empty rows is met, the loop keeps the
    rows that are not empty and goes on. *)
Lemma loop_keeps pre : forall rest acc (c : nat),
  Z.of_nat c < max_rows ->
  ~ gap_in (Z.to_nat max_rows) (replicate c true ++ (is_empty <$> pre)) ->
  exists c' : nat,
    Z.of_nat c' < max_rows /\
    iter_rows_loop max_rows (pre ++ rest) acc (Z.of_nat c)
    = iter_rows_loop max_rows rest
        (acc ++ filter (fun r => is_empty r = false) pre) (Z.of_nat c') /\
    (forall gap, Forall (fun r => is_empty r = true) gap ->
       (length gap = Z.to_nat max_rows)%nat ->
       max_rows <= Z.of_nat c' + Z.of_nat (length gap)).
Proof.
  induction pre as [|r pre IH]; intros rest acc c Hc Hno.
  - exists c. simpl. rewrite app_nil_r. split; [done|]. split; [done|].
    intros gap _ Hlen. lia.
  - cbn [app iter_rows_loop fmap list_fmap] in *.
    destruct (is_empty r) eqn:Hr.
    + cbn zeta.
      assert (Hlt : Z.of_nat c + 1 < max_rows).
      { destruct (Z.lt_ge_cases (Z.of_nat c + 1) max_rows); [done|].
        exfalso. apply Hno. exists 0%nat. intros j Hj. simpl.
        destruct (decide (j < c)%nat).
        - apply lookup_app_l_Some. by apply lookup_replicate_2.
        - rewrite lookup_app_r by (rewrite length_replicate; lia).
          rewrite length_replicate.
          by replace (j - c)%nat with 0%nat by lia. }
      destruct (Z.leb_spec max_rows (Z.of_nat c + 1)); [lia|].
      replace (Z.of_nat c + 1) with (Z.of_nat (S c)) by lia.
      rewrite filter_cons_False by (by rewrite Hr).
      apply IH; [lia|]. by rewrite replicate_snoc in Hno.
    + rewrite filter_cons_True by done.
      destruct (IH rest (acc ++ [r]) 0%nat) as (c' & Hc' & Heq & Hgap).
      * lia.
      * intros Hg. apply Hno. simpl in Hg.
        apply gap_shift. by apply (gap_shift _ [false]).
      * exists c'. split; [done|]. split; [|done].
        change (Z.of_nat 0) with 0 in Heq. rewrite Heq.
        by rewrite <- app_assoc.
Qed.

End Loop.

(** X25.  [iter_rows_efficiently] with a limit of at least 1.  When the
    sheet has no run of [max_consecutive_empty_rows] empty rows, the
    result is all rows that are not empty, in order.  When the rows before
    the first such run are [pre], the result is the rows of [pre] that are
    not empty, and every row after the run is left out, empty or not. *)
Theorem rows_after_a_gap_are_dropped (rows : list raw_row)
    (max_consecutive_empty_rows : Z) :
  1 <= max_consecutive_empty_rows ->
  let n := Z.to_nat max_consecutive_empty_rows in
  (~ gap_in n (is_empty <$> rows) ->
   iter_rows_efficiently rows max_consecutive_empty_rows
   = filter (fun r => is_empty r = false) rows) /\
  (forall pre gap post,
     rows = pre ++ gap ++ post ->
     ~ gap_in n (is_empty <$> pre) ->
     length gap = n ->
     Forall (fun r => is_empty r = true) gap ->
     iter_rows_efficiently rows max_consecutive_empty_rows
     = filter (fun r => is_empty r = false) pre).
Proof.
  intros Hmax. cbn zeta. unfold iter_rows_efficiently. split.
  - intros Hno.
    destruct (loop_keeps _ Hmax rows [] [] 0%nat) as (c' & _ & Heq & _).
    + lia.
    + done.
    + rewrite app_nil_r in Heq. change (Z.of_nat 0) with 0 in Heq.
      by rewrite Heq.
  - intros pre gap post -> Hno Hlen Hgap.
    destruct (loop_keeps _ Hmax pre (gap ++ post) [] 0%nat)
      as (c' & Hc' & Heq & Hreach).
    + lia.
    + done.
    + change (Z.of_nat 0) with 0 in Heq. rewrite Heq.
      rewrite app_nil_l. apply loop_stops; [done|].
      split; [done|]. by apply Hreach.
Qed.

Lemma rows_after_a_gap_are_dropped_witness :
  iter_rows_efficiently
    [[PStr "101"]; [PNone]; [PStr " "]; [PStr "102"]] 2
  = filter (fun r => is_empty r = false) [[PStr "101"]].
Proof.
  destruct (rows_after_a_gap_are_dropped
              [[PStr "101"]; [PNone]; [PStr " "]; [PStr "102"]] 2)
    as [_ Hgap]; [lia|].
  apply (Hgap [[PStr "101"]] [[PNone]; [PStr " "]] [[PStr "102"]]).
  - reflexivity.
  - intros [i Hi]. specialize (Hi 0%nat). simpl in Hi.
    destruct i as [|i]; [|rewrite Nat.add_0_r in Hi]; simpl in Hi;
      [specialize (Hi ltac:(lia)); discriminate|].
    specialize (Hi ltac:(lia)). by destruct i.
  - reflexivity.
  - by repeat constructor.
Defined.

Section Clean.
Variable py_repr : pyval -> string.

Lemma clean_spec (sheet_data : list raw_row) :
  clean_excel_data py_repr sheet_data
  = (fun row : raw_row => clean_cell py_repr <$> row)
      <$> filter (fun row => existsb (has_text py_repr) row = true) sheet_data.
Proof.
  unfold clean_excel_data.
  enough (H : forall acc,
    foldl (fun cleaned_data row =>
             if existsb (has_text py_repr) row
             then cleaned_data ++ [clean_cell py_repr <$> row]
             else cleaned_data) acc sheet_data
    = acc ++ ((fun row : raw_row => clean_cell py_repr <$> row)
                <$> filter (fun row => existsb (has_text py_repr) row = true)
                           sheet_data)) by apply (H []).
  induction sheet_data as [|row l IH]; intros acc; simpl.
  - by rewrite app_nil_r.
  - rewrite IH, filter_cons.
    destruct (existsb (has_text py_repr) row) eqn:E.
    + rewrite decide_True by done. simpl. by rewrite <- app_assoc.
    + rewrite decide_False by done. done.
Qed.

Lemma clean_cell_stripped cell :
  strip (clean_cell py_repr cell) = clean_cell py_repr cell.
Proof. destruct cell; simpl; try apply strip_idempotent; done. Qed.

Lemma has_text_clean cell :
  has_text py_repr (PStr (clean_cell py_repr cell)) = has_text py_repr cell.
Proof.
  destruct cell; cbn [has_text clean_cell RentRoll.py_str];
    rewrite ?strip_idempotent; done.
Qed.

Lemma clean_cell_clean cell :
  clean_cell py_repr (PStr (clean_cell py_repr cell))
  = clean_cell py_repr cell.
Proof.
  cbn [clean_cell RentRoll.py_str]. apply clean_cell_stripped.
Qed.

Lemma existsb_fmap {A B} (f : A -> B) (p : B -> bool) (l : list A) :
  existsb p (f <$> l) = existsb (fun x => p (f x)) l.
Proof.
  induction l as [|x l IH]; [done|].
  rewrite fmap_cons. cbn [existsb]. by rewrite IH.
Qed.

Lemma existsb_ext' {A} (p q : A -> bool) (l : list A) :
  (forall x, p x = q x) -> existsb p l = existsb q l.
Proof. intros H. induction l as [|x l IH]; simpl; [done|]. by rewrite H, IH. Qed.

End Clean.

(** X26.  [clean_excel_data] gives rows of stripped strings and is
    idempotent.  Every row it returns has a cell that is not empty, every
    cell is a string that [strip] leaves unchanged, the rows are the
    cleaned versions of the input rows that hold some text, in order, and
    cleaning the cleaned data again returns it unchanged. *)
Theorem clean_excel_data_idempotent (py_repr : pyval -> string)
    (sheet_data : list raw_row) :
  let out := clean_excel_data py_repr sheet_data in
  (forall row, row ∈ out ->
     (exists cell, cell ∈ row /\ cell <> "") /\
     forall cell, cell ∈ row -> strip cell = cell) /\
  (length out <= length sheet_data)%nat /\
  clean_excel_data py_repr ((fun row : list string => PStr <$> row) <$> out)
  = out.
Proof.
  cbn zeta. rewrite !clean_spec. split; [|split].
  - intros row (raw & -> & Hraw)%list_elem_of_fmap.
    apply list_elem_of_filter in Hraw as [Hkeep _]. split.
    + apply existsb_exists in Hkeep as (cell & Hin & Ht).
      exists (clean_cell py_repr cell). split.
      * apply list_elem_of_fmap_2. by apply list_elem_of_In.
      * destruct cell; simpl in *; try done;
          by destruct (strip _).
    + intros cell (c & -> & _)%list_elem_of_fmap. apply clean_cell_stripped.
  - rewrite length_fmap. apply length_filter.
  - induction sheet_data as [|row l IH]; [done|].
    rewrite filter_cons.
    destruct (decide (existsb (has_text py_repr) row = true)) as [Hk|Hk];
      [|exact IH].
    rewrite !fmap_cons, filter_cons.
    rewrite decide_True.
    + rewrite fmap_cons. f_equal; [|exact IH].
      rewrite <- !list_fmap_compose. apply list_fmap_ext.
      intros i cell _. simpl. apply clean_cell_clean.
    + rewrite <- list_fmap_compose, existsb_fmap.
      rewrite <- Hk. apply existsb_ext'. intros cell. simpl.
      apply has_text_clean.
Qed.

End SheetRowsFacts.


(** ** Validating T-12 line items *)

Module LineItemsFacts.
Import PyStr PyNum BoundaryClassifier StripFacts LineItems.

Lemma int_of_float_raises x e :
  int_of_float x = Raise e ->
  e = TypeError \/ e = ValueError \/ e = OverflowError.
Proof.
  unfold int_of_float, py_float, py_int.
  destruct x as [| |z|f|s| |]; cbn [rbind]; try (intros [= <-]; auto).
  - destruct (round_ratio _ _ _); cbn [rbind]; intros [= <-]; auto.
  - destruct f; intros [= <-]; auto.
  - destruct (float_of_string s) as [[| |]|]; cbn [rbind];
      intros [= <-]; auto.
Qed.

Section Validate.
Variable py_repr : pyval -> string.

Lemma validate_step_cases acc item :
  Forall good_item acc ->
  (overflowing_item item /\
   validate_step py_repr acc item = Raise OverflowError) \/
  (~ overflowing_item item /\
   exists acc', validate_step py_repr acc item = Ok acc' /\
                Forall good_item acc' /\
                (length acc <= length acc' <= length acc + 1)%nat).
Proof.
  intros Hacc.
  assert (Hskip : ~ overflowing_item item ->
            ~ overflowing_item item /\
            exists acc', Ok acc = Ok acc' /\ Forall good_item acc' /\
                         (length acc <= length acc' <= length acc + 1)%nat).
  { intros Hn. split; [done|]. exists acc. split; [done|]. split; [done|lia]. }
  unfold validate_step.
  destruct item as [| | | | | |d];
    try (right; apply Hskip; intros (? & ? & ? & ? & ? & _); discriminate).
  destruct (dict_get d "line_item") as [li|] eqn:Eli;
    [|right; apply Hskip; intros (? & ? & ? & ? & [= <-] & ? & _); congruence].
  destruct (dict_get d "category") as [cat|] eqn:Ecat;
    [|right; apply Hskip;
      intros (? & ? & ? & ? & [= <-] & _ & ? & _); congruence].
  destruct (dict_get d "total") as [tot|] eqn:Etot;
    [|right; apply Hskip;
      intros (? & ? & ? & ? & [= <-] & _ & _ & ? & _); congruence].
  cbn zeta.
  destruct (int_of_float tot) as [n|e] eqn:En.
  - right. split.
    { intros (? & ? & ? & ? & [= <-] & _ & _ & ? & ?). congruence. }
    cbn [line_item].
    destruct (is_valid_t12_category
                (if is_valid_t12_category (strip (RentRoll.py_str py_repr cat))
                 then strip (RentRoll.py_str py_repr cat) else "Unknown")
              && nonempty (strip (RentRoll.py_str py_repr li))) eqn:Hok.
    + eexists. split; [reflexivity|]. split.
      * apply Forall_app. split; [done|]. apply Forall_singleton.
        apply andb_true_iff in Hok as [Hc Hl].
        split; [exact Hc|]. split.
        -- cbn [line_item]. intros E. by rewrite E in Hl.
        -- apply strip_idempotent.
      * rewrite length_app. simpl. lia.
    + exists acc. split; [done|]. split; [done|lia].
  - destruct (int_of_float_raises _ _ En) as [->|[->| ->]].
    + right. apply Hskip.
      intros (? & ? & ? & ? & [= <-] & _ & _ & ? & ?). congruence.
    + right. apply Hskip.
      intros (? & ? & ? & ? & [= <-] & _ & _ & ? & ?). congruence.
    + left. split; [|done]. by exists d, li, cat, tot.
Qed.

Lemma validate_fold items : forall acc,
  Forall good_item acc ->
  (Exists overflowing_item items /\
   rfold (validate_step py_repr) items acc = Raise OverflowError) \/
  (Forall (fun item => ~ overflowing_item item) items /\
   exists out, rfold (validate_step py_repr) items acc = Ok out /\
               Forall good_item out /\
               (length out <= length acc + length items)%nat).
Proof.
  induction items as [|item items IH]; intros acc Hacc.
  - right. split; [constructor|]. exists acc. simpl. split; [done|].
    split; [done|lia].
  - cbn [rfold].
    destruct (validate_step_cases acc item Hacc)
      as [[Ho ->]|[Hn (acc' & -> & Hacc' & Hlen)]]; cbn [rbind].
    + left. split; [by left|done].
    + destruct (IH acc' Hacc') as [[Hex ->]|[Hall (out & -> & Hout & Hl)]].
      * left. split; [by right|done].
      * right. split; [by constructor|]. exists out. split; [done|].
        split; [done|]. simpl. lia.
Qed.

End Validate.

(** X27.  [validate_financial_line_items] either returns or raises
    OverflowError, and it raises exactly when some item that is a dict with
    the keys "line_item", "category" and "total" has a total on which
    [int(float(x))] overflows; the items before it are lost with it.
    Otherwise every item it returns has a category of the valid T-12
    categories (one that is not valid has become "Unknown", which is
    valid, so the later test on the category never fails) and a line item
    that is not empty and that [strip] leaves unchanged, and there are no
    more items than in the input.  An input that is not a list gives the
    empty list. *)
Theorem line_items_outcome (py_repr : pyval -> string) (data : pyval) :
  match data with
  | PList items =>
      (Exists overflowing_item items /\
       validate_financial_line_items py_repr data = Raise OverflowError) \/
      (Forall (fun item => ~ overflowing_item item) items /\
       exists out,
         validate_financial_line_items py_repr data = Ok out /\
         (length out <= length items)%nat /\
         forall it, it ∈ out ->
           is_valid_t12_category (category it) = true /\
           line_item it <> "" /\ strip (line_item it) = line_item it)
  | _ => validate_financial_line_items py_repr data = Ok []
  end.
Proof.
  destruct data as [| | | | |items|]; try reflexivity.
  cbn [validate_financial_line_items].
  destruct (validate_fold py_repr items [] (Forall_nil_2 _))
    as [[Hex Hr]|[Hall (out & Hr & Hout & Hlen)]].
  - by left.
  - right. split; [done|]. exists out. split; [done|]. split; [simpl in Hlen; lia|].
    intros it Hit. rewrite Forall_forall in Hout. by apply Hout.
Qed.

End LineItemsFacts.
